(** * TEASER boundary-condition and model exporters

    A shallow embedding of [teaser/logic/buildingobjects/calculation/aixlib.py]
    (class [AixLib]) and [teaser/Data/Output/annex60_output.py]
    (function [export_annex60]), Python 3 semantics.

    - Python [int] is [Z]; the quotient [a / b] of two ints is the correctly
      rounded binary64 value of the exact quotient, modelled over [Z].
    - Exceptions are an error type; a function that touches files or mutable
      lists threads the state explicitly and returns the state together
      with its result, so that effects made before an exception stay visible.
    - Mutable Python lists that are shared with the caller live in a heap of
      list objects addressed by location.
    - Files are a finite map from paths to their text.
    - What the two modules call and do not define (pandas, numpy, scipy,
      the template engine, the path and package helpers) is modelled by
      its documented behaviour or taken as a parameter. *)

From Stdlib Require Import ZArith Lia String Ascii DecimalString DecimalZ DecimalPos.
From stdpp Require Import base gmap list strings.

Local Open Scope Z_scope.

(* ================================================================== *)
(** * Part I: definitions *)
(* ================================================================== *)

(** ** Exceptions and results *)

Inductive exn :=
| AssertionError (msg : string)
| ZeroDivisionError
| OverflowError
| ValueError (msg : string)
| IndexError
| TypeError
| UnboundLocalError (var : string).

Inductive result (A : Type) :=
| Ok (a : A)
| Raise (e : exn).
Arguments Ok {A} a.
Arguments Raise {A} e.

#[global] Instance result_ret : MRet result := fun A a => Ok a.
#[global] Instance result_bind : MBind result := fun A B f m =>
  match m with
  | Ok a => f a
  | Raise e => Raise e
  end.

(** A [for] loop whose body may raise: the first exception ends the loop. *)
Fixpoint for_each {S X : Type} (body : S -> X -> result S) (s : S) (xs : list X)
  : result S :=
  match xs with
  | [] => Ok s
  | x :: xs' =>
      match body s x with
      | Ok s' => for_each body s' xs'
      | Raise e => Raise e
      end
  end.

(** ** Characters and text *)

Definition LF : string := String "010" EmptyString.
Definition TAB : string := String "009" EmptyString.

(** [str(z)] and ["{}".format(z)] for an int. *)
Definition str_of_Z (z : Z) : string := NilZero.string_of_int (Z.to_int z).

(** [sep.join(fields)]. *)
Definition join (sep : string) (fields : list string) : string :=
  String.concat sep fields.

(** [range(n)]: empty when [n <= 0]. *)
Definition range (n : Z) : list Z := seqZ 0 n.

(** [os.path.join(a, b)] on a POSIX system. *)
Definition os_path_join (a b : string) : string :=
  match b with
  | String "/" _ => b
  | _ =>
      match a with
      | EmptyString => b
      | _ => if String.eqb (String.substring (String.length a - 1) 1 a) "/"
             then a +:+ b
             else a +:+ "/" +:+ b
      end
  end.

(** ** Python floats

    A finite binary64 value is [f_mant * 2 ^ f_expo].  Only what the code
    uses is modelled: the quotient of two ints, [float.is_integer], [int()]
    and float literals. *)

Record float64 := F64 { f_mant : Z; f_expo : Z }.

(** [x.is_integer()] *)
Definition is_integer (x : float64) : bool :=
  if 0 <=? f_expo x then true
  else f_mant x mod 2 ^ (- f_expo x) =? 0.

(** [int(x)]: truncation toward zero. *)
Definition int_of_float (x : float64) : Z :=
  if 0 <=? f_expo x then f_mant x * 2 ^ f_expo x
  else Z.quot (f_mant x) (2 ^ (- f_expo x)).

(** The integer nearest to [n / d], ties to the even one ([0 <= n], [0 < d]). *)
Definition round_half_even (n d : Z) : Z :=
  let q := n / d in
  let r2 := 2 * (n mod d) in
  if r2 <? d then q
  else if d <? r2 then q + 1
  else if Z.even q then q else q + 1.

(** [floor (log2 (a / b))] for positive [a] and [b]. *)
Definition floor_log2_quot (a b : Z) : Z :=
  let s := Z.log2 b + 1 in
  Z.log2 (a * 2 ^ s / b) - s.

(** Exponent of the last mantissa bit of the quotient: 53 significant bits,
    not below the smallest subnormal exponent. *)
Definition quot_expo (a b : Z) : Z :=
  Z.max (floor_log2_quot a b - 52) (-1074).

(** [a / b] for ints [a] and [b]: the binary64 value nearest to the exact
    quotient (ties to even), [ZeroDivisionError] for [b = 0] and
    [OverflowError] when the rounded quotient is not finite. *)
Definition true_div (a b : Z) : result float64 :=
  if b =? 0 then Raise ZeroDivisionError
  else if a =? 0 then Ok (F64 0 0)
  else
    let e := quot_expo (Z.abs a) (Z.abs b) in
    let m := round_half_even (Z.abs a * 2 ^ Z.max 0 (- e))
                             (Z.abs b * 2 ^ Z.max 0 e) in
    if (971 <? e) || ((e =? 971) && (m =? 2 ^ 53)) then Raise OverflowError
    else Ok (F64 (Z.sgn a * Z.sgn b * m) e).

(** A decimal literal [num / 10 ^ digits], read as Python reads it: the
    nearest binary64 value. *)
Definition float_literal (num : Z) (digits : Z) : float64 :=
  match true_div num (10 ^ digits) with
  | Ok x => x
  | Raise _ => F64 0 0
  end.

(** A Python number as the exporters meet it. *)
Inductive pynum :=
| PyInt (z : Z)
| PyFloat (x : float64).

#[global] Instance pynum_inhabited : Inhabited pynum := populate (PyInt 0).

(** ** Files *)

Record fs := Fs {
  dirs : gset string;             (* directories that exist *)
  files : gmap string string      (* path to content *)
}.

(** Modelled from the spec: [utilities.create_path] is one of the
    filesystem path helpers that are not part of the sources; it makes
    sure the directory exists and touches no file. *)
Definition create_path (path : string) (w : fs) : fs :=
  Fs ({[ path ]} ∪ dirs w) (files w).

(** [open(path, 'a')]: the file is created empty when it is missing, an
    existing file keeps its content. *)
Definition open_append (path : string) (w : fs) : fs :=
  match files w !! path with
  | Some _ => w
  | None => Fs (dirs w) (<[ path := EmptyString ]> (files w))
  end.

(** [open(path, 'w')]: the file is created or truncated. *)
Definition open_write (path : string) (w : fs) : fs :=
  Fs (dirs w) (<[ path := EmptyString ]> (files w)).

(** [f.write(text)] on the handle opened on [path]: the text goes to the
    end of the file. *)
Definition write (path : string) (text : string) (w : fs) : fs :=
  Fs (dirs w) (<[ path := default EmptyString (files w !! path) +:+ text ]> (files w)).

(** ** Data model of the boundary-condition exporter

    [A] is the type of surface areas, [V] the type of the hourly profile
    values, which the exporters only move around and print. *)

(** [zone.model_attr], told apart in the code by [type(...).__name__]. *)
Inductive ModelAttr (A : Type) :=
| OneElement (area_ow area_win : A)
| TwoElement (area_ow area_iw area_win : A)
| ThreeElement (area_ow area_iw area_gf area_win : A)
| FourElement (area_ow area_iw area_gf area_rt area_win : A)
| OtherAttr.   (* any other type, such as None before the zone is calculated *)
Arguments OneElement {A}.
Arguments TwoElement {A}.
Arguments ThreeElement {A}.
Arguments FourElement {A}.
Arguments OtherAttr {A}.

Record UseConditions (V : Type) := {
  heating_profile : list V;
  cooling_profile : list V;
  persons_profile : list V;
  machines_profile : list V;
  lighting_profile : list V
}.
Arguments heating_profile {V}.
Arguments cooling_profile {V}.
Arguments persons_profile {V}.
Arguments machines_profile {V}.
Arguments lighting_profile {V}.

Record ThermalZone (A V : Type) := {
  zone_name : string;                  (* zone.name *)
  use_conditions : UseConditions V;
  model_attr : ModelAttr A
}.
Arguments zone_name {A V}.
Arguments use_conditions {A V}.
Arguments model_attr {A V}.

(** [building.central_ahu]; the setter of [with_ahu] creates it when the
    flag is set, and it is read only under that flag. *)
Record BuildingAHU := {
  profile_temperature : list pynum;
  profile_min_relative_humidity : list pynum;
  profile_max_relative_humidity : list pynum;
  profile_v_flow : list pynum
}.

Record Building (A V : Type) := {
  bldg_name : string;                  (* building.name *)
  thermal_zones : list (ThermalZone A V);
  with_ahu : bool;
  central_ahu : BuildingAHU
}.
Arguments bldg_name {A V}.
Arguments thermal_zones {A V}.
Arguments with_ahu {A V}.
Arguments central_ahu {A V}.

Record AixLib (A V : Type) := {
  parent : Building A V;
  file_set_t_heat : string;
  file_set_t_cool : string;
  file_ahu : string;
  file_internal_gains : string;
  version : string;
  total_surface_area : option A;
  consider_heat_capacity : bool;
  use_set_back : bool;
  use_set_point_temperature_profile_heating : bool;
  use_set_back_cool : bool
}.
Arguments parent {A V}.
Arguments file_set_t_heat {A V}.
Arguments file_set_t_cool {A V}.
Arguments file_ahu {A V}.
Arguments file_internal_gains {A V}.
Arguments version {A V}.
Arguments total_surface_area {A V}.
Arguments consider_heat_capacity {A V}.
Arguments use_set_back {A V}.
Arguments use_set_point_temperature_profile_heating {A V}.
Arguments use_set_back_cool {A V}.

(** [AixLib.__init__] *)
Definition init {A V : Type} (parent : Building A V) : AixLib A V := {|
  parent := parent;
  file_set_t_heat := "TsetHeat_" +:+ bldg_name parent +:+ ".txt";
  file_set_t_cool := "TsetCool_" +:+ bldg_name parent +:+ ".txt";
  file_ahu := "AHU_" +:+ bldg_name parent +:+ ".mat";
  file_internal_gains := "InternalGains_" +:+ bldg_name parent +:+ ".txt";
  version := "0.7.4";
  total_surface_area := None;
  consider_heat_capacity := true;
  use_set_back := true;
  use_set_point_temperature_profile_heating := false;
  use_set_back_cool := false
|}.

(** ** [AixLib._calc_surface_area] *)

Section SurfaceArea.
Context {A V : Type}.
Variable add : A -> A -> A.      (* [+] on areas *)
Variable zero : A.               (* the initial [0.0] *)

(** One pass of the loop body: [surf_area_temp += ...] for the branch
    selected by the type name of [zone.model_attr]; no branch for any
    other type. *)
Definition add_zone_surface (surf_area_temp : A) (zone : ThermalZone A V) : A :=
  match model_attr zone with
  | OneElement ow win =>
      add surf_area_temp (add ow win)
  | TwoElement ow iw win =>
      add surf_area_temp (add (add ow iw) win)
  | ThreeElement ow iw gf win =>
      add surf_area_temp (add (add (add ow iw) gf) win)
  | FourElement ow iw gf rt win =>
      add surf_area_temp (add (add (add (add ow iw) gf) rt) win)
  | OtherAttr => surf_area_temp
  end.

Definition _calc_surface_area (self : AixLib A V) : AixLib A V :=
  let surf_area_temp :=
    foldl add_zone_surface zero (thermal_zones (parent self)) in
  {| parent := parent self;
     file_set_t_heat := file_set_t_heat self;
     file_set_t_cool := file_set_t_cool self;
     file_ahu := file_ahu self;
     file_internal_gains := file_internal_gains self;
     version := version self;
     total_surface_area := Some surf_area_temp;
     consider_heat_capacity := consider_heat_capacity self;
     use_set_back := use_set_back self;
     use_set_point_temperature_profile_heating :=
       use_set_point_temperature_profile_heating self;
     use_set_back_cool := use_set_back_cool self |}.

(** [AixLib.calc_auxiliary_attr] *)
Definition calc_auxiliary_attr (self : AixLib A V) : AixLib A V :=
  _calc_surface_area self.

(** The contract's reading of the contribution of one zone: exterior wall
    and window always, then interior wall, ground floor and roof where
    the variant has them. *)
Definition zone_area_spec (m : ModelAttr A) : A :=
  match m with
  | OneElement ow win => add ow win
  | TwoElement ow iw win => add (add ow win) iw
  | ThreeElement ow iw gf win => add (add (add ow win) iw) gf
  | FourElement ow iw gf rt win => add (add (add (add ow win) iw) gf) rt
  | OtherAttr => zero
  end.

(** The sum over all zones. *)
Definition total_area_spec (zones : list (ThermalZone A V)) : A :=
  foldr (fun zone s => add (zone_area_spec (model_attr zone)) s) zero zones.
End SurfaceArea.

(** ** [AixLib.create_profile]

    The [assert] statement is executed (the interpreter does not run with
    [-O]); [duration_profile / time_step] is evaluated once, its later
    occurrences give the same float. *)

Definition ass_error_duration : string := "duration must be a multiple of time_step".

Definition create_profile (duration_profile time_step : Z) (double : bool)
  : result (list (list Z)) :=
  q ← true_div duration_profile time_step;
  if is_integer q then
    let n := int_of_float q + 1 in
    Ok (if double
        then foldl (fun time_line i =>
                      (time_line ++ [[i * time_step]]) ++ [[i * time_step]])
                   [] (range n)
        else foldl (fun time_line i => time_line ++ [[i * time_step]])
                   [] (range n))
  else Raise (AssertionError ass_error_duration).

(** The grid in the words of the contract: the points [0], [time_step],
    [2 * time_step], ... up to [q * time_step], each wrapped as a
    singleton list. *)
Definition time_points (time_step q : Z) : list (list Z) :=
  map (fun i => [i * time_step]) (range (q + 1)).

(** Each point twice, consecutively. *)
Definition doubled {X : Type} (points : list X) : list X :=
  flat_map (fun p => [p; p]) points.

(** ** The part of pandas that the exporters use *)

(** A row label: a formatted time stamp or, after the index is replaced,
    a number of seconds. *)
Inductive label :=
| Stamp (s : string)
| Seconds (z : Z).

(** A frame: its row labels and its columns in order.  A column that was
    only declared holds no data yet (every cell is NaN). *)
Record DataFrame (V : Type) := {
  df_index : list label;
  df_columns : list (string * option (list V))
}.
Arguments df_index {V}.
Arguments df_columns {V}.

Definition month_lengths : list nat := [31; 28; 31; 30; 31; 30; 31; 31; 30; 31; 30; 31]%nat.

(** Month (from 1) and day of the month (from 0) of a day of 2019. *)
Fixpoint month_day (ms : list nat) (month day : nat) : nat * nat :=
  match ms with
  | [] => (month, day)
  | m :: ms' =>
      if (day <? m)%nat then (month, day)
      else month_day ms' (S month) (day - m)%nat
  end.

Definition two_digits (n : nat) : string :=
  (if (n <? 10)%nat then "0" else EmptyString) +:+ str_of_Z (Z.of_nat n).

(** [strftime('%m-%d %H:%M:%S')] of hour [h] counted from 2019-01-01 00:00:00. *)
Definition strftime_hour (h : nat) : string :=
  let '(mo, d) := month_day month_lengths 1 (h / 24)%nat in
  two_digits mo +:+ "-" +:+ two_digits (S d) +:+ " "
    +:+ two_digits (h mod 24)%nat +:+ ":00:00".

(** [pd.date_range('2019-01-01 00:00:00', periods, freq='H')
       .to_series().dt.strftime('%m-%d %H:%M:%S')] *)
Definition date_range_2019 (periods : nat) : list label :=
  map (fun h => Stamp (strftime_hour h)) (seq 0 periods).

(** [pd.DataFrame(index=index, columns=columns)] *)
Definition new_frame {V : Type} (index : list label) (columns : list string)
  : DataFrame V :=
  {| df_index := index; df_columns := map (fun c => (c, None)) columns |}.

(** [df[key] = value] for a list [value]: its length has to be the number
    of rows; an existing column of that name is replaced (every one of
    them when the name occurs more than once), a new name adds a column
    at the end. *)
Definition df_setitem {V : Type} (key : string) (value : list V) (df : DataFrame V)
  : result (DataFrame V) :=
  if decide (length value = length (df_index df)) then
    Ok {| df_index := df_index df;
          df_columns :=
            if decide (key ∈ (df_columns df).*1)
            then map (fun kc => if decide (kc.1 = key) then (key, Some value) else kc)
                     (df_columns df)
            else df_columns df ++ [(key, Some value)] |}
  else Raise (ValueError "Length of values does not match length of index").

(** [df.index = labels] *)
Definition df_set_index {V : Type} (labels : list label) (df : DataFrame V)
  : result (DataFrame V) :=
  if decide (length labels = length (df_index df)) then
    Ok {| df_index := labels; df_columns := df_columns df |}
  else Raise (ValueError "Length mismatch").

Section ToCsv.
Context {V : Type}.
Variable fmt : V -> string.    (* how pandas prints one cell *)

Definition fmt_label (l : label) : string :=
  match l with
  | Stamp s => s
  | Seconds z => str_of_Z z
  end.

(** Cell [i] of a column; a missing value prints as the empty string. *)
Definition fmt_cell (i : nat) (column : option (list V)) : string :=
  match column with
  | Some values =>
      match values !! i with
      | Some v => fmt v
      | None => EmptyString
      end
  | None => EmptyString
  end.

Definition csv_row (df : DataFrame V) (i : nat) (l : label) : string :=
  join TAB (fmt_label l :: map (fun kc => fmt_cell i kc.2) (df_columns df)) +:+ LF.

(** [df.to_csv(f, sep='\t', header=False, index_label=False)]: one line
    per row, the row label first, no header line.  The cells are numbers,
    whose text needs no quoting, and a line ends with a line feed. *)
Definition to_csv (df : DataFrame V) : string :=
  String.concat EmptyString (imap (csv_row df) (df_index df)).
End ToCsv.

(** ** The set-point and internal-gains exporters *)

Section TextExport.
Context {A V : Type}.
Variable default_path : string.   (* [utilities.get_default_path()] *)
Variable fmt : V -> string.       (* how pandas prints one cell *)

Definition hours_of_year : nat := Z.to_nat 8760.

(** [[(i + 1) * 3600 for i in range(8760)]] *)
Definition seconds_index : list label :=
  map (fun i => Seconds ((i + 1) * 3600)) (range 8760).

(** The [with open(path, 'a') as f:] block that the three exporters
    share: the marker, the header
    ['double <title>({}, {})\n'.format(8760, columns)] and the frame. *)
Definition write_matrix (path title : string) (columns : Z)
    (export : DataFrame V) (w : fs) : fs :=
  let w := open_append path w in
  let w := write path ("#1" +:+ LF) w in
  let w := write path ("double " +:+ title +:+ "(" +:+ str_of_Z 8760 +:+ ", "
                         +:+ str_of_Z columns +:+ ")" +:+ LF) w in
  write path (to_csv fmt export) w.

Definition resolve_path (path : option string) : string :=
  match path with
  | None => default_path
  | Some p => p
  end.

Definition modelica_set_temp (self : AixLib A V) (path : option string) (w : fs)
  : fs * result unit :=
  let path := resolve_path path in
  let w := create_path path w in
  let path := os_path_join path (file_set_t_heat self) in
  let zones := thermal_zones (parent self) in
  let export := new_frame (date_range_2019 hours_of_year) (map zone_name zones) in
  match for_each (fun export zone_count =>
                    df_setitem (zone_name zone_count)
                               (heating_profile (use_conditions zone_count)) export)
                 export zones with
  | Raise e => (w, Raise e)
  | Ok export =>
      match df_set_index seconds_index export with
      | Raise e => (w, Raise e)
      | Ok export =>
          (write_matrix path "Tset" (Z.of_nat (length zones) + 1) export w, Ok tt)
      end
  end.

Definition modelica_set_temp_cool (self : AixLib A V) (path : option string) (w : fs)
  : fs * result unit :=
  let path := resolve_path path in
  let w := create_path path w in
  let path := os_path_join path (file_set_t_cool self) in
  let zones := thermal_zones (parent self) in
  let export := new_frame (date_range_2019 hours_of_year) (map zone_name zones) in
  match for_each (fun export zone_count =>
                    df_setitem (zone_name zone_count)
                               (cooling_profile (use_conditions zone_count)) export)
                 export zones with
  | Raise e => (w, Raise e)
  | Ok export =>
      match df_set_index seconds_index export with
      | Raise e => (w, Raise e)
      | Ok export =>
          (write_matrix path "Tset" (Z.of_nat (length zones) + 1) export w, Ok tt)
      end
  end.

(** The three assignments of one pass of the loop of
    [modelica_gains_boundary]. *)
Definition add_gains (export : DataFrame V) (zone_count : ThermalZone A V)
  : result (DataFrame V) :=
  export ← df_setitem ("person_" +:+ zone_name zone_count)
                      (persons_profile (use_conditions zone_count)) export;
  export ← df_setitem ("machines_" +:+ zone_name zone_count)
                      (machines_profile (use_conditions zone_count)) export;
  df_setitem ("lighting_" +:+ zone_name zone_count)
             (lighting_profile (use_conditions zone_count)) export.

(** The [time_line] argument is never read. *)
Definition modelica_gains_boundary (self : AixLib A V)
    (time_line : option (list (list Z))) (path : option string) (w : fs)
  : fs * result unit :=
  let path := resolve_path path in
  let w := create_path path w in
  let path := os_path_join path (file_internal_gains self) in
  let zones := thermal_zones (parent self) in
  let export := new_frame (date_range_2019 hours_of_year) [] in
  match for_each add_gains export zones with
  | Raise e => (w, Raise e)
  | Ok export =>
      match df_set_index seconds_index export with
      | Raise e => (w, Raise e)
      | Ok export =>
          (write_matrix path "Internals" (Z.of_nat (length zones) * 3 + 1) export w,
           Ok tt)
      end
  end.
End TextExport.

(** ** The AHU exporter

    The rows of a time line are Python list objects that the caller may
    still hold: they live in a heap, and a time line is the list of the
    locations of its rows. *)

Abbreviation loc := positive (only parsing).

Record world := World {
  lists : gmap positive (list pynum);   (* the list objects *)
  disk : fs
}.

(** A new list object. *)
Definition alloc (row : list pynum) (h : gmap positive (list pynum))
  : loc * gmap positive (list pynum) :=
  let l := fresh (dom h) in (l, <[ l := row ]> h).

Fixpoint alloc_rows (rows : list (list pynum)) (h : gmap positive (list pynum))
  : list loc * gmap positive (list pynum) :=
  match rows with
  | [] => ([], h)
  | row :: rows' =>
      let '(l, h1) := alloc row h in
      let '(ls, h2) := alloc_rows rows' h1 in
      (l :: ls, h2)
  end.

(** [row.append(v)] on the list object at [l]. *)
Definition list_append (l : loc) (v : pynum) (h : gmap positive (list pynum))
  : gmap positive (list pynum) :=
  alter (fun row => row ++ [v]) l h.

(** [profile[i]] *)
Definition getitem (profile : list pynum) (i : nat) : result pynum :=
  match profile !! i with
  | Some v => Ok v
  | None => Raise IndexError
  end.

(** A [for] loop over a state that survives an exception. *)
Fixpoint for_each_st {S X : Type} (body : X -> S -> S * result unit)
    (xs : list X) (s : S) : S * result unit :=
  match xs with
  | [] => (s, Ok tt)
  | x :: xs' =>
      match body x s with
      | (s', Ok _) => for_each_st body xs' s'
      | (s', Raise e) => (s', Raise e)
      end
  end.

(** [enumerate(xs)] *)
Definition enumerate {X : Type} (xs : list X) : list (nat * X) :=
  imap (fun i x => (i, x)) xs.

(** [np.array(rows)] of a list of rows: a matrix when all rows have one
    length, an error otherwise (a ragged array is refused by numpy, or by
    the level-4 writer in older versions). *)
Definition np_array (rows : list (list pynum)) : result (list (list pynum)) :=
  match rows with
  | [] => Ok []
  | r :: rs =>
      if forallb (fun r' => bool_decide (length r' = length r)) rs
      then Ok rows
      else Raise (ValueError "inhomogeneous shape")
  end.

Definition ass_error_1 : string := "time line and input have to have the same length".

(** The literal [293.15]. *)
Definition f293_15 : float64 := float_literal 29315 2.

(** The four values of time step [i]: temperature, minimal and maximal
    relative humidity, flow. *)
Definition profile_values
    (profile_temperature profile_min_relative_humidity
     profile_max_relative_humidity profile_v_flow : list pynum) (i : nat)
  : list pynum :=
  [profile_temperature !!! i;
   profile_min_relative_humidity !!! i;
   profile_max_relative_humidity !!! i;
   profile_v_flow !!! i].

Definition ahu_values (ahu : BuildingAHU) (i : nat) : list pynum :=
  profile_values (profile_temperature ahu) (profile_min_relative_humidity ahu)
                 (profile_max_relative_humidity ahu) (profile_v_flow ahu) i.

(** Row [it.2] extended by the values of time step [it.1]. *)
Definition extend (values : nat -> list pynum) (h : gmap positive (list pynum))
    (it : nat * loc) : gmap positive (list pynum) :=
  alter (fun row => row ++ values it.1) it.2 h.

(** The array of the exporter without an air-handling unit. *)
Definition dummy_boundary : list (list pynum) :=
  [[PyInt 0; PyFloat f293_15; PyInt 0; PyInt 1; PyInt 0];
   [PyInt 3600; PyFloat f293_15; PyInt 0; PyInt 1; PyInt 1]].

Section AHU.
Context {A V : Type}.
Variable default_path : string.   (* [utilities.get_default_path()] *)
(** The bytes [scipy.io.savemat(..., format='4')] stores for one named
    matrix. *)
Variable mat4 : string -> list (list pynum) -> string.

(** The body of the loop over [enumerate(time_line)]: four appends to
    the row object [time]. *)
Definition append_profiles
    (profile_temperature profile_min_relative_humidity
     profile_max_relative_humidity profile_v_flow : list pynum)
    (it : nat * loc) (h : gmap positive (list pynum))
  : gmap positive (list pynum) * result unit :=
  let '(i, time) := it in
  match getitem profile_temperature i with
  | Raise e => (h, Raise e)
  | Ok v1 =>
      let h := list_append time v1 h in
      match getitem profile_min_relative_humidity i with
      | Raise e => (h, Raise e)
      | Ok v2 =>
          let h := list_append time v2 h in
          match getitem profile_max_relative_humidity i with
          | Raise e => (h, Raise e)
          | Ok v3 =>
              let h := list_append time v3 h in
              match getitem profile_v_flow i with
              | Raise e => (h, Raise e)
              | Ok v4 => (list_append time v4 h, Ok tt)
              end
          end
      end
  end.

(** The rows of a time line as they are in the heap. *)
Definition read_rows (time_line : list loc) (h : gmap positive (list pynum))
  : list (list pynum) :=
  map (fun l => default [] (h !! l)) time_line.

Definition modelica_AHU_boundary (self : AixLib A V)
    (time_line : option (list loc)) (path : option string) (w : world)
  : world * result unit :=
  let path := resolve_path default_path path in
  let d := create_path path (disk w) in
  let path := os_path_join path (file_ahu self) in
  (* if time_line is None: time_line = self.create_profile() *)
  match (match time_line with
         | Some time_line => Ok (time_line, lists w)
         | None =>
             rows ← create_profile 86400 3600 false;
             Ok (alloc_rows (map (map PyInt) rows) (lists w))
         end) with
  | Raise e => (World (lists w) d, Raise e)
  | Ok (time_line, h) =>
      let '(time_line, h, profile_temperature, profile_min_relative_humidity,
            profile_max_relative_humidity, profile_v_flow) :=
        if with_ahu (parent self) then
          (time_line, h,
           profile_temperature (central_ahu (parent self)),
           profile_min_relative_humidity (central_ahu (parent self)),
           profile_max_relative_humidity (central_ahu (parent self)),
           profile_v_flow (central_ahu (parent self)))
        else
          (* Dummy values for Input Table *)
          let '(time_line, h) := alloc_rows [[PyInt 0]; [PyInt 3600]] h in
          (time_line, h,
           [PyFloat f293_15; PyFloat f293_15],
           [PyInt 0; PyInt 0],
           [PyInt 1; PyInt 1],
           [PyInt 0; PyInt 1]) in
      if decide (length time_line ≠ length profile_temperature) then
        (World h d, Raise (AssertionError (ass_error_1 +:+ ",profile_temperature_AHU")))
      else if decide (length time_line ≠ length profile_min_relative_humidity) then
        (World h d, Raise (AssertionError (ass_error_1 +:+ ",profile_min_relative_humidity")))
      else if decide (length time_line ≠ length profile_max_relative_humidity) then
        (World h d, Raise (AssertionError (ass_error_1 +:+ ",profile_max_relative_humidity")))
      else if decide (length time_line ≠ length profile_v_flow) then
        (World h d, Raise (AssertionError (ass_error_1 +:+ ",profile_status_AHU")))
      else
        match for_each_st
                (append_profiles profile_temperature profile_min_relative_humidity
                                 profile_max_relative_humidity profile_v_flow)
                (enumerate time_line) h with
        | (h, Raise e) => (World h d, Raise e)
        | (h, Ok _) =>
            match np_array (read_rows time_line h) with
            | Raise e => (World h d, Raise e)
            | Ok ahu_boundary =>
                (World h (Fs (dirs d) (<[ path := mat4 "AHU" ahu_boundary ]> (files d))),
                 Ok tt)
            end
        end
  end.
End AHU.

(** ** Reading a text matrix back

    The reader of the round-trip property: the marker line and the header
    line are skipped, every other non-empty line is split at the tabs, its
    first field is the time in seconds and the others are the cells. *)

Fixpoint split_on (c : ascii) (s : string) : list string :=
  match s with
  | EmptyString => [EmptyString]
  | String a s' =>
      if Ascii.eqb a c then EmptyString :: split_on c s'
      else match split_on c s' with
           | [] => [String a EmptyString]
           | field :: fields => String a field :: fields
           end
  end.

Definition Z_of_str (s : string) : option Z :=
  Z.of_int <$> NilZero.int_of_string s.

Section Reader.
Context {V : Type}.
Variable parse : string -> option V.   (* reading one cell *)

Definition parse_row (line : string) : option (Z * list V) :=
  match split_on "009" line with
  | [] => None
  | time :: cells =>
      t ← Z_of_str time;
      vs ← mapM parse cells;
      Some (t, vs)
  end.

Definition read_matrix (content : string) : option (list (Z * list V)) :=
  match split_on "010" content with
  | _ :: _ :: rows => mapM parse_row (filter (fun l => l ≠ EmptyString) rows)
  | _ => None
  end.

(** Column [j] of the cells, from the first row to the last. *)
Definition column (j : nat) (rows : list (Z * list V)) : option (list V) :=
  mapM (fun row => row.2 !! j) rows.
End Reader.

(** What reading a matrix with these columns back should give: row [i]
    holds the time [(i + 1) * 3600] and value [i] of every column. *)
Definition matrix_table {V : Type} (columns : list (list V)) : list (Z * list V) :=
  map (fun i => ((Z.of_nat i + 1) * 3600,
                 default [] (mapM (fun column => column !! i) columns)))
      (seq 0 (Z.to_nat 8760)).

(** True when the character does not occur in the text. *)
Fixpoint free_of (c : ascii) (s : string) : bool :=
  match s with
  | EmptyString => true
  | String a s' => negb (Ascii.eqb a c) && free_of c s'
  end.

(** True when the text has neither a tab nor a line feed. *)
Definition one_field (s : string) : bool :=
  free_of "009" s && free_of "010" s.

(** ** The text matrix in the words of the contract

    [columns] are the profiles in zone order.  Row [i] starts with the
    time [(i + 1) * 3600] and has one tab-separated cell per column; the
    text is the marker line, the header line with the dimensions and the
    8760 rows. *)

Section MatrixText.
Context {V : Type}.
Variable fmt : V -> string.

Definition matrix_row (columns : list (list V)) (i : nat) : string :=
  join TAB (str_of_Z ((Z.of_nat i + 1) * 3600)
              :: map (fun column => from_option fmt EmptyString (column !! i)) columns)
    +:+ LF.

Definition matrix_rows (columns : list (list V)) : list string :=
  map (matrix_row columns) (seq 0 (Z.to_nat 8760)).

Definition matrix_text (title : string) (columns : list (list V)) : string :=
  "#1" +:+ LF
    +:+ "double " +:+ title +:+ "(8760, "
    +:+ str_of_Z (Z.of_nat (length columns) + 1) +:+ ")" +:+ LF
    +:+ String.concat EmptyString (matrix_rows columns).
End MatrixText.

(** [new] is [old] followed by a marker line, the header line of a matrix
    [title] with [columns] columns and 8760 rows of text. *)
Definition appended_matrix (title : string) (columns : Z) (old new : string) : Prop :=
  exists rows : list string,
    length rows = Z.to_nat 8760
    /\ new = old +:+ "#1" +:+ LF
              +:+ "double " +:+ title +:+ "(8760, " +:+ str_of_Z columns +:+ ")" +:+ LF
              +:+ String.concat EmptyString (map (fun row => row +:+ LF) rows).

(** An exporter [run] that only ever appends to [target]: whatever the
    file held stays at the start of the file, and under the condition
    [fits] on the profiles the run succeeds and appends one matrix. *)
Definition appends_only (run : fs -> fs * result unit) (target title : string)
    (columns : Z) (fits : Prop) : Prop :=
  forall (w : fs) (old : string),
    files w !! target = Some old ->
    (exists suffix, files (run w).1 !! target = Some (old +:+ suffix))
    /\ (fits ->
        (run w).2 = Ok tt
        /\ exists new, files (run w).1 !! target = Some new
                       /\ appended_matrix title columns old new).

(** The three gain profiles of a zone have [n] values. *)
Definition gains_fit {A V : Type} (n : nat) (zone : ThermalZone A V) : Prop :=
  length (persons_profile (use_conditions zone)) = n
  /\ length (machines_profile (use_conditions zone)) = n
  /\ length (lighting_profile (use_conditions zone)) = n.

(** The three columns that one pass of the loop of
    [modelica_gains_boundary] adds, with their names. *)
Definition gains_named {A V : Type} (zone : ThermalZone A V)
  : list (string * option (list V)) :=
  [("person_" +:+ zone_name zone, Some (persons_profile (use_conditions zone)));
   ("machines_" +:+ zone_name zone, Some (machines_profile (use_conditions zone)));
   ("lighting_" +:+ zone_name zone, Some (lighting_profile (use_conditions zone)))].

(** The columns of the internal-gains matrix: persons, machines and
    lighting of each zone, in zone order. *)
Definition gains_columns {A V : Type} (zones : list (ThermalZone A V)) : list (list V) :=
  flat_map (fun zone => [persons_profile (use_conditions zone);
                         machines_profile (use_conditions zone);
                         lighting_profile (use_conditions zone)]) zones.

(** ** The model-file exporter [export_annex60] *)

Module Annex60.

Record ThermalZone := { z_name : string }.                (* zone.name *)

Record Building := {
  b_name : string;                                        (* bldg.name *)
  internal_id : Z;
  thermal_zones : list ThermalZone
}.

Record Project := {
  prj_name : string;                                      (* prj.name *)
  buildings : list Building
}.

Record world := World {
  disk : fs;
  stdout : list string       (* the lines printed so far *)
}.

(** A computation on the world that may raise. *)
Definition io (X : Type) : Type := world -> world * result X.

Definition io_ret {X : Type} (x : X) : io X := fun w => (w, Ok x).

Definition io_bind {X Y : Type} (m : io X) (k : X -> io Y) : io Y :=
  fun w =>
    match m w with
    | (w', Ok x) => k x w'
    | (w', Raise e) => (w', Raise e)
    end.

Definition io_raise {X : Type} (e : exn) : io X := fun w => (w, Raise e).

Definition io_lift {X : Type} (r : result X) : io X := fun w => (w, r).

(** A helper that works on the files only. *)
Definition on_disk {X : Type} (f : fs -> fs * result X) : io X :=
  fun w => let '(d, r) := f (disk w) in (World d (stdout w), r).

Definition print (line : string) : io unit :=
  fun w => (World (disk w) (stdout w ++ [line]), Ok tt).

Fixpoint io_for_each {X : Type} (body : X -> io unit) (xs : list X) : io unit :=
  match xs with
  | [] => io_ret tt
  | x :: xs' => io_bind (body x) (fun _ => io_for_each body xs')
  end.

(** A computation that never completes normally. *)
Definition raises {X : Type} (m : io X) : Prop :=
  forall w, exists w' e, m w = (w', Raise e).

Definition DQ : string := String "034" EmptyString.     (* a double quote *)

(** [s.replace(' ', '')]: the spaces are removed. *)
Fixpoint remove_spaces (s : string) : string :=
  match s with
  | EmptyString => EmptyString
  | String a s' => if Ascii.eqb a " " then remove_spaces s' else String a (remove_spaces s')
  end.

Section ExportModel.
(** What the function calls and the sources do not contain. *)
Variable Template : Type.
(** [Template(filename=...)] *)
Variable load_template : string -> fs -> result Template.
(** [template.render_unicode(bldg=bldg, zone=zone)] *)
Variable render_unicode : Template -> Building -> ThermalZone -> result string.
(** [utilis.get_full_path], [utilis.create_path] *)
Variable get_full_path : string -> string.
Variable create_path : string -> fs -> fs * result unit.
(** [aixlib_output._help_package(path, name, uses)] *)
Variable _help_package :
  option string -> string -> option (list string) -> fs -> fs * result unit.
(** [aixlib_output._help_package_order(path, package_list, addition, extra)];
    the packages are passed by their names. *)
Variable _help_package_order :
  option string -> list string -> option string -> option string ->
  fs -> fs * result unit.
(** [os.path.join] of the platform. *)
Variable os_path_join : string -> string -> string.

Local Notation "'let!' x := m 'in' k" := (io_bind m (fun x => k))
  (at level 10, x name, m at level 100, k at level 200, only parsing).
Local Notation "m ;;; k" := (io_bind m (fun _ => k))
  (at level 100, k at level 200, right associativity, only parsing).

(** The [if]/[elif] chain: only the branch for 2 binds [zone_template]. *)
Definition select_template (number_of_elements : Z) : io (option Template) :=
  if number_of_elements =? 1 then io_ret None
  else if number_of_elements =? 2 then
    fun w =>
      (w, t ← load_template
                (get_full_path "Data\Output\ModelicaTemplate\Annex60\Annex60_TwoElements")
                (disk w);
          Ok (Some t))
  else if number_of_elements =? 3 then io_ret None
  else if number_of_elements =? 4 then io_ret None
  else io_ret None.

(** Reading the local variable [zone_template]. *)
Definition read_zone_template (zone_template : option Template) : io Template :=
  match zone_template with
  | Some t => io_ret t
  | None => io_raise (UnboundLocalError "zone_template")
  end.

Definition export_zone (zone_template : option Template) (bldg : Building)
    (bldg_path : string) (zone : ThermalZone) : io unit :=
  let zone_path := os_path_join bldg_path (b_name bldg +:+ "_Models") in
  let out_file :=
    get_full_path (zone_path +:+ "\" +:+ b_name bldg +:+ "_"
                     +:+ remove_spaces (z_name zone) +:+ ".mo") in
  on_disk (fun d => (open_write out_file d, Ok tt)) ;;;
  let! template := read_zone_template zone_template in
  let! text := io_lift (render_unicode template bldg zone) in
  on_disk (fun d => (write out_file text d, Ok tt)) ;;;
  on_disk (_help_package (Some zone_path) (b_name bldg +:+ "_Models") None) ;;;
  on_disk (_help_package_order (Some zone_path) (map z_name (thermal_zones bldg))
                               (Some (b_name bldg +:+ "_")) None).

Definition export_building (zone_template : option Template)
    (path : option string) (bldg : Building) : io unit :=
  let! bldg_path :=
    io_lift (match path with
             | Some p => Ok (os_path_join p (b_name bldg))
             | None => Raise TypeError
             end) in
  on_disk (create_path (get_full_path bldg_path)) ;;;
  on_disk (create_path (get_full_path (bldg_path +:+ "\" +:+ b_name bldg +:+ "_Models"))) ;;;
  on_disk (_help_package (Some bldg_path) (b_name bldg) None) ;;;
  on_disk (_help_package_order (Some bldg_path) [b_name bldg] None
                               (Some (b_name bldg +:+ "_Models"))) ;;;
  io_for_each (export_zone zone_template bldg bldg_path) (thermal_zones bldg).

Definition export_annex60 (prj : Project) (number_of_elements : Z)
    (merge_windows : Z) (internal_id_ : option Z) (path : option string)
  : io unit :=
  let uses := ["Modelica(version = " +:+ DQ +:+ "3.2.1" +:+ DQ +:+ ")";
               "Annex60(version=" +:+ DQ +:+ "0.1" +:+ DQ +:+ ")"] in
  let exported_list_of_buildings :=
    match internal_id_ with
    | Some id => filter (fun bldg => internal_id bldg = id) (buildings prj)
    | None => buildings prj
    end in
  on_disk (_help_package path (prj_name prj) (Some uses)) ;;;
  on_disk (_help_package_order path (map b_name exported_list_of_buildings) None None) ;;;
  let! zone_template := select_template number_of_elements in
  io_for_each (export_building zone_template path) exported_list_of_buildings ;;;
  print "Exports can be found here:" ;;;
  print (default "None" path).
End ExportModel.
End Annex60.

(** ** Example data *)

Definition example_conditions (set_point : Z) : UseConditions Z := {|
  heating_profile := replicate (Z.to_nat 8760) set_point;
  cooling_profile := replicate (Z.to_nat 8760) (set_point + 5);
  persons_profile := replicate (Z.to_nat 8760) 1;
  machines_profile := replicate (Z.to_nat 8760) 2;
  lighting_profile := replicate (Z.to_nat 8760) 3
|}.

Definition example_zones : list (ThermalZone Z Z) := [
  {| zone_name := "Office";
     use_conditions := example_conditions 293;
     model_attr := TwoElement 10 5 2 |};
  {| zone_name := "Floor";
     use_conditions := example_conditions 290;
     model_attr := FourElement 20 8 6 7 3 |}
].

Definition example_ahu : BuildingAHU := {|
  profile_temperature := [PyFloat f293_15; PyFloat f293_15; PyFloat f293_15];
  profile_min_relative_humidity := [PyInt 0; PyInt 0; PyInt 0];
  profile_max_relative_humidity := [PyInt 1; PyInt 1; PyInt 1];
  profile_v_flow := [PyInt 0; PyInt 1; PyInt 1]
|}.

Definition example_building : Building Z Z := {|
  bldg_name := "B1";
  thermal_zones := example_zones;
  with_ahu := true;
  central_ahu := example_ahu
|}.

Definition example_building_no_ahu : Building Z Z := {|
  bldg_name := "B2";
  thermal_zones := example_zones;
  with_ahu := false;
  central_ahu := example_ahu
|}.

(** An empty disk. *)
Definition empty_fs : fs := Fs ∅ ∅.

(** A building whose first zone has a heating profile one hour short. *)
Definition example_building_short : Building Z Z := {|
  bldg_name := "B3";
  thermal_zones := [
    {| zone_name := "Office";
       use_conditions := {|
         heating_profile := replicate (Z.to_nat 8759) 293;
         cooling_profile := replicate (Z.to_nat 8760) 298;
         persons_profile := replicate (Z.to_nat 8760) 1;
         machines_profile := replicate (Z.to_nat 8760) 2;
         lighting_profile := replicate (Z.to_nat 8760) 3 |};
       model_attr := OneElement 10 2 |} ];
  with_ahu := false;
  central_ahu := example_ahu
|}.

(** A disk on which the three text files of [example_building] exist. *)
Definition used_fs : fs :=
  Fs {[ "out" ]}
     (<[ "out/TsetHeat_B1.txt" := "old heat" ]>
        (<[ "out/TsetCool_B1.txt" := "old cool" ]>
           (<[ "out/InternalGains_B1.txt" := "old gains" ]> ∅))).

(** A project with one building of one zone, and stand-ins for what
    [export_annex60] calls outside the sources: a template that renders
    to a fixed text and helpers that succeed without writing. *)
Definition example_project : Annex60.Project := {|
  Annex60.prj_name := "P";
  Annex60.buildings := [
    {| Annex60.b_name := "B";
       Annex60.internal_id := 1;
       Annex60.thermal_zones := [ {| Annex60.z_name := "Living Room" |} ] |} ]
|}.

Definition example_export (number_of_elements : Z)
  : Annex60.world * result unit :=
  Annex60.export_annex60
    string
    (fun _ _ => Ok "model")
    (fun template _ _ => Ok template)
    (fun p => p)
    (fun p d => (create_path p d, Ok tt))
    (fun _ _ _ d => (d, Ok tt))
    (fun _ _ _ _ d => (d, Ok tt))
    (fun a b => a +:+ "\" +:+ b)
    example_project number_of_elements 2 None (Some "out")
    (Annex60.World empty_fs []).

(** An air-handling unit whose four profiles have the given lengths, and
    a building with it. *)
Definition ahu_of_lengths (a b c d : nat) : BuildingAHU := {|
  profile_temperature := replicate a (PyFloat f293_15);
  profile_min_relative_humidity := replicate b (PyInt 0);
  profile_max_relative_humidity := replicate c (PyInt 1);
  profile_v_flow := replicate d (PyInt 1)
|}.

Definition building_with_ahu (ahu : BuildingAHU) : Building Z Z := {|
  bldg_name := "B1";
  thermal_zones := example_zones;
  with_ahu := true;
  central_ahu := ahu
|}.

(** A caller's time line of three rows [[0], [3600], [7200]], and the
    world that holds its rows. *)
Definition example_rows : list positive := [1; 2; 3]%positive.

Definition example_world : world :=
  World (<[ 1%positive := [PyInt 0] ]>
           (<[ 2%positive := [PyInt 3600] ]>
              (<[ 3%positive := [PyInt 7200] ]> ∅)))
        empty_fs.

(** A stand-in for the level-4 encoding: the name and the dimensions. *)
Definition example_mat4 (name : string) (matrix : list (list pynum)) : string :=
  name +:+ " " +:+ str_of_Z (Z.of_nat (length matrix)) +:+ "x"
    +:+ str_of_Z (Z.of_nat (length (default [] (head matrix)))).

(** ** Further definitions for the properties of Part II *)

(** True for the four types of [zone.model_attr] that
    [_calc_surface_area] has a branch for. *)
Definition known_attr {A : Type} (m : ModelAttr A) : bool :=
  match m with
  | OtherAttr => false
  | _ => true
  end.

(** The four file names that [__init__] sets. *)
Definition output_files {A V : Type} (self : AixLib A V) : list string :=
  [file_set_t_heat self; file_set_t_cool self; file_ahu self; file_internal_gains self].

(** A building with a zone that has not been calculated yet, between the
    two zones of the example. *)
Definition example_building_uncalculated : Building Z Z := {|
  bldg_name := "B1";
  thermal_zones := [
    {| zone_name := "Office";
       use_conditions := example_conditions 293;
       model_attr := TwoElement 10 5 2 |};
    {| zone_name := "Attic";
       use_conditions := example_conditions 288;
       model_attr := OtherAttr |};
    {| zone_name := "Floor";
       use_conditions := example_conditions 290;
       model_attr := FourElement 20 8 6 7 3 |} ];
  with_ahu := true;
  central_ahu := example_ahu
|}.


(** A building whose zone has a cooling profile one hour short and a
    lighting profile one hour long. *)
Definition example_building_misfit : Building Z Z := {|
  bldg_name := "B5";
  thermal_zones := [
    {| zone_name := "Office";
       use_conditions := {|
         heating_profile := replicate (Z.to_nat 8760) 293;
         cooling_profile := replicate (Z.to_nat 8759) 298;
         persons_profile := replicate (Z.to_nat 8760) 1;
         machines_profile := replicate (Z.to_nat 8760) 2;
         lighting_profile := replicate (Z.to_nat 8761) 3 |};
       model_attr := OneElement 10 2 |} ];
  with_ahu := false;
  central_ahu := example_ahu
|}.

(** A building with two zones of one name. *)
Definition example_building_twins : Building Z Z := {|
  bldg_name := "B6";
  thermal_zones := [
    {| zone_name := "Office";
       use_conditions := example_conditions 293;
       model_attr := TwoElement 10 5 2 |};
    {| zone_name := "Office";
       use_conditions := example_conditions 290;
       model_attr := TwoElement 12 6 3 |} ];
  with_ahu := false;
  central_ahu := example_ahu
|}.

(** A computation of the model-file exporter that completes normally and
    prints nothing. *)
Definition completes_quietly {X : Type} (m : Annex60.io X) : Prop :=
  forall w, exists d x, m w = (Annex60.World d (Annex60.stdout w), Ok x).

(** A project whose only building has no thermal zone yet. *)
Definition example_project_no_zones : Annex60.Project := {|
  Annex60.prj_name := "P";
  Annex60.buildings := [
    {| Annex60.b_name := "B";
       Annex60.internal_id := 1;
       Annex60.thermal_zones := [] |} ]
|}.

(** The last zone of the list that has the name of [zone]. *)
Definition last_of_name {A V : Type} (zones : list (ThermalZone A V))
    (zone : ThermalZone A V) : ThermalZone A V :=
  default zone (last (filter (fun z => zone_name z = zone_name zone) zones)).

(** The path of the model file of a zone, as [export_annex60] builds it
    from the export path, the name of the building and the name of the
    zone without its spaces. *)
Definition model_file (get_full_path : string -> string)
    (os_path_join : string -> string -> string) (path : string)
    (bldg : Annex60.Building) (zone : Annex60.ThermalZone) : string :=
  get_full_path
    (os_path_join (os_path_join path (Annex60.b_name bldg))
                  (Annex60.b_name bldg +:+ "_Models")
       +:+ "\" +:+ Annex60.b_name bldg +:+ "_"
       +:+ Annex60.remove_spaces (Annex60.z_name zone) +:+ ".mo").

(** A project with two buildings; the first has two zones. *)
Definition example_project_two : Annex60.Project := {|
  Annex60.prj_name := "P";
  Annex60.buildings := [
    {| Annex60.b_name := "B";
       Annex60.internal_id := 1;
       Annex60.thermal_zones := [ {| Annex60.z_name := "Living Room" |};
                                  {| Annex60.z_name := "Kitchen" |} ] |};
    {| Annex60.b_name := "C";
       Annex60.internal_id := 2;
       Annex60.thermal_zones := [ {| Annex60.z_name := "Office" |} ] |} ]
|}.

(* ================================================================== *)
(** * Part II: properties *)
(* ================================================================== *)

Lemma pow2_pos (x : Z) : 0 <= x -> 0 < 2 ^ x.
Proof. intros; apply Z.pow_pos_nonneg; lia. Qed.

Lemma pow2_split (x y : Z) : 0 <= x -> 0 <= y -> 2 ^ (x + y) = 2 ^ x * 2 ^ y.
Proof. intros; apply Z.pow_add_r; lia. Qed.

(** 2^x <= a/b < 2^(x+1), stated over the integers. *)
Lemma floor_log2_quot_spec (a b : Z) :
  0 < a -> 0 < b ->
  let x := floor_log2_quot a b in
  2 ^ Z.max 0 x * b <= a * 2 ^ Z.max 0 (- x) /\
  a * 2 ^ Z.max 0 (- x) < 2 * 2 ^ Z.max 0 x * b.
Proof.
  intros Ha Hb x. subst x. unfold floor_log2_quot.
  set (s := Z.log2 b + 1).
  assert (Hs : 0 < s) by (pose proof (Z.log2_nonneg b); lia).
  assert (Hbs : b < 2 ^ s).
  { destruct (Z.log2_spec b Hb) as [_ H]. unfold s.
    replace (Z.log2 b + 1) with (Z.succ (Z.log2 b)) by lia. exact H. }
  pose proof (pow2_pos s ltac:(lia)) as H2s.
  set (N := a * 2 ^ s).
  assert (HN : b <= N) by (unfold N; nia).
  assert (Hq : 0 < N / b).
  { apply Z.div_str_pos. lia. }
  set (L := Z.log2 (N / b)).
  assert (HL0 : 0 <= L) by apply Z.log2_nonneg.
  destruct (Z.log2_spec _ Hq) as [Hlo Hhi]. fold L in Hlo, Hhi.
  replace (Z.succ L) with (L + 1) in Hhi by lia.
  rewrite pow2_split in Hhi by lia. change (2 ^ 1) with 2 in Hhi.
  pose proof (pow2_pos L HL0) as H2L.
  assert (Hlo' : 2 ^ L * b <= N).
  { pose proof (Z.mul_div_le N b Hb). nia. }
  assert (Hhi' : N < 2 ^ L * 2 * b).
  { pose proof (Z.mod_pos_bound N b Hb). pose proof (Z.div_mod N b ltac:(lia)). nia. }
  unfold N in Hlo', Hhi'.
  destruct (Z_le_gt_dec s L) as [Hc|Hc].
  - (* x >= 0 *)
    replace (Z.max 0 (L - s)) with (L - s) by lia.
    replace (Z.max 0 (- (L - s))) with 0 by lia.
    replace L with (s + (L - s)) in Hlo', Hhi' by lia.
    rewrite pow2_split in Hlo', Hhi' by lia.
    pose proof (pow2_pos (L - s) ltac:(lia)).
    change (2 ^ 0) with 1. split; nia.
  - replace (Z.max 0 (L - s)) with 0 by lia.
    replace (Z.max 0 (- (L - s))) with (s - L) by lia.
    replace s with (L + (s - L)) in Hlo', Hhi' at 1 by lia.
    rewrite pow2_split in Hlo', Hhi' by lia.
    pose proof (pow2_pos (s - L) ltac:(lia)).
    change (2 ^ 0) with 1. split; nia.
Qed.

Lemma round_half_even_exact (k d : Z) : 0 < d -> round_half_even (k * d) d = k.
Proof.
  intros Hd. unfold round_half_even.
  rewrite Z.mod_mul, Z.div_mul by lia. cbv zeta.
  destruct (2 * 0 <? d) eqn:E; [reflexivity | lia].
Qed.

Lemma round_half_even_error (n d : Z) :
  0 < d -> 2 * Z.abs (n - round_half_even n d * d) <= d.
Proof.
  intros Hd. unfold round_half_even.
  pose proof (Z.div_mod n d ltac:(lia)) as Hdm.
  pose proof (Z.mod_pos_bound n d Hd) as Hr.
  set (q := n / d) in *. set (r := n mod d) in *.
  destruct (2 * r <? d) eqn:E1; [nia|].
  destruct (d <? 2 * r) eqn:E2; [nia|].
  destruct (Z.even q); nia.
Qed.

Lemma sgn_mul_abs (z : Z) : Z.sgn z * Z.abs z = z.
Proof. lia. Qed.

Lemma true_div_exact (q t : Z) :
  t <> 0 -> Z.abs q <= 2 ^ 53 ->
  exists x, true_div (q * t) t = Ok x /\ is_integer x = true /\ int_of_float x = q.
Proof.
  intros Ht Hq. unfold true_div.
  destruct (t =? 0) eqn:Et; [lia|].
  destruct (q * t =? 0) eqn:Ea.
  { exists (F64 0 0). repeat split. unfold int_of_float; simpl. nia. }
  assert (Hq0 : q <> 0) by nia.
  set (A := Z.abs q). set (b := Z.abs t).
  assert (HA : 1 <= A) by (unfold A; lia).
  assert (Hb : 0 < b) by (unfold b; lia).
  rewrite Z.abs_mul. fold A b.
  assert (Hs : Z.sgn (q * t) * Z.sgn t = Z.sgn q).
  { rewrite Z.sgn_mul. destruct t; try lia; destruct q; simpl; lia. }
  rewrite Hs. unfold quot_expo.
  destruct (floor_log2_quot_spec (A * b) b ltac:(nia) Hb) as [Hlo Hhi].
  set (x := floor_log2_quot (A * b) b) in *.
  assert (Hx0 : 0 <= x).
  { destruct (Z_lt_ge_dec x 0); [|lia]. exfalso.
    replace (Z.max 0 x) with 0 in Hhi by lia.
    replace (Z.max 0 (- x)) with (1 + (- x - 1)) in Hhi by lia.
    rewrite pow2_split in Hhi by lia.
    pose proof (pow2_pos (- x - 1) ltac:(lia)).
    change (2 ^ 0) with 1 in Hhi. change (2 ^ 1) with 2 in Hhi. nia. }
  replace (Z.max 0 x) with x in * by lia.
  replace (Z.max 0 (- x)) with 0 in * by lia.
  change (2 ^ 0) with 1 in *.
  assert (HloA : 2 ^ x <= A) by nia.
  assert (HhiA : A < 2 * 2 ^ x) by nia.
  assert (Hx53 : x <= 53).
  { destruct (Z_le_gt_dec x 53); [lia|]. exfalso.
    assert (2 ^ 54 <= 2 ^ x) by (apply Z.pow_le_mono_r; lia). lia. }
  replace (Z.max (x - 52) (-1074)) with (x - 52) by lia.
  set (e := x - 52).
  destruct (Z_lt_ge_dec e 0) as [He|He].
  - (* fractional mantissa bits: the quotient is scaled up exactly *)
    replace (Z.max 0 (- e)) with (- e) by lia.
    replace (Z.max 0 e) with 0 by lia.
    change (2 ^ 0) with 1. rewrite Z.mul_1_r.
    replace (A * b * 2 ^ (- e)) with ((A * 2 ^ (- e)) * b) by ring.
    rewrite round_half_even_exact by lia.
    pose proof (pow2_pos (- e) ltac:(lia)) as Hp.
    destruct (971 <? e) eqn:E1; [lia|]. destruct (e =? 971) eqn:E2; [lia|].
    simpl. eexists; split; [reflexivity|].
    unfold is_integer, int_of_float; simpl.
    destruct (0 <=? e) eqn:E3; [lia|].
    replace (Z.sgn q * (A * 2 ^ (- e))) with (q * 2 ^ (- e))
      by (unfold A; rewrite Z.mul_assoc, sgn_mul_abs; reflexivity).
    rewrite Z.mod_mul by lia. split; [reflexivity|].
    apply Z.quot_mul; lia.
  - replace (Z.max 0 (- e)) with 0 by lia.
    replace (Z.max 0 e) with e by lia.
    change (2 ^ 0) with 1. rewrite Z.mul_1_r.
    assert (Hcases : e = 0 \/ (e = 1 /\ A = 2 ^ 53)).
    { destruct (Z.eq_dec e 0); [left; lia|right].
      assert (Hx : x = 53) by lia. split; [lia|].
      rewrite Hx in HloA. unfold A in *. lia. }
    destruct Hcases as [He0 | [He1 HA53]].
    + rewrite He0. change (2 ^ 0) with 1. rewrite Z.mul_1_r.
      rewrite round_half_even_exact by lia.
      simpl. destruct (A =? 2 ^ 53); simpl;
        (eexists; split; [reflexivity|]);
        unfold is_integer, int_of_float; simpl;
        (split; [reflexivity|]); unfold A; lia.
    + rewrite He1, HA53. change (2 ^ 1) with 2.
      replace (2 ^ 53 * b) with (2 ^ 52 * (b * 2)) by (change (2 ^ 53) with (2 * 2 ^ 52); ring).
      rewrite round_half_even_exact by lia.
      simpl. eexists; split; [reflexivity|].
      unfold is_integer, int_of_float; simpl. split; [reflexivity|].
      change (2 ^ 53) with 9007199254740992 in HA53. unfold A in HA53. lia.
Qed.

Lemma true_div_inexact (d t : Z) :
  t <> 0 -> Z.abs d < 2 ^ 53 -> Z.abs t < 2 ^ 53 -> ~ (t | d) ->
  exists x, true_div d t = Ok x /\ is_integer x = false.
Proof.
  intros Ht Hd Htb Hnd. unfold true_div.
  destruct (t =? 0) eqn:Et; [lia|].
  destruct (d =? 0) eqn:Ed.
  { exfalso. apply Hnd. exists 0. lia. }
  set (a := Z.abs d) in *. set (b := Z.abs t) in *.
  assert (Ha : 0 < a) by (unfold a; lia).
  assert (Hb : 0 < b) by (unfold b; lia).
  assert (Hnab : forall n, a <> n * b).
  { intros n Hn. apply Hnd. apply Z.divide_abs_l, Z.divide_abs_r.
    exists n. exact Hn. }
  assert (Hb2 : 2 <= b).
  { destruct (Z.eq_dec b 1) as [H1|H1]; [|lia].
    exfalso. apply (Hnab a). lia. }
  unfold quot_expo.
  destruct (floor_log2_quot_spec a b Ha Hb) as [Hlo Hhi].
  set (x := floor_log2_quot a b) in *.
  (* the quotient is below 2^52 and above 2^-54 *)
  assert (Hx51 : x <= 51).
  { destruct (Z_le_gt_dec x 51); [lia|]. exfalso.
    replace (Z.max 0 x) with (52 + (x - 52)) in Hlo by lia.
    replace (Z.max 0 (- x)) with 0 in Hlo by lia.
    rewrite pow2_split in Hlo by lia.
    pose proof (pow2_pos (x - 52) ltac:(lia)).
    change (2 ^ 0) with 1 in Hlo. change (2 ^ 53) with (2 * 2 ^ 52) in Hd.
    assert (2 ^ 52 * 2 <= 2 ^ 52 * 2 ^ (x - 52) * b) by nia.
    lia. }
  assert (Hx54 : - 54 < x).
  { destruct (Z_lt_ge_dec (- 54) x); [lia|]. exfalso.
    replace (Z.max 0 x) with 0 in Hhi by lia.
    replace (Z.max 0 (- x)) with (54 + (- x - 54)) in Hhi by lia.
    rewrite pow2_split in Hhi by lia.
    pose proof (pow2_pos (- x - 54) ltac:(lia)).
    change (2 ^ 0) with 1 in Hhi. change (2 ^ 53) with (2 ^ 54 / 2) in Htb.
    assert (2 ^ 54 <= a * (2 ^ 54 * 2 ^ (-x - 54))) by nia.
    change (2 ^ 54 / 2) with 9007199254740992 in Htb.
    change (2 ^ 54) with 18014398509481984 in *. lia. }
  replace (Z.max (x - 52) (-1074)) with (x - 52) by lia.
  set (f := 52 - x).
  replace (- (x - 52)) with f by (unfold f; lia).
  replace (Z.max 0 (x - 52)) with 0 by lia.
  replace (Z.max 0 f) with f by (unfold f; lia).
  change (2 ^ 0) with 1. rewrite Z.mul_1_r.
  assert (Hf : 1 <= f) by (unfold f; lia).
  pose proof (pow2_pos f ltac:(lia)) as H2f.
  (* normalisation: 2^52 * b <= a * 2^f *)
  assert (Hnorm : 2 ^ 52 * b <= a * 2 ^ f).
  { destruct (Z_lt_ge_dec x 0) as [Hx|Hx].
    - replace (Z.max 0 x) with 0 in Hlo by lia.
      replace (Z.max 0 (- x)) with (- x) in Hlo by lia.
      change (2 ^ 0) with 1 in Hlo.
      replace f with (52 + - x) by (unfold f; lia).
      rewrite pow2_split by lia.
      pose proof (pow2_pos (- x) ltac:(lia)). nia.
    - replace (Z.max 0 x) with x in Hlo by lia.
      replace (Z.max 0 (- x)) with 0 in Hlo by lia.
      change (2 ^ 0) with 1 in Hlo.
      replace 52 with (x + f) at 1 by (unfold f; lia).
      rewrite pow2_split by lia.
      pose proof (pow2_pos x ltac:(lia)). nia. }
  set (m := round_half_even (a * 2 ^ f) b).
  pose proof (round_half_even_error (a * 2 ^ f) b Hb) as Herr. fold m in Herr.
  destruct (971 <? x - 52) eqn:E1; [lia|].
  destruct (x - 52 =? 971) eqn:E2; [lia|]. simpl.
  eexists; split; [reflexivity|].
  unfold is_integer; simpl.
  destruct (0 <=? x - 52) eqn:E3; [lia|].
  replace (- (x - 52)) with f by (unfold f; lia).
  apply Z.eqb_neq. intros Hmod.
  apply Z.mod_divide in Hmod; [|lia].
  destruct Hmod as [n Hn].
  assert (Hm : m = (Z.sgn d * Z.sgn t * n) * 2 ^ f).
  { assert (Hsq : (Z.sgn d * Z.sgn t) * (Z.sgn d * Z.sgn t) = 1)
      by (destruct d, t; simpl; lia).
    replace m with ((Z.sgn d * Z.sgn t) * (Z.sgn d * Z.sgn t * m)) by (rewrite Z.mul_assoc, Hsq; lia).
    rewrite Hn. ring. }
  set (k := Z.sgn d * Z.sgn t * n) in *.
  rewrite Hm in Herr.
  replace (a * 2 ^ f - k * 2 ^ f * b) with ((a - k * b) * 2 ^ f) in Herr by ring.
  rewrite Z.abs_mul in Herr. rewrite (Z.abs_eq (2 ^ f)) in Herr by lia.
  assert (Hne : 1 <= Z.abs (a - k * b)) by (specialize (Hnab k); lia).
  assert (H1 : 2 * 2 ^ f <= b) by nia.
  change (2 ^ 53) with (2 ^ 52 * 2) in Hd.
  assert (2 ^ 52 * (2 * 2 ^ f) <= a * 2 ^ f) by nia.
  nia.
Qed.


(** ** The time-grid builder *)

Lemma foldl_append_points {X Y : Type} (f : X -> Y) (l : list X) (acc : list Y) :
  foldl (fun time_line i => time_line ++ [f i]) acc l = acc ++ map f l.
Proof.
  revert acc. induction l as [|x l IH]; intros acc; simpl.
  - by rewrite app_nil_r.
  - rewrite IH. by rewrite <- app_assoc.
Qed.

Lemma foldl_append_points_twice {X Y : Type} (f : X -> Y) (l : list X) (acc : list Y) :
  foldl (fun time_line i => (time_line ++ [f i]) ++ [f i]) acc l
  = acc ++ doubled (map f l).
Proof.
  revert acc. induction l as [|x l IH]; intros acc; simpl.
  - by rewrite app_nil_r.
  - rewrite IH. by rewrite <- !app_assoc.
Qed.

Lemma length_doubled {X : Type} (l : list X) :
  length (doubled l) = (2 * length l)%nat.
Proof. induction l as [|x l IH]; simpl; [reflexivity | rewrite IH; lia]. Qed.

Lemma length_time_points (time_step q : Z) :
  0 <= q -> Z.of_nat (length (time_points time_step q)) = q + 1.
Proof.
  intros Hq. unfold time_points, range.
  rewrite length_map, length_seqZ. lia.
Qed.

Lemma lookup_time_points (time_step q i : Z) :
  0 <= i <= q -> time_points time_step q !! Z.to_nat i = Some [i * time_step].
Proof.
  intros Hi. unfold time_points, range.
  rewrite list_lookup_fmap, lookup_seqZ_lt by lia.
  simpl. do 3 f_equal. lia.
Qed.

(** What the function computes once the quotient is known. *)
Lemma create_profile_unfold (duration_profile time_step : Z) (double : bool) (x : float64) :
  true_div duration_profile time_step = Ok x ->
  create_profile duration_profile time_step double =
    if is_integer x then
      Ok (if double
          then doubled (time_points time_step (int_of_float x))
          else time_points time_step (int_of_float x))
    else Raise (AssertionError ass_error_duration).
Proof.
  intros Hx. unfold create_profile. rewrite Hx.
  change (Ok x ≫= ?f) with (f x). cbv beta.
  destruct (is_integer x); [|reflexivity].
  destruct double.
  - by rewrite foldl_append_points_twice.
  - by rewrite foldl_append_points.
Qed.

(** C1 (as amended). For a non-zero step and a duration that is [q] steps
    long, [0 <= q <= 2^53], [create_profile] returns the points
    [0], [time_step], ..., [duration_profile] in order, [q + 1] of them,
    the first being [0] and the last the duration; with [double=True]
    every point comes twice in a row and there are [2 * (q + 1)]. *)
Theorem create_profile_multiple (duration_profile time_step q : Z) :
  time_step <> 0 -> 0 <= q <= 2 ^ 53 -> duration_profile = q * time_step ->
  create_profile duration_profile time_step false = Ok (time_points time_step q)
  /\ create_profile duration_profile time_step true
     = Ok (doubled (time_points time_step q))
  /\ Z.of_nat (length (time_points time_step q)) = q + 1
  /\ Z.of_nat (length (doubled (time_points time_step q))) = 2 * (q + 1)
  /\ (forall i, 0 <= i <= q ->
        time_points time_step q !! Z.to_nat i = Some [i * time_step])
  /\ time_points time_step q !! 0%nat = Some [0]
  /\ last (time_points time_step q) = Some [duration_profile].
Proof.
  intros Ht Hq ->.
  destruct (true_div_exact q time_step Ht ltac:(lia)) as (x & Hx & Hint & Hval).
  pose proof (length_time_points time_step q ltac:(lia)) as Hlen.
  split; [|split; [|split; [|split; [|split; [|split]]]]].
  - rewrite (create_profile_unfold _ _ _ _ Hx), Hint, Hval. reflexivity.
  - rewrite (create_profile_unfold _ _ _ _ Hx), Hint, Hval. reflexivity.
  - exact Hlen.
  - rewrite length_doubled. lia.
  - intros i Hi. by apply lookup_time_points.
  - apply (lookup_time_points time_step q 0). lia.
  - rewrite last_lookup.
    replace (Nat.pred (length (time_points time_step q))) with (Z.to_nat q) by lia.
    apply lookup_time_points. lia.
Qed.

Lemma create_profile_multiple_witness :
  create_profile 86400 3600 false = Ok (time_points 3600 24)
  /\ create_profile 86400 3600 true = Ok (doubled (time_points 3600 24))
  /\ Z.of_nat (length (time_points 3600 24)) = 24 + 1
  /\ Z.of_nat (length (doubled (time_points 3600 24))) = 2 * (24 + 1)
  /\ (forall i, 0 <= i <= 24 -> time_points 3600 24 !! Z.to_nat i = Some [i * 3600])
  /\ time_points 3600 24 !! 0%nat = Some [0]
  /\ last (time_points 3600 24) = Some [86400].
Proof.
  apply (create_profile_multiple 86400 3600 24); [lia | | reflexivity].
  split; [lia | vm_compute; discriminate].
Defined.

(** C1, counterexample.  Two durations that are multiples of the step 1.
    The quotient of [2^1024] by 1 is not a finite float: the function
    raises [OverflowError] and returns no grid.  The quotient of
    [2^53 + 1] by 1 rounds to [2^53]: the grid has [2^53 + 1] points
    instead of [2^53 + 2] and is not the sequence up to the duration. *)
Lemma create_profile_multiple_counterexample :
  ((1 | 2 ^ 1024)
   /\ create_profile (2 ^ 1024) 1 false = Raise OverflowError)
  /\ ((1 | 2 ^ 53 + 1)
      /\ create_profile (2 ^ 53 + 1) 1 false = Ok (time_points 1 (2 ^ 53))
      /\ Z.of_nat (length (time_points 1 (2 ^ 53))) = 2 ^ 53 + 1
      /\ create_profile (2 ^ 53 + 1) 1 false <> Ok (time_points 1 (2 ^ 53 + 1))).
Proof.
  split.
  { split; [apply Z.divide_1_l|].
    unfold create_profile.
    replace (true_div (2 ^ 1024) 1) with (@Raise float64 OverflowError)
      by (vm_compute; reflexivity).
    reflexivity. }
  assert (Hx : true_div (2 ^ 53 + 1) 1 = Ok (F64 (2 ^ 52) 1))
    by (vm_compute; reflexivity).
  assert (Hrun : create_profile (2 ^ 53 + 1) 1 false = Ok (time_points 1 (2 ^ 53))).
  { rewrite (create_profile_unfold _ _ _ _ Hx).
    change (is_integer (F64 (2 ^ 52) 1)) with true.
    change (int_of_float (F64 (2 ^ 52) 1)) with (2 ^ 53). reflexivity. }
  assert (Hlen : Z.of_nat (length (time_points 1 (2 ^ 53))) = 2 ^ 53 + 1)
    by (apply length_time_points; vm_compute; discriminate).
  split; [apply Z.divide_1_l|].
  split; [exact Hrun|].
  split; [exact Hlen|].
  rewrite Hrun. intros Heq.
  assert (Hlen' : Z.of_nat (length (time_points 1 (2 ^ 53 + 1))) = 2 ^ 53 + 1 + 1)
    by (apply length_time_points; vm_compute; discriminate).
  assert (Heq' : time_points 1 (2 ^ 53) = time_points 1 (2 ^ 53 + 1))
    by congruence.
  rewrite <- Heq' in Hlen'. lia.
Qed.

(** C8 (as amended). For a non-zero step, duration and step both below
    [2^53] in magnitude, when the duration is not a multiple of the step
    [create_profile] raises the assertion error with its message and
    returns no grid, whatever [double] is. *)
Theorem create_profile_not_multiple (duration_profile time_step : Z) (double : bool) :
  time_step <> 0 ->
  Z.abs duration_profile < 2 ^ 53 -> Z.abs time_step < 2 ^ 53 ->
  ~ (time_step | duration_profile) ->
  create_profile duration_profile time_step double
  = Raise (AssertionError "duration must be a multiple of time_step").
Proof.
  intros Ht Hd Hs Hnd.
  destruct (true_div_inexact _ _ Ht Hd Hs Hnd) as (x & Hx & Hint).
  rewrite (create_profile_unfold _ _ _ _ Hx), Hint. reflexivity.
Qed.

Lemma create_profile_not_multiple_witness :
  create_profile 86400 7000 false
  = Raise (AssertionError "duration must be a multiple of time_step").
Proof.
  apply (create_profile_not_multiple 86400 7000 false).
  - lia.
  - vm_compute; reflexivity.
  - vm_compute; reflexivity.
  - intros [k Hk]. lia.
Defined.

(** C8, counterexample.  5 is not a multiple of 0, and the function raises
    [ZeroDivisionError], not the assertion error.  [2^54 + 1] is not a
    multiple of [2^54] either: the float quotient is [1.0], the assertion
    passes and a grid of two points is returned. *)
Lemma create_profile_not_multiple_counterexample :
  (~ (0 | 5)
   /\ create_profile 5 0 false = Raise ZeroDivisionError
   /\ create_profile 5 0 false
      <> Raise (AssertionError "duration must be a multiple of time_step"))
  /\ (~ (2 ^ 54 | 2 ^ 54 + 1)
      /\ create_profile (2 ^ 54 + 1) (2 ^ 54) false = Ok [[0]; [2 ^ 54]]).
Proof.
  split.
  - split; [intros [k Hk]; lia|].
    split; [reflexivity | discriminate].
  - split.
    + intros [k Hk]. change (2 ^ 54) with 18014398509481984 in Hk. lia.
    + vm_compute. reflexivity.
Qed.

(** ** The surface-area aggregator *)

Section SurfaceAreaFacts.
Context {A V : Type}.
Variable add : A -> A -> A.
Variable zero : A.
(** Areas add up exactly: [add] is associative and commutative and
    [zero] is neutral. *)
Hypothesis add_assoc : forall a b c, add a (add b c) = add (add a b) c.
Hypothesis add_comm : forall a b, add a b = add b a.
Hypothesis add_zero_l : forall a, add zero a = a.

Lemma add_zone_surface_spec (acc : A) (zone : ThermalZone A V) :
  add_zone_surface add acc zone = add acc (zone_area_spec add zero (model_attr zone)).
Proof.
  unfold add_zone_surface. destruct (model_attr zone); simpl.
  - reflexivity.
  - f_equal. rewrite <- !add_assoc. f_equal. apply add_comm.
  - f_equal. rewrite <- !add_assoc. f_equal.
    rewrite (add_comm area_win). rewrite <- !add_assoc. reflexivity.
  - f_equal. rewrite <- !add_assoc. f_equal.
    rewrite (add_comm area_win). rewrite <- !add_assoc. reflexivity.
  - rewrite add_comm, add_zero_l. reflexivity.
Qed.

Lemma foldl_add_zone_surface (zones : list (ThermalZone A V)) (acc : A) :
  foldl (add_zone_surface add) acc zones = add acc (total_area_spec add zero zones).
Proof.
  revert acc. induction zones as [|zone zones IH]; intros acc; simpl.
  - rewrite add_comm, add_zero_l. reflexivity.
  - rewrite IH, add_zone_surface_spec, add_assoc. reflexivity.
Qed.

(** C6. [_calc_surface_area] stores in [total_surface_area] the sum over
    all zones of the areas of the zone's variant (exterior wall and
    window always, interior wall from two elements on, ground floor from
    three, roof with four) and changes no other attribute. *)
Theorem calc_surface_area_sum (self : AixLib A V) :
  let self' := _calc_surface_area add zero self in
  total_surface_area self'
  = Some (total_area_spec add zero (thermal_zones (parent self)))
  /\ parent self' = parent self
  /\ file_set_t_heat self' = file_set_t_heat self
  /\ file_set_t_cool self' = file_set_t_cool self
  /\ file_ahu self' = file_ahu self
  /\ file_internal_gains self' = file_internal_gains self
  /\ version self' = version self
  /\ consider_heat_capacity self' = consider_heat_capacity self
  /\ use_set_back self' = use_set_back self
  /\ use_set_point_temperature_profile_heating self'
     = use_set_point_temperature_profile_heating self
  /\ use_set_back_cool self' = use_set_back_cool self.
Proof.
  simpl. split; [|repeat split].
  f_equal. rewrite foldl_add_zone_surface. apply add_zero_l.
Qed.
End SurfaceAreaFacts.

Lemma calc_surface_area_sum_witness :
  let self' := _calc_surface_area Z.add 0 (init example_building) in
  (total_surface_area self' = Some (total_area_spec Z.add 0 example_zones)
   /\ parent self' = example_building
   /\ file_set_t_heat self' = "TsetHeat_B1.txt"
   /\ file_set_t_cool self' = "TsetCool_B1.txt"
   /\ file_ahu self' = "AHU_B1.mat"
   /\ file_internal_gains self' = "InternalGains_B1.txt"
   /\ version self' = "0.7.4"
   /\ consider_heat_capacity self' = true
   /\ use_set_back self' = true
   /\ use_set_point_temperature_profile_heating self' = false
   /\ use_set_back_cool self' = false)
  /\ zone_area_spec Z.add 0 (TwoElement 10 5 2) = 17
  /\ total_area_spec Z.add 0 example_zones = 17 + 44.
Proof.
  split; [|split; reflexivity].
  apply (calc_surface_area_sum Z.add 0 Z.add_assoc Z.add_comm Z.add_0_l
           (init example_building)).
Defined.

(** ** Text *)

Lemma append_cons (x : ascii) (a b : string) :
  String x a +:+ b = String x (a +:+ b).
Proof. reflexivity. Qed.

Lemma append_nil_l (a : string) : EmptyString +:+ a = a.
Proof. reflexivity. Qed.

Lemma append_assoc (a b c : string) : (a +:+ b) +:+ c = a +:+ (b +:+ c).
Proof.
  induction a as [|x a IH]; [reflexivity|].
  rewrite !append_cons. f_equal. exact IH.
Qed.

Lemma append_nil_r (a : string) : a +:+ EmptyString = a.
Proof.
  induction a as [|x a IH]; [reflexivity|].
  rewrite append_cons. f_equal. exact IH.
Qed.

Lemma free_of_append (c : ascii) (a b : string) :
  free_of c (a +:+ b) = free_of c a && free_of c b.
Proof.
  induction a as [|x a IH]; [reflexivity|].
  rewrite append_cons. simpl. rewrite IH. by rewrite andb_assoc.
Qed.

Lemma split_on_free (c : ascii) (s : string) :
  free_of c s = true -> split_on c s = [s].
Proof.
  induction s as [|a s IH]; simpl; [reflexivity|].
  intros [Ha Hs]%andb_true_iff.
  apply negb_true_iff in Ha. rewrite Ha, (IH Hs). reflexivity.
Qed.

Lemma split_on_app (c : ascii) (s t : string) :
  free_of c s = true ->
  split_on c (s +:+ String c t) = s :: split_on c t.
Proof.
  induction s as [|a s IH].
  - intros _. rewrite append_nil_l. simpl. by rewrite Ascii.eqb_refl.
  - rewrite append_cons. simpl. intros [Ha Hs]%andb_true_iff.
    apply negb_true_iff in Ha.
    rewrite Ha, (IH Hs). reflexivity.
Qed.

(** Splitting a joined line gives the fields back. *)
Lemma split_on_join (c : ascii) (field : string) (fields : list string) :
  Forall (fun f => free_of c f = true) (field :: fields) ->
  split_on c (join (String c EmptyString) (field :: fields)) = field :: fields.
Proof.
  revert field. induction fields as [|g fields IH]; intros field Hall.
  - simpl. apply split_on_free. by inversion Hall.
  - inversion Hall as [|? ? Hf Hrest]; subst.
    change (join (String c EmptyString) (field :: g :: fields))
      with (field +:+ String c (join (String c EmptyString) (g :: fields))).
    rewrite split_on_app by done. by rewrite IH.
Qed.

Lemma concat_cons (x : string) (xs : list string) :
  String.concat EmptyString (x :: xs) = x +:+ String.concat EmptyString xs.
Proof. destruct xs; [by rewrite append_nil_r | reflexivity]. Qed.

(** Splitting a text made of terminated lines gives the lines and a last
    empty piece. *)
Lemma split_on_lines (c : ascii) (lines : list string) :
  Forall (fun l => free_of c l = true) lines ->
  split_on c (String.concat EmptyString (map (fun l => l +:+ String c EmptyString) lines))
  = lines ++ [EmptyString].
Proof.
  induction lines as [|l lines IH]; intros Hall; [reflexivity|].
  inversion Hall as [|? ? Hl Hrest]; subst.
  cbn [map]. rewrite concat_cons, append_assoc.
  change (String c EmptyString +:+ ?t) with (String c t).
  rewrite split_on_app by done. by rewrite IH.
Qed.

(** *** Decimal digits *)

Lemma free_of_uint (c : ascii) (d : Decimal.uint) :
  (c = "009" \/ c = "010")%char ->
  free_of c (NilEmpty.string_of_uint d) = true.
Proof.
  intros Hc. induction d; simpl; try rewrite IHd; try reflexivity;
    destruct Hc as [-> | ->]; reflexivity.
Qed.

Lemma free_of_str_of_Z (c : ascii) (z : Z) :
  (c = "009" \/ c = "010")%char -> free_of c (str_of_Z z) = true.
Proof.
  intros Hc. unfold str_of_Z, NilZero.string_of_int, NilZero.string_of_uint.
  destruct (Z.to_int z) as [d|d]; destruct d; simpl;
    try (destruct Hc as [-> | ->]; reflexivity);
    try (rewrite free_of_uint by done; destruct Hc as [-> | ->]; reflexivity).
Qed.

Lemma one_field_str_of_Z (z : Z) : one_field (str_of_Z z) = true.
Proof.
  unfold one_field. rewrite !free_of_str_of_Z by auto. reflexivity.
Qed.

Lemma str_of_Z_nonempty (z : Z) : str_of_Z z <> EmptyString.
Proof.
  unfold str_of_Z, NilZero.string_of_int, NilZero.string_of_uint.
  destruct (Z.to_int z) as [d|d]; destruct d; simpl; discriminate.
Qed.

(** Reading a printed int gives the int back. *)
Lemma Z_of_str_of_Z (z : Z) : Z_of_str (str_of_Z z) = Some z.
Proof.
  unfold Z_of_str, str_of_Z.
  rewrite NilZero.isi.
  - simpl. by rewrite DecimalZ.of_to.
  - destruct z; simpl; try discriminate.
    intros H. injection H as H. by apply Unsigned.to_uint_nonnil in H.
  - destruct z; simpl; try discriminate.
    intros H. injection H as H. by apply Unsigned.to_uint_nonnil in H.
Qed.

(** ** Frames *)

Section FrameFacts.
Context {V : Type}.
Implicit Types (df : DataFrame V) (value : list V).

Lemma df_setitem_ok key value df :
  length value = length (df_index df) ->
  exists df', df_setitem key value df = Ok df' /\ df_index df' = df_index df.
Proof.
  intros Hlen. unfold df_setitem. rewrite decide_True by done.
  eexists; split; reflexivity.
Qed.

Lemma df_setitem_raise key value df :
  length value <> length (df_index df) ->
  df_setitem key value df
  = Raise (ValueError "Length of values does not match length of index").
Proof. intros Hlen. unfold df_setitem. by rewrite decide_False. Qed.

Lemma df_setitem_index key value df df' :
  df_setitem key value df = Ok df' -> df_index df' = df_index df.
Proof.
  unfold df_setitem. destruct (decide _); [|discriminate].
  by intros [= <-].
Qed.

(** Assigning to a declared column whose name occurs once. *)
Lemma df_setitem_declared index key value
    (before after : list (string * option (list V))) old :
  length value = length index ->
  key ∉ before.*1 -> key ∉ after.*1 ->
  df_setitem key value {| df_index := index;
                          df_columns := before ++ (key, old) :: after |}
  = Ok {| df_index := index;
          df_columns := before ++ (key, Some value) :: after |}.
Proof.
  intros Hlen Hb Ha. unfold df_setitem; simpl.
  rewrite decide_True by done.
  rewrite decide_True
    by (rewrite fmap_app, fmap_cons; apply elem_of_app; right; left).
  do 2 f_equal. rewrite map_app. simpl. rewrite decide_True by done.
  assert (Hid : forall l : list (string * option (list V)),
             key ∉ l.*1 ->
             map (fun kc => if decide (kc.1 = key) then (key, Some value) else kc) l = l).
  { induction l as [|kc l IH]; [reflexivity|].
    rewrite fmap_cons. intros Hk. apply not_elem_of_cons in Hk as [Hk1 Hk2].
    simpl. rewrite decide_False by done. f_equal. by apply IH. }
  by rewrite !Hid.
Qed.

(** Assigning to a name that no column has: a new last column. *)
Lemma df_setitem_new index key value (columns : list (string * option (list V))) :
  length value = length index ->
  key ∉ columns.*1 ->
  df_setitem key value {| df_index := index; df_columns := columns |}
  = Ok {| df_index := index; df_columns := columns ++ [(key, Some value)] |}.
Proof.
  intros Hlen Hk. unfold df_setitem; simpl.
  rewrite decide_True by done. by rewrite decide_False.
Qed.

Lemma df_set_index_ok labels df :
  length labels = length (df_index df) ->
  df_set_index labels df = Ok {| df_index := labels; df_columns := df_columns df |}.
Proof. intros Hlen. unfold df_set_index. by rewrite decide_True. Qed.

Lemma length_date_range (periods : nat) :
  length (date_range_2019 periods) = periods.
Proof. unfold date_range_2019. by rewrite length_map, length_seq. Qed.

Lemma length_seconds_index : length seconds_index = Z.to_nat 8760.
Proof. unfold seconds_index, range. by rewrite length_map, length_seqZ. Qed.

Lemma lookup_seconds_index (i : nat) :
  (i < Z.to_nat 8760)%nat ->
  seconds_index !! i = Some (Seconds ((Z.of_nat i + 1) * 3600)).
Proof.
  intros Hi. unfold seconds_index, range.
  rewrite list_lookup_fmap, lookup_seqZ_lt by lia. reflexivity.
Qed.

Variable fmt : V -> string.

(** The text of a frame indexed by the seconds whose columns all hold
    data is made of the rows of the contract. *)
Lemma to_csv_matrix df (columns : list (list V)) :
  df_index df = seconds_index ->
  (df_columns df).*2 = map Some columns ->
  to_csv fmt df = String.concat EmptyString (matrix_rows fmt columns).
Proof.
  intros Hidx Hcols. unfold to_csv, matrix_rows. f_equal.
  apply list_eq. intros i.
  rewrite list_lookup_imap, Hidx, list_lookup_fmap.
  destruct (decide (i < Z.to_nat 8760)%nat) as [Hi|Hi].
  - rewrite lookup_seconds_index, lookup_seq_lt by done. simpl. f_equal.
    unfold csv_row, matrix_row. simpl.
    assert (Hcells : map (fun kc : string * option (list V) => fmt_cell fmt i kc.2)
                       (df_columns df)
                     = map (fun column => from_option fmt EmptyString (column !! i))
                         columns); [|by rewrite Hcells].
    transitivity (map (fmt_cell fmt i) (df_columns df).*2).
    { by rewrite <- list_fmap_compose. }
    rewrite Hcols, <- list_fmap_compose. apply list_fmap_ext.
    intros _ column _. simpl. by destruct (column !! i).
  - rewrite lookup_ge_None_2 by (rewrite length_seconds_index; lia).
    rewrite lookup_seq_ge by lia. reflexivity.
Qed.

Lemma length_matrix_rows (columns : list (list V)) :
  length (matrix_rows fmt columns) = Z.to_nat 8760.
Proof. unfold matrix_rows. by rewrite length_map, length_seq. Qed.

(** What the shared [with open(path, 'a')] block leaves in the files. *)
Lemma write_matrix_lookup path title (columns : Z) df w :
  files (write_matrix fmt path title columns df w) !! path
  = Some (default EmptyString (files w !! path)
            +:+ ("#1" +:+ LF
                   +:+ "double " +:+ title +:+ "(" +:+ str_of_Z 8760 +:+ ", "
                   +:+ str_of_Z columns +:+ ")" +:+ LF
                   +:+ to_csv fmt df)).
Proof.
  unfold write_matrix, write, open_append.
  destruct (files w !! path) as [old|] eqn:Hold; simpl;
    rewrite ?Hold, ?lookup_insert_eq; simpl;
    rewrite ?lookup_insert_eq; simpl; rewrite ?lookup_insert_eq; simpl;
    f_equal; rewrite ?append_nil_l, !append_assoc; reflexivity.
Qed.

Lemma write_matrix_other path title (columns : Z) df w p :
  p <> path ->
  files (write_matrix fmt path title columns df w) !! p = files w !! p.
Proof.
  intros Hp. unfold write_matrix, write, open_append.
  destruct (files w !! path) as [old|] eqn:Hold; simpl;
    rewrite ?lookup_insert_ne by done; reflexivity.
Qed.

Lemma write_matrix_dirs path title (columns : Z) df w :
  dirs (write_matrix fmt path title columns df w) = dirs w.
Proof.
  unfold write_matrix, write, open_append.
  destruct (files w !! path); reflexivity.
Qed.
End FrameFacts.

(** ** The set-point and internal-gains exporters *)

Section TextExportFacts.
Context {A V : Type}.
Variable default_path : string.
Variable fmt : V -> string.
Implicit Types (zones : list (ThermalZone A V)) (self : AixLib A V).

(** *** The loop that fills the declared columns *)

Section Columns.
Variable sel : ThermalZone A V -> list V.

Lemma set_columns_run index (done : list (string * option (list V))) zones :
  NoDup (map zone_name zones) ->
  (forall key, key ∈ done.*1 -> key ∉ map zone_name zones) ->
  Forall (fun zone => length (sel zone) = length index) zones ->
  for_each (fun export zone => df_setitem (zone_name zone) (sel zone) export)
           {| df_index := index;
              df_columns := done ++ map (fun zone => (zone_name zone, None)) zones |}
           zones
  = Ok {| df_index := index;
          df_columns :=
            done ++ map (fun zone => (zone_name zone, Some (sel zone))) zones |}.
Proof.
  revert done. induction zones as [|zone zones IH]; intros done Hnd Hdone Hlen.
  - reflexivity.
  - apply NoDup_cons in Hnd as [Hfresh Hnd].
    apply Forall_cons in Hlen as [Hl Hlen].
    cbn [for_each map].
    rewrite df_setitem_declared; [|done| |].
    + replace (done ++ (zone_name zone, Some (sel zone))
                 :: map (fun z => (zone_name z, None)) zones)
        with ((done ++ [(zone_name zone, Some (sel zone))])
                ++ map (fun z => (zone_name z, None)) zones)
        by (by rewrite <- app_assoc).
      rewrite IH; [by rewrite <- app_assoc|done| |done].
      intros key Hkey. rewrite fmap_app in Hkey.
      apply elem_of_app in Hkey as [Hkey|Hkey].
      * specialize (Hdone key Hkey). cbn [map] in Hdone.
        by apply not_elem_of_cons in Hdone as [_ ?].
      * apply list_elem_of_singleton in Hkey. by subst key.
    + intros Hin. apply (Hdone _ Hin). left.
    + rewrite <- list_fmap_compose. exact Hfresh.
Qed.

(** Without any assumption on the names the loop still succeeds when
    the lengths fit, and keeps the row labels. *)
Lemma set_columns_ok (df : DataFrame V) zones :
  Forall (fun zone => length (sel zone) = length (df_index df)) zones ->
  exists df',
    for_each (fun export zone => df_setitem (zone_name zone) (sel zone) export)
             df zones = Ok df'
    /\ df_index df' = df_index df.
Proof.
  revert df. induction zones as [|zone zones IH]; intros df Hlen.
  - by exists df.
  - apply Forall_cons in Hlen as [Hl Hlen].
    destruct (df_setitem_ok (zone_name zone) (sel zone) df Hl) as (df1 & Hrun & Hidx).
    cbn [for_each]. rewrite Hrun.
    destruct (IH df1) as (df' & Hrun' & Hidx').
    { by rewrite Hidx. }
    exists df'. split; [done | congruence].
Qed.

(** A profile of another length stops the loop with an error. *)
Lemma set_columns_raise (df : DataFrame V) zones :
  Exists (fun zone => length (sel zone) <> length (df_index df)) zones ->
  for_each (fun export zone => df_setitem (zone_name zone) (sel zone) export)
           df zones
  = Raise (ValueError "Length of values does not match length of index").
Proof.
  revert df. induction zones as [|zone zones IH]; intros df Hex.
  - by apply Exists_nil in Hex.
  - cbn [for_each].
    destruct (decide (length (sel zone) = length (df_index df))) as [Hl|Hl].
    + destruct (df_setitem_ok (zone_name zone) (sel zone) df Hl) as (df1 & Hrun & Hidx).
      rewrite Hrun. apply IH. rewrite Hidx.
      apply Exists_cons in Hex as [Hex|Hex]; [done | exact Hex].
    + by rewrite df_setitem_raise.
Qed.

Lemma set_columns_index (df df' : DataFrame V) zones :
  for_each (fun export zone => df_setitem (zone_name zone) (sel zone) export)
           df zones = Ok df' ->
  df_index df' = df_index df.
Proof.
  revert df. induction zones as [|zone zones IH]; intros df Hrun;
    cbn [for_each] in Hrun.
  - by injection Hrun as <-.
  - destruct (df_setitem (zone_name zone) (sel zone) df) as [df1|e] eqn:H1;
      [|discriminate].
    apply df_setitem_index in H1. apply IH in Hrun. congruence.
Qed.
End Columns.

(** *** The set-point exporters *)

Lemma new_frame_declared index zones :
  @new_frame V index (map zone_name zones)
  = {| df_index := index;
       df_columns := [] ++ map (fun zone => (zone_name zone, None)) zones |}.
Proof. unfold new_frame. by rewrite <- list_fmap_compose. Qed.

(** The common end of the three exporters when the loop has filled
    every column: one matrix goes to the end of the file. *)
Lemma finish_matrix (loop : result (DataFrame V)) path title (n : Z) (w0 : fs)
    (columns : list (list V)) (named : list (string * option (list V))) :
  loop = Ok {| df_index := date_range_2019 hours_of_year; df_columns := named |} ->
  named.*2 = map Some columns ->
  n = Z.of_nat (length columns) + 1 ->
  exists w',
    match loop with
    | Raise e => (w0, Raise e)
    | Ok export =>
        match df_set_index seconds_index export with
        | Raise e => (w0, Raise e)
        | Ok export => (write_matrix fmt path title n export w0, Ok tt)
        end
    end = (w', Ok tt)
    /\ files w' !! path
       = Some (default EmptyString (files w0 !! path) +:+ matrix_text fmt title columns)
    /\ (forall p, p <> path -> files w' !! p = files w0 !! p).
Proof.
  intros -> Hnamed ->.
  rewrite df_set_index_ok
    by (cbn [df_index]; by rewrite length_seconds_index, length_date_range).
  eexists. split; [reflexivity|]. split.
  - rewrite write_matrix_lookup.
    rewrite (to_csv_matrix fmt _ columns); [reflexivity|reflexivity|exact Hnamed].
  - intros p Hp. by rewrite write_matrix_other.
Qed.

(** The heating file for unique zone names and profiles of length 8760. *)
Lemma modelica_set_temp_heat_file self path w :
  let zones := thermal_zones (parent self) in
  let target := os_path_join (resolve_path default_path path) (file_set_t_heat self) in
  let columns := map (fun zone => heating_profile (use_conditions zone)) zones in
  NoDup (map zone_name zones) ->
  Forall (fun zone => length (heating_profile (use_conditions zone)) = Z.to_nat 8760)
         zones ->
  exists w',
    modelica_set_temp default_path fmt self path w = (w', Ok tt)
    /\ files w' !! target
       = Some (default EmptyString (files w !! target) +:+ matrix_text fmt "Tset" columns)
    /\ (forall p, p <> target -> files w' !! p = files w !! p).
Proof.
  intros zones target columns Hnd Hlen.
  apply (finish_matrix _ target "Tset" _
           (create_path (resolve_path default_path path) w) columns
           (map (fun zone => (zone_name zone,
                              Some (heating_profile (use_conditions zone)))) zones)).
  - rewrite new_frame_declared.
    apply (set_columns_run (fun zone => heating_profile (use_conditions zone)));
      [done|intros key Hkey; by apply elem_of_nil in Hkey
      |by rewrite length_date_range].
  - unfold columns. by rewrite <- !list_fmap_compose.
  - unfold columns. by rewrite length_map.
Qed.

(** C4. With zone names that are unique and heating profiles of length
    8760, [modelica_set_temp] succeeds and puts at the end of its file
    (the whole file when it was missing or empty) the marker line [#1],
    the header [double Tset(8760, zones + 1)] and 8760 tab-separated
    rows without header or labels, row [i] starting with [(i + 1) * 3600]
    followed by one cell per zone taken from the heating profiles in zone
    order; no other file changes.  A heating profile of another length
    makes the export fail, and no file is written. *)
Theorem modelica_set_temp_file self path w :
  let zones := thermal_zones (parent self) in
  let target := os_path_join (resolve_path default_path path) (file_set_t_heat self) in
  let columns := map (fun zone => heating_profile (use_conditions zone)) zones in
  (NoDup (map zone_name zones) ->
   Forall (fun zone => length (heating_profile (use_conditions zone)) = Z.to_nat 8760)
          zones ->
   exists w',
     modelica_set_temp default_path fmt self path w = (w', Ok tt)
     /\ files w' !! target
        = Some (default EmptyString (files w !! target) +:+ matrix_text fmt "Tset" columns)
     /\ length (matrix_rows fmt columns) = Z.to_nat 8760
     /\ length columns = length zones
     /\ (forall p, p <> target -> files w' !! p = files w !! p))
  /\ (Exists (fun zone => length (heating_profile (use_conditions zone)) <> Z.to_nat 8760)
             zones ->
      exists w',
        modelica_set_temp default_path fmt self path w
        = (w', Raise (ValueError "Length of values does not match length of index"))
        /\ files w' = files w).
Proof.
  intros zones target columns. split.
  - intros Hnd Hlen.
    destruct (modelica_set_temp_heat_file self path w Hnd Hlen)
      as (w' & Hrun & Hfile & Hother).
    exists w'. split; [exact Hrun|]. split; [exact Hfile|].
    split; [apply length_matrix_rows|]. split; [apply length_map|exact Hother].
  - intros Hex. unfold modelica_set_temp. fold zones.
    rewrite (set_columns_raise (fun zone => heating_profile (use_conditions zone)));
      [|cbn [new_frame df_index]; by rewrite length_date_range].
    eexists. split; reflexivity.
Qed.

(** *** Appending *)

Lemma add_gains_ok (df : DataFrame V) (zone : ThermalZone A V) :
  length (persons_profile (use_conditions zone)) = length (df_index df) ->
  length (machines_profile (use_conditions zone)) = length (df_index df) ->
  length (lighting_profile (use_conditions zone)) = length (df_index df) ->
  exists df', add_gains df zone = Ok df' /\ df_index df' = df_index df.
Proof.
  intros Hp Hm Hl. unfold add_gains.
  destruct (df_setitem_ok ("person_" +:+ zone_name zone) _ df Hp) as (df1 & -> & H1).
  rewrite <- H1 in Hm, Hl.
  destruct (df_setitem_ok ("machines_" +:+ zone_name zone) _ df1 Hm) as (df2 & H2r & H2).
  rewrite <- H2 in Hl.
  destruct (df_setitem_ok ("lighting_" +:+ zone_name zone) _ df2 Hl) as (df3 & H3r & H3).
  exists df3. cbn [mbind result_bind]. rewrite H2r. cbn [mbind result_bind].
  split; [exact H3r | congruence].
Qed.

Lemma gains_ok (df : DataFrame V) zones :
  Forall (gains_fit (length (df_index df))) zones ->
  exists df', for_each add_gains df zones = Ok df' /\ df_index df' = df_index df.
Proof.
  revert df. induction zones as [|zone zones IH]; intros df Hfit.
  - by exists df.
  - apply Forall_cons in Hfit as [(Hp & Hm & Hl) Hfit].
    destruct (add_gains_ok df zone Hp Hm Hl) as (df1 & Hrun & Hidx).
    cbn [for_each]. rewrite Hrun.
    destruct (IH df1) as (df' & Hrun' & Hidx'); [by rewrite Hidx|].
    exists df'. split; [done | congruence].
Qed.

Lemma add_gains_index (df df' : DataFrame V) (zone : ThermalZone A V) :
  add_gains df zone = Ok df' -> df_index df' = df_index df.
Proof.
  unfold add_gains. intros Hrun.
  destruct (df_setitem ("person_" +:+ zone_name zone) _ df) as [df1|] eqn:H1;
    [|discriminate].
  cbn [mbind result_bind] in Hrun.
  destruct (df_setitem ("machines_" +:+ zone_name zone) _ df1) as [df2|] eqn:H2;
    [|discriminate].
  cbn [mbind result_bind] in Hrun.
  apply df_setitem_index in H1, H2, Hrun. congruence.
Qed.

Lemma gains_index (df df' : DataFrame V) zones :
  for_each add_gains df zones = Ok df' -> df_index df' = df_index df.
Proof.
  revert df. induction zones as [|zone zones IH]; intros df Hrun;
    cbn [for_each] in Hrun.
  - by injection Hrun as <-.
  - destruct (add_gains df zone) as [df1|e] eqn:H1; [|discriminate].
    apply add_gains_index in H1. apply IH in Hrun. congruence.
Qed.

(** The text of a frame indexed by the seconds has 8760 lines. *)
Lemma to_csv_lines (df : DataFrame V) :
  df_index df = seconds_index ->
  exists rows, length rows = Z.to_nat 8760
               /\ to_csv fmt df
                  = String.concat EmptyString (map (fun row => row +:+ LF) rows).
Proof.
  intros Hidx.
  exists (imap (fun i l => join TAB (fmt_label l
                                       :: map (fun kc => fmt_cell fmt i kc.2)
                                            (df_columns df)))
               (df_index df)).
  split.
  - by rewrite length_imap, Hidx, length_seconds_index.
  - unfold to_csv. f_equal. symmetry. apply (fmap_imap _ (fun row => row +:+ LF)).
Qed.

Lemma write_matrix_appended path title (columns : Z) (df : DataFrame V) w :
  df_index df = seconds_index ->
  exists new,
    files (write_matrix fmt path title columns df w) !! path = Some new
    /\ appended_matrix title columns (default EmptyString (files w !! path)) new.
Proof.
  intros Hidx. rewrite write_matrix_lookup. eexists; split; [reflexivity|].
  destruct (to_csv_lines df Hidx) as (rows & Hlen & ->).
  exists rows. split; [exact Hlen | reflexivity].
Qed.

(** The common end of the three exporters, for any frame the loop
    produced. *)
Lemma finish_appends (loop : result (DataFrame V)) path title (columns : Z)
    (w0 : fs) (old : string) (fits : Prop) :
  files w0 !! path = Some old ->
  (fits -> exists df, loop = Ok df /\ length (df_index df) = Z.to_nat 8760) ->
  (forall df, loop = Ok df -> length (df_index df) = Z.to_nat 8760) ->
  let out :=
    match loop with
    | Raise e => (w0, Raise e)
    | Ok export =>
        match df_set_index seconds_index export with
        | Raise e => (w0, Raise e)
        | Ok export => (write_matrix fmt path title columns export w0, Ok tt)
        end
    end in
  (exists suffix, files out.1 !! path = Some (old +:+ suffix))
  /\ (fits -> out.2 = Ok tt
              /\ exists new, files out.1 !! path = Some new
                             /\ appended_matrix title columns old new).
Proof.
  intros Hold Hfits Hlen out.
  assert (Hdone : forall df, loop = Ok df ->
            out = (write_matrix fmt path title columns
                     {| df_index := seconds_index; df_columns := df_columns df |} w0,
                   Ok tt)).
  { intros df Hdf. unfold out. rewrite Hdf.
    rewrite df_set_index_ok; [reflexivity|].
    rewrite length_seconds_index. symmetry. by apply Hlen. }
  split.
  - destruct loop as [df|e] eqn:Hloop.
    + rewrite (Hdone df eq_refl). cbn [fst].
      rewrite write_matrix_lookup, Hold. eexists. reflexivity.
    + exists EmptyString. unfold out. cbn [fst]. by rewrite append_nil_r.
  - intros Hf. destruct (Hfits Hf) as (df & Hdf & _).
    rewrite (Hdone df Hdf). cbn [fst snd]. split; [reflexivity|].
    destruct (write_matrix_appended path title columns
                {| df_index := seconds_index; df_columns := df_columns df |} w0 eq_refl)
      as (new & Hnew & Happ).
    rewrite Hold in Happ. by exists new.
Qed.

(** C9. The heating, cooling and internal-gains exporters open their
    file for appending: when the file exists, what it held stays at the
    start of the file whatever the outcome, and with profiles of length
    8760 the run succeeds and the marker line, the header line and 8760
    rows come after the previous content. *)
Theorem exporters_append self path :
  let zones := thermal_zones (parent self) in
  let dir := resolve_path default_path path in
  appends_only (modelica_set_temp default_path fmt self path)
    (os_path_join dir (file_set_t_heat self)) "Tset" (Z.of_nat (length zones) + 1)
    (Forall (fun zone => length (heating_profile (use_conditions zone)) = Z.to_nat 8760)
            zones)
  /\ appends_only (modelica_set_temp_cool default_path fmt self path)
       (os_path_join dir (file_set_t_cool self)) "Tset" (Z.of_nat (length zones) + 1)
       (Forall (fun zone => length (cooling_profile (use_conditions zone)) = Z.to_nat 8760)
               zones)
  /\ (forall time_line,
        appends_only (modelica_gains_boundary default_path fmt self time_line path)
          (os_path_join dir (file_internal_gains self)) "Internals"
          (Z.of_nat (length zones) * 3 + 1)
          (Forall (gains_fit (Z.to_nat 8760)) zones)).
Proof.
  intros zones dir.
  split; [|split; [|intros time_line]]; intros w old Hold.
  - apply (finish_appends _ _ _ _ (create_path dir w) old); [exact Hold| |].
    + intros Hfit. destruct (set_columns_ok
                               (fun zone => heating_profile (use_conditions zone))
                               (new_frame (date_range_2019 hours_of_year)
                                          (map zone_name zones)) zones)
        as (df & Hdf & Hidx).
      { cbn [new_frame df_index]. by rewrite length_date_range. }
      exists df. split; [exact Hdf|].
      rewrite Hidx. cbn [new_frame df_index]. by rewrite length_date_range.
    + intros df Hdf. apply set_columns_index in Hdf. rewrite Hdf.
      cbn [new_frame df_index]. by rewrite length_date_range.
  - apply (finish_appends _ _ _ _ (create_path dir w) old); [exact Hold| |].
    + intros Hfit. destruct (set_columns_ok
                               (fun zone => cooling_profile (use_conditions zone))
                               (new_frame (date_range_2019 hours_of_year)
                                          (map zone_name zones)) zones)
        as (df & Hdf & Hidx).
      { cbn [new_frame df_index]. by rewrite length_date_range. }
      exists df. split; [exact Hdf|].
      rewrite Hidx. cbn [new_frame df_index]. by rewrite length_date_range.
    + intros df Hdf. apply set_columns_index in Hdf. rewrite Hdf.
      cbn [new_frame df_index]. by rewrite length_date_range.
  - apply (finish_appends _ _ _ _ (create_path dir w) old); [exact Hold| |].
    + intros Hfit. destruct (gains_ok (new_frame (date_range_2019 hours_of_year) [])
                                      zones)
        as (df & Hdf & Hidx).
      { cbn [new_frame df_index]. by rewrite length_date_range. }
      exists df. split; [exact Hdf|].
      rewrite Hidx. cbn [new_frame df_index]. by rewrite length_date_range.
    + intros df Hdf. apply gains_index in Hdf. rewrite Hdf.
      cbn [new_frame df_index]. by rewrite length_date_range.
Qed.

(** *** The loop of the internal-gains exporter *)

Lemma append_inj_l (prefix a b : string) : prefix +:+ a = prefix +:+ b -> a = b.
Proof.
  induction prefix as [|c prefix IH]; [done|].
  rewrite !append_cons. intros [= H]. by apply IH.
Qed.

(** The names of the gain columns of two zones with different names
    are different. *)
Lemma gains_named_disjoint (zone zone' : ThermalZone A V) (key : string) :
  zone_name zone <> zone_name zone' ->
  key ∈ (gains_named zone).*1 -> key ∉ (gains_named zone').*1.
Proof.
  intros Hne Hin Hin'. unfold gains_named in *. cbn [fmap list_fmap fst] in *.
  repeat (apply elem_of_cons in Hin as [Hin|Hin]); [| | |by apply elem_of_nil in Hin];
    subst key;
    repeat (apply elem_of_cons in Hin' as [Hin'|Hin']);
    try (by apply elem_of_nil in Hin');
    try (apply append_inj_l in Hin'; by apply Hne);
    rewrite !append_cons in Hin'; discriminate Hin'.
Qed.

Lemma add_gains_new index (done : list (string * option (list V)))
    (zone : ThermalZone A V) :
  gains_fit (length index) zone ->
  (forall key, key ∈ done.*1 -> key ∉ (gains_named zone).*1) ->
  add_gains {| df_index := index; df_columns := done |} zone
  = Ok {| df_index := index; df_columns := done ++ gains_named zone |}.
Proof.
  intros (Hp & Hm & Hl) Hdone. unfold add_gains.
  assert (Hfresh : forall key, key ∈ (gains_named zone).*1 -> key ∉ done.*1).
  { intros key Hkey Hin. by apply (Hdone key Hin). }
  rewrite df_setitem_new; [|done|apply Hfresh; left].
  cbn [mbind result_bind].
  rewrite df_setitem_new; [|done|].
  2:{ rewrite fmap_app. intros [Hin|Hin]%elem_of_app.
      - revert Hin. apply Hfresh. right; left.
      - apply list_elem_of_singleton in Hin. cbn [fst] in Hin.
        rewrite !append_cons in Hin. discriminate Hin. }
  cbn [mbind result_bind].
  rewrite df_setitem_new; [|done|].
  2:{ rewrite !fmap_app. intros [[Hin|Hin]%elem_of_app|Hin]%elem_of_app.
      - revert Hin. apply Hfresh. right; right; left.
      - apply list_elem_of_singleton in Hin. cbn [fst] in Hin.
        rewrite !append_cons in Hin. discriminate Hin.
      - apply list_elem_of_singleton in Hin. cbn [fst] in Hin.
        rewrite !append_cons in Hin. discriminate Hin. }
  unfold gains_named. by rewrite <- !app_assoc.
Qed.

Lemma gains_run index (done : list (string * option (list V))) zones :
  NoDup (map zone_name zones) ->
  (forall key zone, key ∈ done.*1 -> zone ∈ zones -> key ∉ (gains_named zone).*1) ->
  Forall (gains_fit (length index)) zones ->
  for_each add_gains {| df_index := index; df_columns := done |} zones
  = Ok {| df_index := index; df_columns := done ++ flat_map gains_named zones |}.
Proof.
  revert done. induction zones as [|zone zones IH]; intros done Hnd Hdone Hfit.
  - cbn [for_each flat_map]. by rewrite app_nil_r.
  - apply NoDup_cons in Hnd as [Hfresh Hnd].
    apply Forall_cons in Hfit as [Hz Hfit].
    cbn [for_each flat_map].
    rewrite add_gains_new; [|done|intros key Hkey; apply (Hdone key zone Hkey); left].
    rewrite IH; [by rewrite <- app_assoc|done| |done].
    intros key zone' Hkey Hzone'. rewrite fmap_app in Hkey.
    apply elem_of_app in Hkey as [Hkey|Hkey].
    + apply (Hdone key zone' Hkey). by right.
    + revert Hkey. apply gains_named_disjoint.
      intros Heq. apply Hfresh. rewrite Heq.
      apply list_elem_of_fmap. by exists zone'.
Qed.

Lemma gains_named_columns zones :
  (flat_map gains_named zones).*2 = map Some (gains_columns (V:=V) zones).
Proof.
  induction zones as [|zone zones IH]; [reflexivity|].
  cbn [flat_map gains_columns]. rewrite fmap_app, map_app, IH. reflexivity.
Qed.

Lemma length_gains_columns zones :
  length (gains_columns zones) = (length zones * 3)%nat.
Proof.
  induction zones as [|zone zones IH]; [reflexivity|].
  cbn [gains_columns flat_map]. rewrite length_app.
  change (flat_map _ zones) with (gains_columns zones). rewrite IH.
  cbn [length]. lia.
Qed.

(** The three files as the contract describes them, for unique zone
    names and profiles of length 8760. *)
Lemma modelica_set_temp_cool_file self path w :
  let zones := thermal_zones (parent self) in
  let target := os_path_join (resolve_path default_path path) (file_set_t_cool self) in
  let columns := map (fun zone => cooling_profile (use_conditions zone)) zones in
  NoDup (map zone_name zones) ->
  Forall (fun zone => length (cooling_profile (use_conditions zone)) = Z.to_nat 8760)
         zones ->
  exists w',
    modelica_set_temp_cool default_path fmt self path w = (w', Ok tt)
    /\ files w' !! target
       = Some (default EmptyString (files w !! target) +:+ matrix_text fmt "Tset" columns)
    /\ (forall p, p <> target -> files w' !! p = files w !! p).
Proof.
  intros zones target columns Hnd Hlen.
  apply (finish_matrix _ target "Tset" _
           (create_path (resolve_path default_path path) w) columns
           (map (fun zone => (zone_name zone,
                              Some (cooling_profile (use_conditions zone)))) zones)).
  - rewrite new_frame_declared.
    apply (set_columns_run (fun zone => cooling_profile (use_conditions zone)));
      [done|intros key Hkey; by apply elem_of_nil in Hkey
      |by rewrite length_date_range].
  - unfold columns. by rewrite <- !list_fmap_compose.
  - unfold columns. by rewrite length_map.
Qed.

Lemma modelica_gains_boundary_file self time_line path w :
  let zones := thermal_zones (parent self) in
  let target :=
    os_path_join (resolve_path default_path path) (file_internal_gains self) in
  NoDup (map zone_name zones) ->
  Forall (gains_fit (Z.to_nat 8760)) zones ->
  exists w',
    modelica_gains_boundary default_path fmt self time_line path w = (w', Ok tt)
    /\ files w' !! target
       = Some (default EmptyString (files w !! target)
                 +:+ matrix_text fmt "Internals" (gains_columns zones))
    /\ (forall p, p <> target -> files w' !! p = files w !! p).
Proof.
  intros zones target Hnd Hfit.
  apply (finish_matrix _ target "Internals" _
           (create_path (resolve_path default_path path) w) (gains_columns zones)
           (flat_map gains_named zones)).
  - unfold new_frame. cbn [map].
    rewrite (gains_run _ [] zones); [reflexivity|done| |by rewrite length_date_range].
    intros key zone Hkey. by apply elem_of_nil in Hkey.
  - apply gains_named_columns.
  - unfold zones. rewrite length_gains_columns. lia.
Qed.
End TextExportFacts.

Lemma example_zones_names : NoDup (map zone_name example_zones).
Proof.
  cbn [map example_zones zone_name]. apply NoDup_cons. split.
  - intros H. apply list_elem_of_singleton in H. discriminate H.
  - apply NoDup_singleton.
Qed.

Lemma modelica_set_temp_file_witness :
  (exists w',
      modelica_set_temp "default" str_of_Z (init example_building) (Some "out") empty_fs
      = (w', Ok tt)
      /\ files w' !! os_path_join (resolve_path "default" (Some "out"))
                                  (file_set_t_heat (init example_building))
         = Some (default EmptyString
                   (files empty_fs
                      !! os_path_join (resolve_path "default" (Some "out"))
                                      (file_set_t_heat (init example_building)))
                   +:+ matrix_text str_of_Z "Tset"
                         (map (fun zone => heating_profile (use_conditions zone))
                              (thermal_zones (parent (init example_building)))))
      /\ length (matrix_rows str_of_Z
                   (map (fun zone => heating_profile (use_conditions zone))
                        (thermal_zones (parent (init example_building)))))
         = Z.to_nat 8760
      /\ length (map (fun zone : ThermalZone Z Z => heating_profile (use_conditions zone))
                     (thermal_zones (parent (init example_building))))
         = length (thermal_zones (parent (init example_building)))
      /\ (forall p,
            p <> os_path_join (resolve_path "default" (Some "out"))
                              (file_set_t_heat (init example_building)) ->
            files w' !! p = files empty_fs !! p))
  /\ (exists w',
         modelica_set_temp "default" str_of_Z (init example_building_short) (Some "out")
                           empty_fs
         = (w', Raise (ValueError "Length of values does not match length of index"))
         /\ files w' = files empty_fs)
  /\ os_path_join (resolve_path "default" (Some "out"))
                  (file_set_t_heat (init example_building)) = "out/TsetHeat_B1.txt".
Proof.
  split; [|split; [|reflexivity]].
  - apply (proj1 (modelica_set_temp_file "default" str_of_Z (init example_building)
                    (Some "out") empty_fs)).
    + exact example_zones_names.
    + repeat constructor.
  - apply (proj2 (modelica_set_temp_file "default" str_of_Z (init example_building_short)
                    (Some "out") empty_fs)).
    left. cbn [heating_profile use_conditions]. rewrite length_replicate. lia.
Defined.

Lemma exporters_append_witness :
  let heat := modelica_set_temp "default" str_of_Z (init example_building) (Some "out")
                                used_fs in
  let cool := modelica_set_temp_cool "default" str_of_Z (init example_building)
                                     (Some "out") used_fs in
  let gains := modelica_gains_boundary "default" str_of_Z (init example_building) None
                                       (Some "out") used_fs in
  ((exists suffix, files heat.1 !! "out/TsetHeat_B1.txt" = Some ("old heat" +:+ suffix))
   /\ heat.2 = Ok tt
   /\ exists new, files heat.1 !! "out/TsetHeat_B1.txt" = Some new
                  /\ appended_matrix "Tset" 3 "old heat" new)
  /\ ((exists suffix, files cool.1 !! "out/TsetCool_B1.txt" = Some ("old cool" +:+ suffix))
      /\ cool.2 = Ok tt
      /\ exists new, files cool.1 !! "out/TsetCool_B1.txt" = Some new
                     /\ appended_matrix "Tset" 3 "old cool" new)
  /\ ((exists suffix,
          files gains.1 !! "out/InternalGains_B1.txt" = Some ("old gains" +:+ suffix))
      /\ gains.2 = Ok tt
      /\ exists new, files gains.1 !! "out/InternalGains_B1.txt" = Some new
                     /\ appended_matrix "Internals" 7 "old gains" new).
Proof.
  intros heat cool gains.
  destruct (exporters_append "default" str_of_Z (init example_building) (Some "out"))
    as (Hheat & Hcool & Hgains).
  split; [|split].
  - destruct (Hheat used_fs "old heat" eq_refl) as [Hkeep Hfit].
    split; [exact Hkeep|]. apply Hfit. repeat constructor.
  - destruct (Hcool used_fs "old cool" eq_refl) as [Hkeep Hfit].
    split; [exact Hkeep|]. apply Hfit. repeat constructor.
  - destruct (Hgains None used_fs "old gains" eq_refl) as [Hkeep Hfit].
    split; [exact Hkeep|]. apply Hfit. repeat constructor.
Defined.

(** X1. For unique zone names and gain profiles of length 8760,
    [modelica_gains_boundary] succeeds and puts at the end of its file the
    marker line, the header [double Internals(8760, 3 * zones + 1)] and
    8760 rows whose cells are, zone after zone, the persons, machines and
    lighting values of the hour; no other file changes. *)
Theorem modelica_gains_boundary_layout {A V : Type} (default_path : string)
    (fmt : V -> string) (self : AixLib A V) (time_line : option (list (list Z)))
    (path : option string) (w : fs) :
  let zones := thermal_zones (parent self) in
  let target := os_path_join (resolve_path default_path path) (file_internal_gains self) in
  NoDup (map zone_name zones) ->
  Forall (gains_fit (Z.to_nat 8760)) zones ->
  exists w',
    modelica_gains_boundary default_path fmt self time_line path w = (w', Ok tt)
    /\ files w' !! target
       = Some (default EmptyString (files w !! target)
                 +:+ matrix_text fmt "Internals" (gains_columns zones))
    /\ length (gains_columns zones) = (length zones * 3)%nat
    /\ (forall j zone, zones !! j = Some zone ->
          gains_columns zones !! (3 * j)%nat
          = Some (persons_profile (use_conditions zone))
          /\ gains_columns zones !! (3 * j + 1)%nat
             = Some (machines_profile (use_conditions zone))
          /\ gains_columns zones !! (3 * j + 2)%nat
             = Some (lighting_profile (use_conditions zone)))
    /\ (forall p, p <> target -> files w' !! p = files w !! p).
Proof.
  intros zones target Hnd Hfit.
  destruct (modelica_gains_boundary_file default_path fmt self time_line path w Hnd Hfit)
    as (w' & Hrun & Hfile & Hother).
  exists w'. split; [exact Hrun|]. split; [exact Hfile|].
  split; [apply length_gains_columns|]. split; [|exact Hother].
  intros j zone Hj. revert j Hj. clear.
  induction zones as [|z zones IH]; intros j Hj; [done|].
  destruct j as [|j].
  - injection Hj as ->. repeat split.
  - cbn [lookup list_lookup] in Hj. destruct (IH j Hj) as (Hp & Hm & Hl).
    replace (3 * S j)%nat with (S (S (S (3 * j)))) by lia.
    cbn [gains_columns flat_map app Nat.add lookup list_lookup].
    change (flat_map _ zones) with (gains_columns zones).
    repeat split; assumption.
Qed.

Lemma modelica_gains_boundary_layout_witness :
  let self := init example_building in
  let target := os_path_join (resolve_path "default" (Some "out"))
                             (file_internal_gains self) in
  exists w',
    modelica_gains_boundary "default" str_of_Z self None (Some "out") empty_fs = (w', Ok tt)
    /\ files w' !! target
       = Some (default EmptyString (files empty_fs !! target)
                 +:+ matrix_text str_of_Z "Internals" (gains_columns example_zones))
    /\ length (gains_columns example_zones) = (length example_zones * 3)%nat
    /\ (forall j zone, example_zones !! j = Some zone ->
          gains_columns example_zones !! (3 * j)%nat
          = Some (persons_profile (use_conditions zone))
          /\ gains_columns example_zones !! (3 * j + 1)%nat
             = Some (machines_profile (use_conditions zone))
          /\ gains_columns example_zones !! (3 * j + 2)%nat
             = Some (lighting_profile (use_conditions zone)))
    /\ (forall p, p <> target -> files w' !! p = files empty_fs !! p).
Proof.
  apply (modelica_gains_boundary_layout "default" str_of_Z (init example_building) None
           (Some "out") empty_fs).
  - exact example_zones_names.
  - repeat constructor.
Defined.

(** X2. For unique zone names and cooling profiles of length 8760,
    [modelica_set_temp_cool] succeeds and puts at the end of its file the
    marker line, the header [double Tset(8760, zones + 1)] and 8760 rows
    with one cell per zone taken from the cooling profiles in zone order;
    the flag [use_set_back_cool] plays no part. *)
Theorem modelica_set_temp_cool_layout {A V : Type} (default_path : string)
    (fmt : V -> string) (self : AixLib A V) (path : option string) (w : fs) :
  let zones := thermal_zones (parent self) in
  let target := os_path_join (resolve_path default_path path) (file_set_t_cool self) in
  let columns := map (fun zone => cooling_profile (use_conditions zone)) zones in
  NoDup (map zone_name zones) ->
  Forall (fun zone => length (cooling_profile (use_conditions zone)) = Z.to_nat 8760)
         zones ->
  exists w',
    modelica_set_temp_cool default_path fmt self path w = (w', Ok tt)
    /\ files w' !! target
       = Some (default EmptyString (files w !! target) +:+ matrix_text fmt "Tset" columns)
    /\ length (matrix_rows fmt columns) = Z.to_nat 8760
    /\ length columns = length zones
    /\ (forall p, p <> target -> files w' !! p = files w !! p).
Proof.
  intros zones target columns Hnd Hlen.
  destruct (modelica_set_temp_cool_file default_path fmt self path w Hnd Hlen)
    as (w' & Hrun & Hfile & Hother).
  exists w'. split; [exact Hrun|]. split; [exact Hfile|].
  split; [apply length_matrix_rows|]. split; [apply length_map|exact Hother].
Qed.

Lemma modelica_set_temp_cool_layout_witness :
  let self := init example_building in
  let target := os_path_join (resolve_path "default" (Some "out")) (file_set_t_cool self) in
  let columns := map (fun zone : ThermalZone Z Z => cooling_profile (use_conditions zone))
                     example_zones in
  exists w',
    modelica_set_temp_cool "default" str_of_Z self (Some "out") empty_fs = (w', Ok tt)
    /\ files w' !! target
       = Some (default EmptyString (files empty_fs !! target)
                 +:+ matrix_text str_of_Z "Tset" columns)
    /\ length (matrix_rows str_of_Z columns) = Z.to_nat 8760
    /\ length columns = length example_zones
    /\ (forall p, p <> target -> files w' !! p = files empty_fs !! p).
Proof.
  apply (modelica_set_temp_cool_layout "default" str_of_Z (init example_building)
           (Some "out") empty_fs).
  - exact example_zones_names.
  - repeat constructor.
Defined.

(** ** Reading a matrix back *)

Lemma free_of_join (c : ascii) (sep : string) (fields : list string) :
  free_of c sep = true ->
  Forall (fun f => free_of c f = true) fields ->
  free_of c (join sep fields) = true.
Proof.
  intros Hsep. induction fields as [|f fields IH]; intros Hall; [reflexivity|].
  apply Forall_cons in Hall as [Hf Hall].
  destruct fields as [|g fields]; [exact Hf|].
  change (join sep (f :: g :: fields)) with (f +:+ sep +:+ join sep (g :: fields)).
  rewrite !free_of_append, Hf, Hsep, (IH Hall). reflexivity.
Qed.

Lemma filter_nonempty (lines : list string) :
  Forall (fun l => l <> EmptyString) lines ->
  filter (fun l => l <> EmptyString) (lines ++ [EmptyString]) = lines.
Proof.
  induction lines as [|l lines IH]; intros Hall.
  - reflexivity.
  - apply Forall_cons in Hall as [Hl Hall].
    cbn [app]. rewrite filter_cons_True by done. by rewrite IH.
Qed.

Lemma mapM_map_Some {X Y Z : Type} (f : Y -> option Z) (g : X -> Y) (h : X -> Z)
    (l : list X) :
  (forall x, x ∈ l -> f (g x) = Some (h x)) ->
  mapM f (map g l) = Some (map h l).
Proof.
  intros Hf. apply mapM_Some. apply Forall2_fmap.
  apply Forall_Forall2_diag, Forall_forall. exact Hf.
Qed.

Section RoundTrip.
Context {V : Type}.
Variable fmt : V -> string.
Variable parse : string -> option V.
(** Reading a printed cell gives the value back, and a printed cell
    holds neither a tab nor a line feed. *)
Hypothesis parse_fmt : forall v, parse (fmt v) = Some v.
Hypothesis fmt_one_field : forall v, one_field (fmt v) = true.

Lemma fmt_free (c : ascii) (v : V) :
  (c = "009" \/ c = "010")%char -> free_of c (fmt v) = true.
Proof.
  intros Hc. pose proof (fmt_one_field v) as H. unfold one_field in H.
  apply andb_true_iff in H as [Ht Hl]. by destruct Hc as [-> | ->].
Qed.

(** Value [i] of every column, when the columns are long enough. *)
Lemma cells_at (columns : list (list V)) (n i : nat) :
  Forall (fun column => length column = n) columns -> (i < n)%nat ->
  exists cells,
    mapM (fun column => column !! i) columns = Some cells
    /\ map (fun column => from_option fmt EmptyString (column !! i)) columns
       = map fmt cells.
Proof.
  intros Hlen Hi. induction columns as [|column columns IH].
  - by exists [].
  - apply Forall_cons in Hlen as [Hc Hlen].
    destruct (IH Hlen) as (cells & Hcells & Hmap).
    destruct (lookup_lt_is_Some_2 column i) as [v Hv]; [lia|].
    exists (v :: cells). split.
    + apply mapM_Some. constructor; [exact Hv | by apply mapM_Some].
    + cbn [map]. rewrite Hv, Hmap. reflexivity.
Qed.

Lemma parse_matrix_row (columns : list (list V)) (i : nat) :
  Forall (fun column => length column = Z.to_nat 8760) columns ->
  (i < Z.to_nat 8760)%nat ->
  exists line,
    matrix_row fmt columns i = line +:+ LF
    /\ free_of "010" line = true
    /\ line <> EmptyString
    /\ parse_row parse line
       = Some ((Z.of_nat i + 1) * 3600,
               default [] (mapM (fun column => column !! i) columns)).
Proof.
  intros Hlen Hi.
  destruct (cells_at columns _ i Hlen Hi) as (cells & Hcells & Hmap).
  unfold matrix_row. rewrite Hmap, Hcells. eexists. split; [reflexivity|].
  split; [|split].
  - apply free_of_join; [reflexivity|].
    constructor; [apply free_of_str_of_Z; by right|].
    apply Forall_fmap, Forall_forall. intros v _. apply fmt_free. by right.
  - pose proof (str_of_Z_nonempty ((Z.of_nat i + 1) * 3600)) as Hne.
    unfold join. cbn [String.concat].
    destruct (str_of_Z ((Z.of_nat i + 1) * 3600)) as [|c s]; [done|].
    destruct (map fmt cells); [done|]. rewrite append_cons. discriminate.
  - unfold parse_row. change TAB with (String "009" EmptyString).
    rewrite split_on_join.
    + rewrite Z_of_str_of_Z. cbn [mbind option_bind].
      change (map fmt cells) with (fmt <$> cells).
      rewrite (mapM_fmap_Some parse fmt cells) by exact parse_fmt. reflexivity.
    + constructor; [apply free_of_str_of_Z; by left|].
      apply Forall_fmap, Forall_forall. intros v _. apply fmt_free. by left.
Qed.

(** Reading the text of a matrix gives its table. *)
Lemma read_matrix_text (title : string) (columns : list (list V)) :
  free_of "010" title = true ->
  Forall (fun column => length column = Z.to_nat 8760) columns ->
  read_matrix parse (matrix_text fmt title columns) = Some (matrix_table columns).
Proof.
  intros Htitle Hlen.
  (* the rows without their ends of line *)
  assert (Hrows : exists lines,
             matrix_rows fmt columns = map (fun l => l +:+ LF) lines
             /\ Forall (fun l => free_of "010" l = true) lines
             /\ Forall (fun l => l <> EmptyString) lines
             /\ mapM (parse_row parse) lines = Some (matrix_table columns)).
  { unfold matrix_rows, matrix_table.
    assert (Hall : forall l : list nat,
               Forall (fun i => (i < Z.to_nat 8760)%nat) l ->
               exists lines,
                 map (matrix_row fmt columns) l = map (fun l => l +:+ LF) lines
                 /\ Forall (fun l => free_of "010" l = true) lines
                 /\ Forall (fun l => l <> EmptyString) lines
                 /\ mapM (parse_row parse) lines
                    = Some (map (fun i => ((Z.of_nat i + 1) * 3600,
                                           default [] (mapM (fun column => column !! i)
                                                            columns))) l)).
    { induction l as [|i l IH]; intros Hl.
      - exists []. repeat split; constructor.
      - apply Forall_cons in Hl as [Hi Hl].
        destruct (IH Hl) as (lines & Hmap & Hfree & Hne & Hparse).
        destruct (parse_matrix_row columns i Hlen Hi) as (line & Hrow & Hf & Hn & Hp).
        exists (line :: lines). cbn [map]. rewrite Hrow, Hmap.
        split; [reflexivity|]. split; [by constructor|]. split; [by constructor|].
        apply mapM_Some. constructor; [exact Hp | by apply mapM_Some]. }
    apply Hall, Forall_forall. intros i Hi%elem_of_seq. lia. }
  destruct Hrows as (lines & Hmap & Hfree & Hne & Hparse).
  unfold read_matrix, matrix_text. rewrite Hmap.
  change ("#1" +:+ LF +:+ ?rest) with ("#1" +:+ String "010" rest).
  rewrite split_on_app by reflexivity.
  rewrite <- !append_assoc. rewrite (append_assoc _ LF _).
  change (LF +:+ ?rest) with (String "010" rest).
  rewrite split_on_app.
  - change LF with (String "010" EmptyString).
    rewrite split_on_lines by exact Hfree.
    rewrite filter_nonempty by exact Hne. exact Hparse.
  - rewrite !free_of_append, Htitle, free_of_str_of_Z by (by right). reflexivity.
Qed.

(** Column [j] of the table is column [j] of the matrix. *)
Lemma column_matrix_table (columns : list (list V)) (j : nat) (column0 : list V) :
  Forall (fun column => length column = Z.to_nat 8760) columns ->
  columns !! j = Some column0 ->
  column j (matrix_table columns) = Some column0.
Proof.
  intros Hlen Hj. unfold column. apply mapM_Some.
  apply Forall2_same_length_lookup. split.
  - unfold matrix_table. rewrite length_map, length_seq.
    symmetry. apply (Forall_lookup_1 _ _ _ _ Hlen Hj).
  - intros i row v Hrow Hv. unfold matrix_table in Hrow.
    rewrite list_lookup_fmap in Hrow.
    destruct (seq 0 (Z.to_nat 8760) !! i) as [i'|] eqn:Hi; [|discriminate].
    apply lookup_seq in Hi as [-> Hi]. injection Hrow as <-.
    cbn [snd Nat.add].
    destruct (cells_at columns _ i Hlen Hi) as (cells & Hcells & _).
    rewrite Hcells. cbn [default from_option].
    apply mapM_Some in Hcells.
    destruct (Forall2_lookup_l _ _ _ _ _ Hcells Hj) as (v' & Hv' & Hcv).
    unfold id. rewrite Hv'. congruence.
Qed.
End RoundTrip.

Lemma lookup_gains_columns {A V : Type} (zones : list (ThermalZone A V)) (j : nat)
    (zone : ThermalZone A V) :
  zones !! j = Some zone ->
  gains_columns zones !! (3 * j)%nat = Some (persons_profile (use_conditions zone))
  /\ gains_columns zones !! (3 * j + 1)%nat = Some (machines_profile (use_conditions zone))
  /\ gains_columns zones !! (3 * j + 2)%nat = Some (lighting_profile (use_conditions zone)).
Proof.
  revert j. induction zones as [|z zones IH]; intros j Hj; [done|].
  destruct j as [|j].
  - injection Hj as ->. repeat split.
  - cbn [lookup list_lookup] in Hj. destruct (IH j Hj) as (Hp & Hm & Hl).
    replace (3 * S j)%nat with (S (S (S (3 * j)))) by lia.
    cbn [gains_columns flat_map app Nat.add lookup list_lookup].
    change (flat_map _ zones) with (gains_columns zones).
    repeat split; assumption.
Qed.

Lemma gains_columns_fit {A V : Type} (n : nat) (zones : list (ThermalZone A V)) :
  Forall (gains_fit n) zones ->
  Forall (fun column => length column = n) (gains_columns zones).
Proof.
  induction 1 as [|zone zones (Hp & Hm & Hl) _ IH]; [constructor|].
  cbn [gains_columns flat_map app]. by repeat constructor.
Qed.

Section RoundTripExport.
Context {A V : Type}.
Variable default_path : string.
Variable fmt : V -> string.
Variable parse : string -> option V.
Hypothesis parse_fmt : forall v, parse (fmt v) = Some v.
Hypothesis fmt_one_field : forall v, one_field (fmt v) = true.

(** C7. For unique zone names, profiles of length 8760, cells that can be
    read back and a file that was missing or empty, reading the file an
    exporter wrote (the marker and header lines skipped, the rows split
    at the tabs) gives the table whose columns are the profiles in zone
    order: one column per zone for heating and for cooling, and persons,
    machines, lighting of each zone for the internal gains. *)
Theorem matrix_round_trip (self : AixLib A V) (path : option string) (w : fs) :
  let zones := thermal_zones (parent self) in
  let dir := resolve_path default_path path in
  NoDup (map zone_name zones) ->
  (let target := os_path_join dir (file_set_t_heat self) in
   let columns := map (fun zone => heating_profile (use_conditions zone)) zones in
   default EmptyString (files w !! target) = EmptyString ->
   Forall (fun zone => length (heating_profile (use_conditions zone)) = Z.to_nat 8760)
          zones ->
   exists w' text,
     modelica_set_temp default_path fmt self path w = (w', Ok tt)
     /\ files w' !! target = Some text
     /\ read_matrix parse text = Some (matrix_table columns)
     /\ forall j zone, zones !! j = Some zone ->
          column j (matrix_table columns)
          = Some (heating_profile (use_conditions zone)))
  /\ (let target := os_path_join dir (file_set_t_cool self) in
      let columns := map (fun zone => cooling_profile (use_conditions zone)) zones in
      default EmptyString (files w !! target) = EmptyString ->
      Forall (fun zone => length (cooling_profile (use_conditions zone)) = Z.to_nat 8760)
             zones ->
      exists w' text,
        modelica_set_temp_cool default_path fmt self path w = (w', Ok tt)
        /\ files w' !! target = Some text
        /\ read_matrix parse text = Some (matrix_table columns)
        /\ forall j zone, zones !! j = Some zone ->
             column j (matrix_table columns)
             = Some (cooling_profile (use_conditions zone)))
  /\ (forall time_line,
      let target := os_path_join dir (file_internal_gains self) in
      let columns := gains_columns zones in
      default EmptyString (files w !! target) = EmptyString ->
      Forall (gains_fit (Z.to_nat 8760)) zones ->
      exists w' text,
        modelica_gains_boundary default_path fmt self time_line path w = (w', Ok tt)
        /\ files w' !! target = Some text
        /\ read_matrix parse text = Some (matrix_table columns)
        /\ forall j zone, zones !! j = Some zone ->
             column (3 * j) (matrix_table columns)
             = Some (persons_profile (use_conditions zone))
             /\ column (3 * j + 1) (matrix_table columns)
                = Some (machines_profile (use_conditions zone))
             /\ column (3 * j + 2) (matrix_table columns)
                = Some (lighting_profile (use_conditions zone))).
Proof.
  intros zones dir Hnd. subst dir. split; [|split].
  - intros target columns Hfresh Hlen.
    destruct (modelica_set_temp_heat_file default_path fmt self path w Hnd Hlen)
      as (w' & Hrun & Hfile & _).
    fold target in Hfile. rewrite Hfresh, append_nil_l in Hfile.
    assert (Hcols : Forall (fun column => length column = Z.to_nat 8760) columns).
    { unfold columns. by apply Forall_fmap. }
    exists w', (matrix_text fmt "Tset" columns).
    split; [exact Hrun|]. split; [exact Hfile|].
    split; [by apply read_matrix_text|].
    intros j zone Hj. apply (column_matrix_table fmt columns j _ Hcols).
    unfold columns. by rewrite list_lookup_fmap, Hj.
  - intros target columns Hfresh Hlen.
    destruct (modelica_set_temp_cool_file default_path fmt self path w Hnd Hlen)
      as (w' & Hrun & Hfile & _).
    fold target in Hfile. rewrite Hfresh, append_nil_l in Hfile.
    assert (Hcols : Forall (fun column => length column = Z.to_nat 8760) columns).
    { unfold columns. by apply Forall_fmap. }
    exists w', (matrix_text fmt "Tset" columns).
    split; [exact Hrun|]. split; [exact Hfile|].
    split; [by apply read_matrix_text|].
    intros j zone Hj. apply (column_matrix_table fmt columns j _ Hcols).
    unfold columns. by rewrite list_lookup_fmap, Hj.
  - intros time_line target columns Hfresh Hfit.
    destruct (modelica_gains_boundary_file default_path fmt self time_line path w
                Hnd Hfit) as (w' & Hrun & Hfile & _).
    fold target in Hfile. rewrite Hfresh, append_nil_l in Hfile.
    pose proof (gains_columns_fit _ _ Hfit) as Hcols.
    exists w', (matrix_text fmt "Internals" columns).
    split; [exact Hrun|]. split; [exact Hfile|].
    split; [by apply read_matrix_text|].
    intros j zone Hj.
    destruct (lookup_gains_columns zones j zone Hj) as (Hp & Hm & Hl).
    repeat split; by apply (column_matrix_table fmt columns _ _ Hcols).
Qed.
End RoundTripExport.

Lemma matrix_round_trip_witness :
  let self := init example_building in
  let heating := map (fun zone : ThermalZone Z Z => heating_profile (use_conditions zone))
                     example_zones in
  let cooling := map (fun zone : ThermalZone Z Z => cooling_profile (use_conditions zone))
                     example_zones in
  (exists w' text,
      modelica_set_temp "default" str_of_Z self (Some "out") empty_fs = (w', Ok tt)
      /\ files w' !! "out/TsetHeat_B1.txt" = Some text
      /\ read_matrix Z_of_str text = Some (matrix_table heating)
      /\ forall j zone, example_zones !! j = Some zone ->
           column j (matrix_table heating) = Some (heating_profile (use_conditions zone)))
  /\ (exists w' text,
         modelica_set_temp_cool "default" str_of_Z self (Some "out") empty_fs = (w', Ok tt)
         /\ files w' !! "out/TsetCool_B1.txt" = Some text
         /\ read_matrix Z_of_str text = Some (matrix_table cooling)
         /\ forall j zone, example_zones !! j = Some zone ->
              column j (matrix_table cooling) = Some (cooling_profile (use_conditions zone)))
  /\ (exists w' text,
         modelica_gains_boundary "default" str_of_Z self None (Some "out") empty_fs
         = (w', Ok tt)
         /\ files w' !! "out/InternalGains_B1.txt" = Some text
         /\ read_matrix Z_of_str text = Some (matrix_table (gains_columns example_zones))
         /\ forall j zone, example_zones !! j = Some zone ->
              column (3 * j) (matrix_table (gains_columns example_zones))
              = Some (persons_profile (use_conditions zone))
              /\ column (3 * j + 1) (matrix_table (gains_columns example_zones))
                 = Some (machines_profile (use_conditions zone))
              /\ column (3 * j + 2) (matrix_table (gains_columns example_zones))
                 = Some (lighting_profile (use_conditions zone))).
Proof.
  intros self heating cooling.
  destruct (matrix_round_trip "default" str_of_Z Z_of_str Z_of_str_of_Z one_field_str_of_Z
              self (Some "out") empty_fs example_zones_names)
    as (Hheat & Hcool & Hgains).
  split; [|split].
  - apply Hheat; [reflexivity | repeat constructor].
  - apply Hcool; [reflexivity | repeat constructor].
  - apply (Hgains None); [reflexivity | repeat constructor].
Defined.

(** ** The AHU exporter *)

(** The literal [293.15] is the float [5157149338920550 * 2^-44]. *)
Lemma f293_15_value : f293_15 = F64 5157149338920550 (-44).
Proof. vm_compute. reflexivity. Qed.

Lemma getitem_ok (profile : list pynum) (i : nat) :
  (i < length profile)%nat -> getitem profile i = Ok (profile !!! i).
Proof.
  intros Hi. unfold getitem.
  destruct (lookup_lt_is_Some_2 profile i Hi) as [v Hv].
  rewrite Hv. by rewrite (list_lookup_total_correct _ _ _ Hv).
Qed.

(** *** Allocation *)

Lemma alloc_rows_spec (rows : list (list pynum)) (h : gmap positive (list pynum)) :
  let '(ls, h') := alloc_rows rows h in
  length ls = length rows
  /\ NoDup ls
  /\ (forall l, l ∈ ls -> h !! l = None)
  /\ (forall l, l ∉ ls -> h' !! l = h !! l)
  /\ (forall i l, ls !! i = Some l -> h' !! l = rows !! i).
Proof.
  revert h. induction rows as [|row rows IH]; intros h.
  - cbn [alloc_rows]. repeat split; try done; [constructor | intros l H; by apply elem_of_nil in H].
  - cbn [alloc_rows alloc].
    set (l0 := fresh (dom h)).
    assert (Hl0 : h !! l0 = None) by (apply not_elem_of_dom, is_fresh).
    specialize (IH (<[l0:=row]> h)).
    destruct (alloc_rows rows (<[l0:=row]> h)) as [ls h'].
    destruct IH as (Hlen & Hnd & Hnew & Hold & Hget).
    assert (Hnotin : l0 ∉ ls).
    { intros Hin. specialize (Hnew l0 Hin). by rewrite lookup_insert_eq in Hnew. }
    split; [cbn [length]; by rewrite Hlen|].
    split; [by constructor|].
    split; [|split].
    + intros l [->|Hin]%elem_of_cons; [exact Hl0|].
      specialize (Hnew l Hin).
      destruct (decide (l = l0)) as [->|Hne]; [done|].
      by rewrite lookup_insert_ne in Hnew.
    + intros l [Hne Hnin]%not_elem_of_cons.
      rewrite (Hold l Hnin). by rewrite lookup_insert_ne.
    + intros [|i] l Hl.
      * injection Hl as <-. rewrite (Hold l0 Hnotin). by rewrite lookup_insert_eq.
      * by apply Hget.
Qed.

(** *** The loop over the rows *)

Section Loop.
Variables pT pmin pmax pflow : list pynum.

(** Four appends to one row are one extension by the four values. *)
Lemma append_profiles_ok (i : nat) (time : loc) (h : gmap positive (list pynum)) :
  (i < length pT)%nat -> (i < length pmin)%nat ->
  (i < length pmax)%nat -> (i < length pflow)%nat ->
  append_profiles pT pmin pmax pflow (i, time) h
  = (extend (profile_values pT pmin pmax pflow) h (i, time), Ok tt).
Proof.
  intros H1 H2 H3 H4. unfold append_profiles, extend.
  rewrite !getitem_ok by done. f_equal. unfold list_append.
  rewrite !alter_alter_eq. apply alter_ext. intros row _. cbn.
  by rewrite <- !app_assoc.
Qed.

Lemma loop_ok (its : list (nat * loc)) (h : gmap positive (list pynum)) (n : nat) :
  length pT = n -> length pmin = n -> length pmax = n -> length pflow = n ->
  Forall (fun it => (it.1 < n)%nat) its ->
  for_each_st (append_profiles pT pmin pmax pflow) its h
  = (foldl (extend (profile_values pT pmin pmax pflow)) h its, Ok tt).
Proof.
  intros H1 H2 H3 H4. revert h. induction its as [|[i l] its IH]; intros h Hall.
  - reflexivity.
  - apply Forall_cons in Hall as [Hi Hall]. cbn [fst] in Hi.
    cbn [for_each_st foldl]. rewrite append_profiles_ok by lia.
    by rewrite IH.
Qed.
End Loop.

Lemma foldl_extend_lookup (values : nat -> list pynum) (rows : list loc) :
  forall (k : nat) (h : gmap positive (list pynum)),
    NoDup rows ->
    let h' := foldl (extend values) h (imap (fun i x => ((k + i)%nat, x)) rows) in
    (forall i l, rows !! i = Some l ->
       h' !! l = (fun row => row ++ values (k + i)%nat) <$> h !! l)
    /\ (forall l, l ∉ rows -> h' !! l = h !! l).
Proof.
  induction rows as [|r rows IH]; intros k h Hnd h'.
  - split; [intros i l Hl; done | intros l _; reflexivity].
  - apply NoDup_cons in Hnd as [Hr Hnd].
    unfold h'. rewrite imap_cons. cbn [foldl].
    rewrite (imap_ext _ (fun i x => ((S k + i)%nat, x)))
      by (intros i x _; cbn; f_equal; lia).
    destruct (IH (S k) (extend values h ((k + 0)%nat, r)) Hnd) as [Hin Hout].
    split.
    + intros [|i] l Hl.
      * injection Hl as <-. rewrite (Hout r Hr). unfold extend. cbn [fst snd].
        by rewrite lookup_alter_eq.
      * cbn [lookup list_lookup] in Hl. rewrite (Hin i l Hl).
        unfold extend at 1. cbn [fst snd].
        assert (l <> r) by (intros ->; apply Hr; by apply list_elem_of_lookup_2 in Hl).
        rewrite lookup_alter_ne by done.
        by replace (S k + i)%nat with (k + S i)%nat by lia.
    + intros l [Hne Hnin]%not_elem_of_cons.
      rewrite (Hout l Hnin). unfold extend. cbn [fst snd].
      by rewrite lookup_alter_ne.
Qed.

(** The heap after the loop over [enumerate(rows)]. *)
Lemma enumerate_extend_lookup (values : nat -> list pynum) (rows : list loc)
    (h : gmap positive (list pynum)) :
  NoDup rows ->
  let h' := foldl (extend values) h (enumerate rows) in
  (forall i l, rows !! i = Some l ->
     h' !! l = (fun row => row ++ values i) <$> h !! l)
  /\ (forall l, l ∉ rows -> h' !! l = h !! l).
Proof. intros Hnd. exact (foldl_extend_lookup values rows 0 h Hnd). Qed.

Lemma enumerate_bound {X : Type} (xs : list X) :
  Forall (fun it => (it.1 < length xs)%nat) (enumerate xs).
Proof.
  apply Forall_forall. intros [i x] Hin. unfold enumerate in Hin.
  apply elem_of_lookup_imap in Hin as (j & y & [= -> ->] & Hj).
  cbn [fst]. by apply lookup_lt_Some in Hj.
Qed.

Section AHUFacts.
Context {A V : Type}.
Variable default_path : string.
Variable mat4 : string -> list (list pynum) -> string.
Implicit Types (self : AixLib A V) (w : world).

(** The run with an air-handling unit once the four lengths fit. *)
Lemma ahu_run self (rows : list loc) path w :
  with_ahu (parent self) = true ->
  let ahu := central_ahu (parent self) in
  length (profile_temperature ahu) = length rows ->
  length (profile_min_relative_humidity ahu) = length rows ->
  length (profile_max_relative_humidity ahu) = length rows ->
  length (profile_v_flow ahu) = length rows ->
  let dir := resolve_path default_path path in
  let h' := foldl (extend (ahu_values ahu)) (lists w) (enumerate rows) in
  modelica_AHU_boundary default_path mat4 self (Some rows) path w
  = match np_array (read_rows rows h') with
    | Raise e => (World h' (create_path dir (disk w)), Raise e)
    | Ok ahu_boundary =>
        (World h' (Fs (dirs (create_path dir (disk w)))
                      (<[ os_path_join dir (file_ahu self)
                          := mat4 "AHU" ahu_boundary ]>
                         (files (create_path dir (disk w))))),
         Ok tt)
    end.
Proof.
  intros Hwith ahu H1 H2 H3 H4 dir h'.
  unfold modelica_AHU_boundary. rewrite Hwith. fold ahu.
  rewrite !decide_False by (intros Hne; apply Hne; congruence).
  rewrite (loop_ok _ _ _ _ _ _ (length rows)) by (done || apply enumerate_bound).
  reflexivity.
Qed.

Lemma ahu_run_lists self (rows : list loc) path w :
  with_ahu (parent self) = true ->
  let ahu := central_ahu (parent self) in
  length (profile_temperature ahu) = length rows ->
  length (profile_min_relative_humidity ahu) = length rows ->
  length (profile_max_relative_humidity ahu) = length rows ->
  length (profile_v_flow ahu) = length rows ->
  lists (modelica_AHU_boundary default_path mat4 self (Some rows) path w).1
  = foldl (extend (ahu_values ahu)) (lists w) (enumerate rows).
Proof.
  intros Hwith ahu H1 H2 H3 H4.
  rewrite (ahu_run self rows path w Hwith H1 H2 H3 H4).
  by destruct (np_array _).
Qed.

(** C10. With an air-handling unit whose four profiles are as long as
    the caller's time line, whose rows are distinct list objects,
    [modelica_AHU_boundary] changes these objects in place: every row
    gets the temperature, the two humidity bounds and the flow of its
    time step appended (four elements more, a one-element row has five
    afterwards), no other list changes, and a second call on the same
    time line works on the extended rows and appends the four values
    once more. *)
Theorem ahu_extends_rows self (rows : list loc) path w :
  with_ahu (parent self) = true ->
  let ahu := central_ahu (parent self) in
  length (profile_temperature ahu) = length rows ->
  length (profile_min_relative_humidity ahu) = length rows ->
  length (profile_max_relative_humidity ahu) = length rows ->
  length (profile_v_flow ahu) = length rows ->
  NoDup rows ->
  let out1 := modelica_AHU_boundary default_path mat4 self (Some rows) path w in
  let out2 := modelica_AHU_boundary default_path mat4 self (Some rows) path out1.1 in
  (forall i l row,
      rows !! i = Some l -> lists w !! l = Some row ->
      lists out1.1 !! l = Some (row ++ ahu_values ahu i)
      /\ length (row ++ ahu_values ahu i) = (length row + 4)%nat
      /\ lists out2.1 !! l = Some ((row ++ ahu_values ahu i) ++ ahu_values ahu i))
  /\ (forall l, l ∉ rows -> lists out1.1 !! l = lists w !! l).
Proof.
  intros Hwith ahu H1 H2 H3 H4 Hnd out1 out2.
  assert (Hl1 : lists out1.1
                = foldl (extend (ahu_values ahu)) (lists w) (enumerate rows))
    by (by apply ahu_run_lists).
  assert (Hl2 : lists out2.1
                = foldl (extend (ahu_values ahu)) (lists out1.1) (enumerate rows))
    by (by apply ahu_run_lists).
  destruct (enumerate_extend_lookup (ahu_values ahu) rows (lists w) Hnd)
    as [Hin1 Hout1].
  destruct (enumerate_extend_lookup (ahu_values ahu) rows (lists out1.1) Hnd)
    as [Hin2 _].
  split.
  - intros i l row Hl Hrow.
    assert (Hfirst : lists out1.1 !! l = Some (row ++ ahu_values ahu i))
      by (by rewrite Hl1, (Hin1 i l Hl), Hrow).
    split; [exact Hfirst|]. split; [by rewrite length_app|].
    by rewrite Hl2, (Hin2 i l Hl), Hfirst.
  - intros l Hl. by rewrite Hl1, (Hout1 l Hl).
Qed.

Lemma default_grid : create_profile 86400 3600 false = Ok (time_points 3600 24).
Proof. vm_compute. reflexivity. Qed.

(** Without a time line the function makes the default one, 25 new
    rows, and goes on as if it had been passed. *)
Lemma ahu_none self path w :
  let '(rows, h) := alloc_rows (map (map PyInt) (time_points 3600 24)) (lists w) in
  length rows = 25%nat
  /\ (forall l row, lists w !! l = Some row -> h !! l = Some row)
  /\ modelica_AHU_boundary default_path mat4 self None path w
     = modelica_AHU_boundary default_path mat4 self (Some rows) path (World h (disk w)).
Proof.
  pose proof (alloc_rows_spec (map (map PyInt) (time_points 3600 24)) (lists w)) as Hspec.
  destruct (alloc_rows _ _) as [rows h] eqn:Halloc.
  destruct Hspec as (Hlen & _ & Hnew & Hold & _).
  split; [rewrite Hlen; reflexivity|]. split.
  - intros l row Hl. rewrite Hold; [done|].
    intros Hin. specialize (Hnew l Hin). congruence.
  - unfold modelica_AHU_boundary. rewrite default_grid.
    cbn [mbind result_bind]. rewrite Halloc. reflexivity.
Qed.

Lemma np_array_cases (rows : list (list pynum)) :
  np_array rows = Ok rows \/ np_array rows = Raise (ValueError "inhomogeneous shape").
Proof.
  unfold np_array. destruct rows as [|r rs]; [by left|].
  destruct (forallb _ rs); [by left | by right].
Qed.

Lemma ahu_length_check_some self (rows : list loc) path w :
  with_ahu (parent self) = true ->
  let ahu := central_ahu (parent self) in
  let n := length rows in
  let r := (modelica_AHU_boundary default_path mat4 self (Some rows) path w).2 in
  (length (profile_temperature ahu) <> n ->
   r = Raise (AssertionError
                "time line and input have to have the same length,profile_temperature_AHU"))
  /\ (length (profile_temperature ahu) = n ->
      length (profile_min_relative_humidity ahu) <> n ->
      r = Raise (AssertionError
                   "time line and input have to have the same length,profile_min_relative_humidity"))
  /\ (length (profile_temperature ahu) = n ->
      length (profile_min_relative_humidity ahu) = n ->
      length (profile_max_relative_humidity ahu) <> n ->
      r = Raise (AssertionError
                   "time line and input have to have the same length,profile_max_relative_humidity"))
  /\ (length (profile_temperature ahu) = n ->
      length (profile_min_relative_humidity ahu) = n ->
      length (profile_max_relative_humidity ahu) = n ->
      length (profile_v_flow ahu) <> n ->
      r = Raise (AssertionError
                   "time line and input have to have the same length,profile_status_AHU"))
  /\ (length (profile_temperature ahu) = n ->
      length (profile_min_relative_humidity ahu) = n ->
      length (profile_max_relative_humidity ahu) = n ->
      length (profile_v_flow ahu) = n ->
      r = Ok tt \/ r = Raise (ValueError "inhomogeneous shape")).
Proof.
  intros Hwith ahu n r.
  assert (Hr : r = (modelica_AHU_boundary default_path mat4 self (Some rows) path w).2)
    by reflexivity.
  split; [|split; [|split; [|split]]].
  - intros H1. rewrite Hr. unfold modelica_AHU_boundary. rewrite Hwith. fold ahu.
    rewrite decide_True by (fold n; congruence). reflexivity.
  - intros H1 H2. rewrite Hr. unfold modelica_AHU_boundary. rewrite Hwith. fold ahu.
    rewrite decide_False by (intros Hne; apply Hne; fold n; congruence).
    rewrite decide_True by (fold n; congruence). reflexivity.
  - intros H1 H2 H3. rewrite Hr. unfold modelica_AHU_boundary. rewrite Hwith. fold ahu.
    rewrite !decide_False by (intros Hne; apply Hne; fold n; congruence).
    rewrite decide_True by (fold n; congruence). reflexivity.
  - intros H1 H2 H3 H4. rewrite Hr. unfold modelica_AHU_boundary. rewrite Hwith. fold ahu.
    rewrite !decide_False by (intros Hne; apply Hne; fold n; congruence).
    rewrite decide_True by (fold n; congruence). reflexivity.
  - intros H1 H2 H3 H4. rewrite Hr.
    rewrite (ahu_run self rows path w Hwith H1 H2 H3 H4).
    destruct (np_array_cases
                (read_rows rows (foldl (extend (ahu_values (central_ahu (parent self))))
                                        (lists w) (enumerate rows))))
      as [-> | ->]; [by left | by right].
Qed.

(** C5. With an air-handling unit, the first of the four profiles
    (temperature, minimal humidity, maximal humidity, flow) whose length
    differs from the number of rows of the time grid (25 for the default
    grid) makes [modelica_AHU_boundary] fail with the assertion error
    whose message names that profile; when the four lengths fit, no
    assertion error is raised. *)
Theorem ahu_length_check self (time_line : option (list loc)) path w :
  with_ahu (parent self) = true ->
  let ahu := central_ahu (parent self) in
  let n := match time_line with Some rows => length rows | None => 25%nat end in
  let r := (modelica_AHU_boundary default_path mat4 self time_line path w).2 in
  (length (profile_temperature ahu) <> n ->
   r = Raise (AssertionError
                "time line and input have to have the same length,profile_temperature_AHU"))
  /\ (length (profile_temperature ahu) = n ->
      length (profile_min_relative_humidity ahu) <> n ->
      r = Raise (AssertionError
                   "time line and input have to have the same length,profile_min_relative_humidity"))
  /\ (length (profile_temperature ahu) = n ->
      length (profile_min_relative_humidity ahu) = n ->
      length (profile_max_relative_humidity ahu) <> n ->
      r = Raise (AssertionError
                   "time line and input have to have the same length,profile_max_relative_humidity"))
  /\ (length (profile_temperature ahu) = n ->
      length (profile_min_relative_humidity ahu) = n ->
      length (profile_max_relative_humidity ahu) = n ->
      length (profile_v_flow ahu) <> n ->
      r = Raise (AssertionError
                   "time line and input have to have the same length,profile_status_AHU"))
  /\ (length (profile_temperature ahu) = n ->
      length (profile_min_relative_humidity ahu) = n ->
      length (profile_max_relative_humidity ahu) = n ->
      length (profile_v_flow ahu) = n ->
      forall msg, r <> Raise (AssertionError msg)).
Proof.
  intros Hwith ahu n r.
  assert (Hsome : exists rows w0,
             length rows = n
             /\ r = (modelica_AHU_boundary default_path mat4 self (Some rows) path w0).2).
  { destruct time_line as [rows|].
    - by exists rows, w.
    - pose proof (ahu_none self path w) as Hnone.
      destruct (alloc_rows _ _) as [rows h].
      destruct Hnone as (Hlen & _ & Heq).
      exists rows, (World h (disk w)). split; [exact Hlen|].
      unfold r. by rewrite Heq. }
  destruct Hsome as (rows & w0 & Hn & Hr).
  destruct (ahu_length_check_some self rows path w0 Hwith)
    as (C1 & C2 & C3 & C4 & C5).
  rewrite Hn in C1, C2, C3, C4, C5. rewrite <- Hr in C1, C2, C3, C4, C5.
  split; [exact C1|]. split; [exact C2|]. split; [exact C3|]. split; [exact C4|].
  intros H1 H2 H3 H4 msg Hmsg.
  destruct (C5 H1 H2 H3 H4) as [Hok|Hval]; congruence.
Qed.

Lemma ahu_dummy_some self (rows0 : list loc) path w :
  with_ahu (parent self) = false ->
  let dir := resolve_path default_path path in
  let target := os_path_join dir (file_ahu self) in
  exists w',
    modelica_AHU_boundary default_path mat4 self (Some rows0) path w = (w', Ok tt)
    /\ files (disk w') !! target = Some (mat4 "AHU" dummy_boundary)
    /\ (forall p, p <> target -> files (disk w') !! p = files (disk w) !! p)
    /\ (forall l row, lists w !! l = Some row -> lists w' !! l = Some row).
Proof.
  intros Hwith dir target.
  unfold modelica_AHU_boundary. rewrite Hwith. fold dir. fold target.
  pose proof (alloc_rows_spec [[PyInt 0]; [PyInt 3600]] (lists w)) as Hspec.
  destruct (alloc_rows _ _) as [rows h].
  destruct Hspec as (Hlen & Hnd & Hnew & Hold & Hget).
  destruct rows as [|l1 [|l2 [|l3 rows]]]; try discriminate Hlen.
  rewrite !decide_False by (intros Hne; by apply Hne).
  rewrite (loop_ok _ _ _ _ _ _ 2) by (done || apply (enumerate_bound [l1; l2])).
  destruct (enumerate_extend_lookup
              (profile_values [PyFloat f293_15; PyFloat f293_15] [PyInt 0; PyInt 0]
                              [PyInt 1; PyInt 1] [PyInt 0; PyInt 1])
              [l1; l2] h Hnd) as [Hin Hout].
  set (h' := foldl _ h (enumerate [l1; l2])) in *.
  assert (Hrows : read_rows [l1; l2] h' = dummy_boundary).
  { unfold read_rows. cbn [map].
    rewrite (Hin 0%nat l1 eq_refl), (Hin 1%nat l2 eq_refl).
    rewrite (Hget 0%nat l1 eq_refl), (Hget 1%nat l2 eq_refl). reflexivity. }
  rewrite Hrows. cbn [np_array dummy_boundary forallb length].
  rewrite bool_decide_eq_true_2 by reflexivity. cbn [andb].
  eexists. split; [reflexivity|]. cbn [disk lists files].
  split; [by rewrite lookup_insert_eq|]. split.
  - intros p Hp. by rewrite lookup_insert_ne.
  - intros l row Hl.
    assert (Hnotin : l ∉ [l1; l2]).
    { intros Hl'. specialize (Hnew l Hl'). congruence. }
    rewrite (Hout l Hnotin), (Hold l Hnotin). exact Hl.
Qed.

(** C3. Without an air-handling unit [modelica_AHU_boundary] succeeds
    and writes under the name [AHU] the array of 2 rows and 5 columns
    [[0, 293.15, 0, 1, 0], [3600, 293.15, 0, 1, 1]], whatever time line
    is passed; the lists of the caller are left as they were and no
    other file changes. *)
Theorem ahu_dummy self (time_line : option (list loc)) path w :
  with_ahu (parent self) = false ->
  let dir := resolve_path default_path path in
  let target := os_path_join dir (file_ahu self) in
  exists w',
    modelica_AHU_boundary default_path mat4 self time_line path w = (w', Ok tt)
    /\ files (disk w') !! target = Some (mat4 "AHU" dummy_boundary)
    /\ dummy_boundary
       = [[PyInt 0; PyFloat (float_literal 29315 2); PyInt 0; PyInt 1; PyInt 0];
          [PyInt 3600; PyFloat (float_literal 29315 2); PyInt 0; PyInt 1; PyInt 1]]
    /\ length dummy_boundary = 2%nat
    /\ Forall (fun row => length row = 5%nat) dummy_boundary
    /\ (forall p, p <> target -> files (disk w') !! p = files (disk w) !! p)
    /\ (forall l row, lists w !! l = Some row -> lists w' !! l = Some row).
Proof.
  intros Hwith dir target.
  assert (Hrun : exists w',
             modelica_AHU_boundary default_path mat4 self time_line path w = (w', Ok tt)
             /\ files (disk w') !! target = Some (mat4 "AHU" dummy_boundary)
             /\ (forall p, p <> target -> files (disk w') !! p = files (disk w) !! p)
             /\ (forall l row, lists w !! l = Some row -> lists w' !! l = Some row)).
  { destruct time_line as [rows0|].
    - by apply ahu_dummy_some.
    - pose proof (ahu_none self path w) as Hnone.
      destruct (alloc_rows _ _) as [rows h].
      destruct Hnone as (_ & Hkeep & ->).
      destruct (ahu_dummy_some self rows path (World h (disk w)) Hwith)
        as (w' & Hrun & Hfile & Hother & Hlists).
      exists w'. split; [exact Hrun|]. split; [exact Hfile|].
      split; [exact Hother|].
      intros l row Hl. apply Hlists. cbn [lists]. by apply Hkeep. }
  destruct Hrun as (w' & Hrun & Hfile & Hother & Hlists).
  exists w'. split; [exact Hrun|]. split; [exact Hfile|].
  split; [reflexivity|]. split; [reflexivity|].
  split; [by repeat constructor|]. split; [exact Hother | exact Hlists].
Qed.
End AHUFacts.

Lemma ahu_extends_rows_witness :
  let self := init example_building in
  let out1 := modelica_AHU_boundary "default" example_mat4 self (Some example_rows)
                                    (Some "out") example_world in
  let out2 := modelica_AHU_boundary "default" example_mat4 self (Some example_rows)
                                    (Some "out") out1.1 in
  (forall i l row,
      example_rows !! i = Some l -> lists example_world !! l = Some row ->
      lists out1.1 !! l = Some (row ++ ahu_values example_ahu i)
      /\ length (row ++ ahu_values example_ahu i) = (length row + 4)%nat
      /\ lists out2.1 !! l
         = Some ((row ++ ahu_values example_ahu i) ++ ahu_values example_ahu i))
  /\ (forall l, l ∉ example_rows -> lists out1.1 !! l = lists example_world !! l).
Proof.
  apply (ahu_extends_rows "default" example_mat4 (init example_building) example_rows
           (Some "out") example_world); try reflexivity.
  unfold example_rows. repeat (apply NoDup_cons; split); try apply NoDup_nil_2;
    intros H; repeat (apply elem_of_cons in H as [H|H]; [discriminate H|]);
    by apply elem_of_nil in H.
Defined.

(** What the two calls leave in the first row of the example. *)
Lemma ahu_extends_rows_example :
  let self := init example_building in
  let out1 := modelica_AHU_boundary "default" example_mat4 self (Some example_rows)
                                    (Some "out") example_world in
  let out2 := modelica_AHU_boundary "default" example_mat4 self (Some example_rows)
                                    (Some "out") out1.1 in
  lists example_world !! 1%positive = Some [PyInt 0]
  /\ lists out1.1 !! 1%positive
     = Some [PyInt 0; PyFloat f293_15; PyInt 0; PyInt 1; PyInt 0]
  /\ lists out2.1 !! 1%positive
     = Some [PyInt 0; PyFloat f293_15; PyInt 0; PyInt 1; PyInt 0;
             PyFloat f293_15; PyInt 0; PyInt 1; PyInt 0]
  /\ out1.2 = Ok tt /\ out2.2 = Ok tt.
Proof. vm_compute. repeat split. Qed.

Lemma ahu_length_check_witness :
  let run (ahu : BuildingAHU) (time_line : option (list positive)) :=
    (modelica_AHU_boundary "default" example_mat4 (init (building_with_ahu ahu))
                           time_line (Some "out") example_world).2 in
  run (ahu_of_lengths 2 3 3 3) (Some example_rows)
  = Raise (AssertionError
             "time line and input have to have the same length,profile_temperature_AHU")
  /\ run (ahu_of_lengths 3 2 3 3) (Some example_rows)
     = Raise (AssertionError
                "time line and input have to have the same length,profile_min_relative_humidity")
  /\ run (ahu_of_lengths 3 3 2 3) (Some example_rows)
     = Raise (AssertionError
                "time line and input have to have the same length,profile_max_relative_humidity")
  /\ run (ahu_of_lengths 3 3 3 2) (Some example_rows)
     = Raise (AssertionError
                "time line and input have to have the same length,profile_status_AHU")
  /\ (forall msg, run (ahu_of_lengths 3 3 3 3) (Some example_rows)
                  <> Raise (AssertionError msg))
  /\ run (ahu_of_lengths 3 3 3 3) None
     = Raise (AssertionError
                "time line and input have to have the same length,profile_temperature_AHU")
  /\ (forall msg, run (ahu_of_lengths 25 25 25 25) None <> Raise (AssertionError msg)).
Proof.
  intros run.
  pose proof (fun ahu time_line =>
                ahu_length_check "default" example_mat4 (init (building_with_ahu ahu))
                                 time_line (Some "out") example_world eq_refl) as H.
  split; [|split; [|split; [|split; [|split; [|split]]]]].
  - apply (proj1 (H (ahu_of_lengths 2 3 3 3) (Some example_rows))). discriminate.
  - apply (proj1 (proj2 (H (ahu_of_lengths 3 2 3 3) (Some example_rows))));
      [reflexivity | discriminate].
  - apply (proj1 (proj2 (proj2 (H (ahu_of_lengths 3 3 2 3) (Some example_rows)))));
      [reflexivity | reflexivity | discriminate].
  - apply (proj1 (proj2 (proj2 (proj2 (H (ahu_of_lengths 3 3 3 2) (Some example_rows))))));
      [reflexivity | reflexivity | reflexivity | discriminate].
  - apply (proj2 (proj2 (proj2 (proj2 (H (ahu_of_lengths 3 3 3 3) (Some example_rows))))));
      reflexivity.
  - apply (proj1 (H (ahu_of_lengths 3 3 3 3) None)). discriminate.
  - apply (proj2 (proj2 (proj2 (proj2 (H (ahu_of_lengths 25 25 25 25) None)))));
      reflexivity.
Defined.

Lemma ahu_dummy_witness :
  exists w',
    modelica_AHU_boundary "default" example_mat4 (init example_building_no_ahu)
                          (Some example_rows) (Some "out") example_world = (w', Ok tt)
    /\ files (disk w') !! os_path_join (resolve_path "default" (Some "out"))
                                       (file_ahu (init example_building_no_ahu))
       = Some (example_mat4 "AHU" dummy_boundary)
    /\ dummy_boundary
       = [[PyInt 0; PyFloat (float_literal 29315 2); PyInt 0; PyInt 1; PyInt 0];
          [PyInt 3600; PyFloat (float_literal 29315 2); PyInt 0; PyInt 1; PyInt 1]]
    /\ length dummy_boundary = 2%nat
    /\ Forall (fun row => length row = 5%nat) dummy_boundary
    /\ (forall p,
          p <> os_path_join (resolve_path "default" (Some "out"))
                            (file_ahu (init example_building_no_ahu)) ->
          files (disk w') !! p = files (disk example_world) !! p)
    /\ (forall l row, lists example_world !! l = Some row -> lists w' !! l = Some row).
Proof.
  apply (ahu_dummy "default" example_mat4 (init example_building_no_ahu)
           (Some example_rows) (Some "out") example_world).
  reflexivity.
Defined.

(** ** The model-file exporter *)

Section Annex60Facts.
Import Annex60.
Variable Template : Type.
Variable load_template : string -> fs -> result Template.
Variable render_unicode : Template -> Building -> ThermalZone -> result string.
Variable get_full_path : string -> string.
Variable create_path : string -> fs -> fs * result unit.
Variable _help_package :
  option string -> string -> option (list string) -> fs -> fs * result unit.
Variable _help_package_order :
  option string -> list string -> option string -> option string ->
  fs -> fs * result unit.
Variable os_path_join : string -> string -> string.

Local Abbreviation export_zone :=
  (export_zone Template render_unicode get_full_path _help_package
               _help_package_order os_path_join).
Local Abbreviation export_building :=
  (export_building Template render_unicode get_full_path create_path _help_package
                   _help_package_order os_path_join).
Local Abbreviation export_annex60 :=
  (export_annex60 Template load_template render_unicode get_full_path create_path
                  _help_package _help_package_order os_path_join).

Lemma raises_bind_r {X Y : Type} (m : io X) (k : X -> io Y) :
  (forall x, raises (k x)) -> raises (io_bind m k).
Proof.
  intros Hk w. unfold io_bind. destruct (m w) as [w1 [x|e]].
  - apply Hk.
  - by exists w1, e.
Qed.

Lemma raises_bind_l {X Y : Type} (m : io X) (k : X -> io Y) :
  raises m -> raises (io_bind m k).
Proof.
  intros Hm w. unfold io_bind. destruct (Hm w) as (w1 & e & ->). by exists w1, e.
Qed.

(** Without a template the first zone already fails, after its file has
    been opened. *)
Lemma export_zone_unbound bldg bldg_path zone :
  raises (export_zone None bldg bldg_path zone).
Proof.
  unfold Annex60.export_zone. apply raises_bind_r. intros _.
  apply raises_bind_l. intros w. by exists w, (UnboundLocalError "zone_template").
Qed.

Lemma export_building_unbound path bldg :
  thermal_zones bldg <> [] -> raises (export_building None path bldg).
Proof.
  intros Hz. unfold Annex60.export_building.
  do 5 (apply raises_bind_r; intros ?).
  destruct (thermal_zones bldg) as [|zone zones]; [done|].
  cbn [io_for_each]. apply raises_bind_l, export_zone_unbound.
Qed.

Lemma export_buildings_unbound path (bldgs : list Building) :
  Exists (fun bldg => thermal_zones bldg <> []) bldgs ->
  raises (io_for_each (export_building None path) bldgs).
Proof.
  induction bldgs as [|bldg bldgs IH]; intros Hex.
  - by apply Exists_nil in Hex.
  - cbn [io_for_each].
    destruct (decide (thermal_zones bldg = [])) as [Hnil|Hz].
    + apply raises_bind_r. intros _. apply IH.
      apply Exists_cons in Hex as [Hex|Hex]; [done | exact Hex].
    + by apply raises_bind_l, export_building_unbound.
Qed.

Lemma select_template_unsupported (number_of_elements : Z) (w : world) :
  number_of_elements <> 2 ->
  select_template Template load_template get_full_path number_of_elements w
  = (w, Ok None).
Proof.
  intros Hn. unfold select_template.
  destruct (number_of_elements =? 1); [reflexivity|].
  destruct (number_of_elements =? 2) eqn:E2; [lia|].
  destruct (number_of_elements =? 3); [reflexivity|].
  destruct (number_of_elements =? 4); reflexivity.
Qed.

(** For every number of elements other than 2, as soon as one exported
    building has a zone the export ends with an exception, whatever the
    helpers do. *)
Lemma export_annex60_unsupported prj (number_of_elements merge_windows : Z)
    (internal_id_ : option Z) (path : option string) :
  number_of_elements <> 2 ->
  Exists (fun bldg => thermal_zones bldg <> [])
         (match internal_id_ with
          | Some id => filter (fun bldg => internal_id bldg = id) (buildings prj)
          | None => buildings prj
          end) ->
  raises (export_annex60 prj number_of_elements merge_windows internal_id_ path).
Proof.
  intros Hn Hex. unfold Annex60.export_annex60.
  do 2 (apply raises_bind_r; intros ?).
  intros w. unfold io_bind at 1.
  rewrite select_template_unsupported by done.
  by apply raises_bind_l, export_buildings_unbound.
Qed.
End Annex60Facts.

(** C2, at the failing input: a project with one building of one zone,
    exported with [number_of_elements = 1] into the directory [out], with
    helpers that succeed.  The export creates the empty model file of the
    zone and then raises [UnboundLocalError] for [zone_template]; the
    closing messages are not printed. *)
Lemma export_annex60_one_element :
  (example_export 1).2 = Raise (UnboundLocalError "zone_template")
  /\ files (Annex60.disk (example_export 1).1) !! "out\B\B_Models\B_LivingRoom.mo"
     = Some EmptyString
  /\ Annex60.stdout (example_export 1).1 = [].
Proof. vm_compute. repeat split. Qed.

(** The same holds for 3 and 4, while 2 renders the template into the
    file and completes. *)
Lemma export_annex60_other_elements :
  (example_export 3).2 = Raise (UnboundLocalError "zone_template")
  /\ (example_export 4).2 = Raise (UnboundLocalError "zone_template")
  /\ (example_export 2).2 = Ok tt
  /\ files (Annex60.disk (example_export 2).1) !! "out\B\B_Models\B_LivingRoom.mo"
     = Some "model"
  /\ Annex60.stdout (example_export 2).1 = ["Exports can be found here:"; "out"].
Proof. vm_compute. repeat split. Qed.

(** X3. For every number of elements other than 2 and every project in
    which an exported building has a thermal zone, [export_annex60] ends
    with an exception, whatever the template engine and the package
    helpers do. *)
Theorem export_annex60_needs_two_elements
    (Template : Type)
    (load_template : string -> fs -> result Template)
    (render_unicode : Template -> Annex60.Building -> Annex60.ThermalZone -> result string)
    (get_full_path : string -> string)
    (create_path : string -> fs -> fs * result unit)
    (_help_package :
       option string -> string -> option (list string) -> fs -> fs * result unit)
    (_help_package_order :
       option string -> list string -> option string -> option string ->
       fs -> fs * result unit)
    (os_path_join : string -> string -> string)
    (prj : Annex60.Project) (number_of_elements merge_windows : Z)
    (path : option string) (w : Annex60.world) :
  number_of_elements <> 2 ->
  Exists (fun bldg => Annex60.thermal_zones bldg <> []) (Annex60.buildings prj) ->
  exists w' e,
    Annex60.export_annex60 Template load_template render_unicode get_full_path
      create_path _help_package _help_package_order os_path_join
      prj number_of_elements merge_windows None path w
    = (w', Raise e).
Proof.
  intros Hn Hex.
  apply (export_annex60_unsupported Template load_template render_unicode get_full_path
           create_path _help_package _help_package_order os_path_join
           prj number_of_elements merge_windows None path Hn Hex w).
Qed.

Lemma export_annex60_needs_two_elements_witness :
  exists w' e, example_export 3 = (w', Raise e).
Proof.
  apply (export_annex60_needs_two_elements
           string (fun _ _ => Ok "model") (fun template _ _ => Ok template)
           (fun p => p) (fun p d => (create_path p d, Ok tt))
           (fun _ _ _ d => (d, Ok tt)) (fun _ _ _ _ d => (d, Ok tt))
           (fun a b => a +:+ "\" +:+ b)
           example_project 3 2 (Some "out") (Annex60.World empty_fs [])).
  - discriminate.
  - left. discriminate.
Defined.

(** ** More on the time-grid builder *)

Lemma create_profile_raise (duration_profile time_step : Z) (double : bool) (e : exn) :
  true_div duration_profile time_step = Raise e ->
  create_profile duration_profile time_step double = Raise e.
Proof. intros H. unfold create_profile. rewrite H. reflexivity. Qed.

(** X4. For every duration and step, [double=True] fails exactly when
    [double=False] fails, with the same exception, and otherwise returns
    the grid of [double=False] with every point twice in a row. *)
Theorem create_profile_double (duration_profile time_step : Z) :
  create_profile duration_profile time_step true
  = match create_profile duration_profile time_step false with
    | Ok time_line => Ok (doubled time_line)
    | Raise e => Raise e
    end.
Proof.
  destruct (true_div duration_profile time_step) as [x|e] eqn:Hx.
  - rewrite !(create_profile_unfold _ _ _ _ Hx). by destruct (is_integer x).
  - by rewrite !(create_profile_raise _ _ _ _ Hx).
Qed.

(** X5. Whenever [create_profile] returns a grid, point [i] of the grid
    is the one-element list [[i * time_step]], and the number of points
    is the float quotient [duration_profile / time_step], which is then
    an integer, plus one (none when that is not positive). *)
Theorem create_profile_equidistant (duration_profile time_step : Z)
    (time_line : list (list Z)) :
  create_profile duration_profile time_step false = Ok time_line ->
  (forall (i : nat) (row : list Z),
      time_line !! i = Some row -> row = [Z.of_nat i * time_step])
  /\ exists x, true_div duration_profile time_step = Ok x
               /\ is_integer x = true
               /\ Z.of_nat (length time_line) = Z.max 0 (int_of_float x + 1).
Proof.
  intros Hrun.
  destruct (true_div duration_profile time_step) as [x|e] eqn:Hx.
  2:{ rewrite (create_profile_raise _ _ _ _ Hx) in Hrun. discriminate Hrun. }
  rewrite (create_profile_unfold _ _ _ _ Hx) in Hrun.
  destruct (is_integer x) eqn:Hint; [|discriminate Hrun].
  injection Hrun as <-. split.
  - intros i row Hrow. unfold time_points, range in Hrow.
    rewrite list_lookup_fmap in Hrow.
    destruct (seqZ 0 (int_of_float x + 1) !! i) as [j|] eqn:Hj; [|discriminate Hrow].
    apply lookup_seqZ in Hj as [-> _]. cbn in Hrow. injection Hrow as <-.
    do 2 f_equal.
  - exists x. split; [reflexivity|]. split; [exact Hint|].
    unfold time_points, range. rewrite length_map, length_seqZ. lia.
Qed.

Lemma create_profile_equidistant_witness :
  (forall (i : nat) (row : list Z),
      time_points 3600 24 !! i = Some row -> row = [Z.of_nat i * 3600])
  /\ exists x, true_div 86400 3600 = Ok x
               /\ is_integer x = true
               /\ Z.of_nat (length (time_points 3600 24)) = Z.max 0 (int_of_float x + 1).
Proof.
  apply (create_profile_equidistant 86400 3600 (time_points 3600 24)).
  vm_compute. reflexivity.
Defined.

Lemma true_div_raise (a b : Z) (e : exn) :
  true_div a b = Raise e ->
  (e = ZeroDivisionError /\ b = 0) \/ (e = OverflowError /\ b <> 0).
Proof.
  unfold true_div. destruct (b =? 0) eqn:Eb.
  - intros [= <-]. left. split; [reflexivity | lia].
  - destruct (a =? 0); [discriminate|]. cbv zeta.
    destruct (_ || _); [|discriminate].
    intros [= <-]. right. split; [reflexivity | lia].
Qed.

(** X6. [create_profile] fails in three ways only: with
    [ZeroDivisionError], with [OverflowError] or with the assertion
    error and its message; and it raises [ZeroDivisionError] exactly when
    the step is zero, whatever the duration and the mode. *)
Theorem create_profile_errors (duration_profile time_step : Z) (double : bool) :
  (create_profile duration_profile time_step double = Raise ZeroDivisionError
   <-> time_step = 0)
  /\ (forall e,
        create_profile duration_profile time_step double = Raise e ->
        e = ZeroDivisionError \/ e = OverflowError
        \/ e = AssertionError "duration must be a multiple of time_step").
Proof.
  destruct (true_div duration_profile time_step) as [x|e0] eqn:Hx.
  - rewrite (create_profile_unfold _ _ _ _ Hx). split.
    + split.
      * destruct (is_integer x); discriminate.
      * intros ->. discriminate Hx.
    + intros e. destruct (is_integer x); [discriminate|].
      intros [= <-]. right; right. reflexivity.
  - rewrite (create_profile_raise _ _ _ _ Hx).
    destruct (true_div_raise _ _ _ Hx) as [[-> Ht]|[-> Ht]].
    + split; [by split|]. intros e [= <-]. by left.
    + split; [split; [discriminate | done]|]. intros e [= <-]. right; by left.
Qed.

(** X7. A duration that is a negative multiple of the step (down to
    [-2^53] steps) is accepted: the assertion passes and the grid that is
    returned is empty, in both modes. *)
Theorem create_profile_negative (duration_profile time_step q : Z) (double : bool) :
  time_step <> 0 -> - 2 ^ 53 <= q < 0 -> duration_profile = q * time_step ->
  create_profile duration_profile time_step double = Ok [].
Proof.
  intros Ht Hq ->.
  destruct (true_div_exact q time_step Ht ltac:(lia)) as (x & Hx & Hint & Hval).
  rewrite (create_profile_unfold _ _ _ _ Hx), Hint, Hval.
  unfold time_points, range. rewrite seqZ_nil by lia. by destruct double.
Qed.

Lemma create_profile_negative_witness :
  create_profile (-86400) 3600 true = Ok [].
Proof.
  apply (create_profile_negative (-86400) 3600 (-24) true).
  - lia.
  - split; [vm_compute; discriminate | lia].
  - reflexivity.
Defined.

(** X8. When the duration is at least [2^1024] steps long in magnitude,
    the quotient is not a finite float and [create_profile] raises
    [OverflowError], in both modes. *)
Theorem create_profile_overflow (duration_profile time_step : Z) (double : bool) :
  time_step <> 0 -> 2 ^ 1024 * Z.abs time_step <= Z.abs duration_profile ->
  create_profile duration_profile time_step double = Raise OverflowError.
Proof.
  intros Ht Hbig. apply create_profile_raise. unfold true_div.
  destruct (time_step =? 0) eqn:Et; [lia|].
  assert (Hp : 0 < 2 ^ 1024) by (apply pow2_pos; lia).
  destruct (duration_profile =? 0) eqn:Ed; [nia|].
  set (a := Z.abs duration_profile) in *. set (b := Z.abs time_step) in *.
  assert (Ha : 0 < a) by (unfold a; lia).
  assert (Hb : 0 < b) by (unfold b; lia).
  assert (Hfl : 1024 <= floor_log2_quot a b).
  { destruct (floor_log2_quot_spec a b Ha Hb) as [_ Hhi].
    set (x := floor_log2_quot a b) in *.
    destruct (Z_lt_le_dec x 1024) as [Hlt|]; [exfalso|lia].
    destruct (Z_lt_le_dec x 0) as [Hneg|Hpos].
    - rewrite (Z.max_l 0 x), (Z.max_r 0 (- x)) in Hhi by lia.
      assert (1 <= 2 ^ (- x)) by (pose proof (pow2_pos (- x)); lia).
      change (2 ^ 0) with 1 in Hhi.
      assert (2 * b <= 2 ^ 1024 * b) by nia.
      nia.
    - rewrite (Z.max_r 0 x), (Z.max_l 0 (- x)) in Hhi by lia.
      change (2 ^ 0) with 1 in Hhi.
      assert (2 * 2 ^ x <= 2 ^ 1024).
      { replace (2 * 2 ^ x) with (2 ^ (x + 1)) by (rewrite Z.pow_add_r; lia).
        apply Z.pow_le_mono_r; lia. }
      nia. }
  cbv zeta.
  assert (He : (971 <? quot_expo a b) = true).
  { apply Z.ltb_lt. unfold quot_expo. lia. }
  rewrite He. reflexivity.
Qed.

Lemma create_profile_overflow_witness :
  create_profile (2 ^ 1024) 1 false = Raise OverflowError.
Proof.
  apply (create_profile_overflow (2 ^ 1024) 1 false).
  - lia.
  - vm_compute. discriminate.
Defined.

(** ** More on the surface-area aggregator *)

Section SurfaceAreaMore.
Context {A V : Type}.
Variable add : A -> A -> A.
Variable zero : A.

Lemma foldl_add_zone_surface_known (zones : list (ThermalZone A V)) (acc : A) :
  foldl (add_zone_surface add) acc
        (filter (fun zone => known_attr (model_attr zone)) zones)
  = foldl (add_zone_surface add) acc zones.
Proof.
  revert acc. induction zones as [|zone zones IH]; intros acc; [reflexivity|].
  destruct (known_attr (model_attr zone)) eqn:Hk.
  - rewrite filter_cons_True by (by rewrite Hk). cbn [foldl]. apply IH.
  - rewrite filter_cons_False by (rewrite Hk; exact id). cbn [foldl]. rewrite IH.
    f_equal. unfold add_zone_surface.
    destruct (model_attr zone); try discriminate Hk. reflexivity.
Qed.

(** X9. A zone whose [model_attr] is none of the four element types
    (a zone that has not been calculated, for instance) is passed over
    without an error: the total is the one of the building without
    these zones, and it is the initial zero when every zone is such. *)
Theorem calc_surface_area_skips_unknown (self self' : AixLib A V) :
  thermal_zones (parent self')
  = filter (fun zone => known_attr (model_attr zone)) (thermal_zones (parent self)) ->
  total_surface_area (_calc_surface_area add zero self)
  = total_surface_area (_calc_surface_area add zero self')
  /\ (thermal_zones (parent self') = [] ->
      total_surface_area (_calc_surface_area add zero self) = Some zero).
Proof.
  intros Hz. cbn [_calc_surface_area total_surface_area].
  rewrite Hz, foldl_add_zone_surface_known. split; [reflexivity|].
  intros Hnil. rewrite <- (foldl_add_zone_surface_known (thermal_zones (parent self))).
  rewrite Hnil. reflexivity.
Qed.

(** Areas add up exactly. *)
Hypothesis add_assoc : forall a b c, add a (add b c) = add (add a b) c.
Hypothesis add_comm : forall a b, add a b = add b a.
Hypothesis add_zero_l : forall a, add zero a = a.

Lemma total_area_spec_app (zones1 zones2 : list (ThermalZone A V)) :
  total_area_spec add zero (zones1 ++ zones2)
  = add (total_area_spec add zero zones1) (total_area_spec add zero zones2).
Proof.
  induction zones1 as [|zone zones1 IH]; cbn [app total_area_spec foldr].
  - by rewrite add_zero_l.
  - fold (total_area_spec add zero (zones1 ++ zones2)).
    fold (total_area_spec add zero zones1).
    by rewrite IH, add_assoc.
Qed.

Lemma total_area_spec_perm (zones zones' : list (ThermalZone A V)) :
  zones ≡ₚ zones' -> total_area_spec add zero zones = total_area_spec add zero zones'.
Proof.
  induction 1 as [|zone l l' _ IH|z1 z2 l|l1 l2 l3 _ IH1 _ IH2].
  - reflexivity.
  - cbn [total_area_spec foldr]. f_equal. exact IH.
  - cbn [total_area_spec foldr]. rewrite !add_assoc. f_equal. apply add_comm.
  - congruence.
Qed.

(** X10. With areas that add up exactly (an associative and commutative
    sum with the initial value as its zero), the total does not depend
    on the order of the zones and is additive: when the zones of a
    building are those of two others together, in any order, its total
    is the sum of their totals. *)
Theorem calc_surface_area_additive (self self1 self2 : AixLib A V) :
  thermal_zones (parent self)
    ≡ₚ thermal_zones (parent self1) ++ thermal_zones (parent self2) ->
  exists t1 t2,
    total_surface_area (_calc_surface_area add zero self1) = Some t1
    /\ total_surface_area (_calc_surface_area add zero self2) = Some t2
    /\ total_surface_area (_calc_surface_area add zero self) = Some (add t1 t2).
Proof.
  intros Hperm. cbn [_calc_surface_area total_surface_area].
  eexists _, _. split; [reflexivity|]. split; [reflexivity|]. f_equal.
  rewrite !(foldl_add_zone_surface add zero add_assoc add_comm add_zero_l).
  rewrite !add_zero_l.
  rewrite (total_area_spec_perm _ _ Hperm). apply total_area_spec_app.
Qed.
End SurfaceAreaMore.

Lemma calc_surface_area_skips_unknown_witness :
  total_surface_area (_calc_surface_area Z.add 0 (init example_building_uncalculated))
  = total_surface_area (_calc_surface_area Z.add 0 (init example_building))
  /\ (thermal_zones (parent (init example_building)) = [] ->
      total_surface_area (_calc_surface_area Z.add 0 (init example_building_uncalculated))
      = Some 0).
Proof.
  apply (calc_surface_area_skips_unknown Z.add 0 (init example_building_uncalculated)
           (init example_building)).
  reflexivity.
Defined.

Lemma calc_surface_area_additive_witness :
  exists t1 t2,
    total_surface_area (_calc_surface_area Z.add 0 (init example_building)) = Some t1
    /\ total_surface_area (_calc_surface_area Z.add 0 (init example_building_no_ahu))
       = Some t2
    /\ total_surface_area
         (_calc_surface_area Z.add 0
            (init {| bldg_name := "B4";
                     thermal_zones := rev example_zones ++ example_zones;
                     with_ahu := false;
                     central_ahu := example_ahu |}))
       = Some (t1 + t2).
Proof.
  apply (calc_surface_area_additive Z.add 0 Z.add_assoc Z.add_comm Z.add_0_l
           (init {| bldg_name := "B4";
                    thermal_zones := rev example_zones ++ example_zones;
                    with_ahu := false;
                    central_ahu := example_ahu |})
           (init example_building) (init example_building_no_ahu)).
  cbn [parent init thermal_zones example_building example_building_no_ahu].
  apply Permutation_app; [symmetry; apply Permutation_rev | reflexivity].
Defined.

(** ** More on the file names and the text exporters *)

Lemma length_append (a b : string) :
  String.length (a +:+ b) = (String.length a + String.length b)%nat.
Proof.
  induction a as [|x a IH]; [reflexivity|].
  rewrite append_cons. cbn [String.length]. by rewrite IH.
Qed.

Lemma append_inj_suffix (a b suffix : string) : a +:+ suffix = b +:+ suffix -> a = b.
Proof.
  revert b. induction a as [|x a IH]; intros [|y b] H.
  - reflexivity.
  - apply (f_equal String.length) in H.
    rewrite append_nil_l, append_cons in H. cbn [String.length] in H.
    rewrite length_append in H. lia.
  - apply (f_equal String.length) in H.
    rewrite append_nil_l, append_cons in H. cbn [String.length] in H.
    rewrite length_append in H. lia.
  - rewrite !append_cons in H. injection H as -> H. f_equal. by apply IH.
Qed.

Lemma append_inj_prefix (prefix a b : string) : prefix +:+ a = prefix +:+ b -> a = b.
Proof.
  induction prefix as [|c prefix IH]; [done|].
  rewrite !append_cons. intros [= H]. by apply IH.
Qed.

(** Joining a directory and a relative name puts the same prefix before
    every name. *)
Lemma os_path_join_relative (dir : string) :
  exists prefix, forall (c : ascii) (name : string),
    c <> "/"%char -> os_path_join dir (String c name) = prefix +:+ String c name.
Proof.
  exists (match dir with
          | EmptyString => EmptyString
          | _ => if String.eqb (String.substring (String.length dir - 1) 1 dir) "/"
                 then dir else dir +:+ "/"
          end).
  intros c name Hc. unfold os_path_join.
  destruct c as [[] [] [] [] [] [] [] []];
    try (exfalso; apply Hc; reflexivity);
    (destruct dir as [|d dir]; [reflexivity|];
     destruct (String.eqb _ _); [reflexivity|]; by rewrite append_assoc).
Qed.

Lemma os_path_join_inj (dir : string) (c1 c2 : ascii) (name1 name2 : string) :
  c1 <> "/"%char -> c2 <> "/"%char ->
  os_path_join dir (String c1 name1) = os_path_join dir (String c2 name2) ->
  String c1 name1 = String c2 name2.
Proof.
  intros H1 H2. destruct (os_path_join_relative dir) as [prefix Hjoin].
  rewrite !Hjoin by done. apply append_inj_prefix.
Qed.

(** The files of two buildings, or two of the four files of one. *)
Lemma output_files_clash {A V : Type} (b1 b2 : Building A V) (i j : nat) (f : string) :
  output_files (init b1) !! i = Some f -> output_files (init b2) !! j = Some f ->
  i = j /\ bldg_name b1 = bldg_name b2.
Proof.
  intros Hi Hj. unfold output_files, init in Hi, Hj.
  cbn [file_set_t_heat file_set_t_cool file_ahu file_internal_gains] in Hi, Hj.
  destruct i as [|[|[|[|i]]]]; try discriminate Hi;
    destruct j as [|[|[|[|j]]]]; try discriminate Hj;
    cbn [lookup list_lookup] in Hi, Hj;
    rewrite <- Hi in Hj; clear Hi; apply (inj Some) in Hj;
    first
      [ split; [reflexivity|];
        apply append_inj_prefix in Hj; apply append_inj_suffix in Hj; congruence
      | exfalso; rewrite !append_cons in Hj; discriminate Hj ].
Qed.

(** X11. The four file names that [__init__] derives from the name of the
    building are pairwise different, and two buildings with different
    names have no file name in common. *)
Theorem init_output_files {A V : Type} (b1 b2 : Building A V) :
  NoDup (output_files (init b1))
  /\ (bldg_name b1 <> bldg_name b2 ->
      forall f, f ∈ output_files (init b1) -> f ∉ output_files (init b2)).
Proof.
  split.
  - apply NoDup_alt. intros i j f Hi Hj.
    by destruct (output_files_clash b1 b1 i j f Hi Hj).
  - intros Hne f [i Hi]%list_elem_of_lookup_1 [j Hj]%list_elem_of_lookup_1.
    by destruct (output_files_clash b1 b2 i j f Hi Hj).
Qed.

Lemma init_output_files_witness :
  NoDup (output_files (init example_building))
  /\ (bldg_name example_building <> bldg_name example_building_no_ahu ->
      forall f, f ∈ output_files (init example_building) ->
                f ∉ output_files (init example_building_no_ahu)).
Proof. apply (init_output_files example_building example_building_no_ahu). Defined.

Lemma gains_fit_dec {A V : Type} (n : nat) (zone : ThermalZone A V) :
  gains_fit n zone \/ ~ gains_fit n zone.
Proof.
  unfold gains_fit.
  destruct (decide (length (persons_profile (use_conditions zone)) = n));
    destruct (decide (length (machines_profile (use_conditions zone)) = n));
    destruct (decide (length (lighting_profile (use_conditions zone)) = n));
    tauto.
Qed.







Section TextExportMore.
Context {A V : Type}.
Variable default_path : string.
Variable fmt : V -> string.
Implicit Types (zones : list (ThermalZone A V)) (self : AixLib A V)
  (df : DataFrame V).

(** *** Profiles of another length *)

Lemma add_gains_raise df (zone : ThermalZone A V) :
  ~ gains_fit (length (df_index df)) zone ->
  add_gains df zone
  = Raise (ValueError "Length of values does not match length of index").
Proof.
  intros Hfit. unfold add_gains.
  destruct (decide (length (persons_profile (use_conditions zone))
                    = length (df_index df))) as [Hp|Hp].
  2:{ by rewrite df_setitem_raise. }
  destruct (df_setitem_ok ("person_" +:+ zone_name zone) _ df Hp) as (df1 & -> & H1).
  cbn [mbind result_bind].
  destruct (decide (length (machines_profile (use_conditions zone))
                    = length (df_index df))) as [Hm|Hm].
  2:{ by rewrite df_setitem_raise by congruence. }
  destruct (df_setitem_ok ("machines_" +:+ zone_name zone)
              (machines_profile (use_conditions zone)) df1 ltac:(congruence))
    as (df2 & -> & H2).
  cbn [mbind result_bind].
  apply df_setitem_raise. intros Hl. apply Hfit. repeat split; congruence.
Qed.

Lemma gains_raise df zones :
  Exists (fun zone => ~ gains_fit (length (df_index df)) zone) zones ->
  for_each add_gains df zones
  = Raise (ValueError "Length of values does not match length of index").
Proof.
  revert df. induction zones as [|zone zones IH]; intros df Hex.
  - by apply Exists_nil in Hex.
  - cbn [for_each].
    destruct (gains_fit_dec (length (df_index df)) zone) as [(Hp & Hm & Hl)|Hfit].
    + destruct (add_gains_ok df zone Hp Hm Hl) as (df1 & -> & Hidx).
      apply IH. rewrite Hidx.
      apply Exists_cons in Hex as [Hex|Hex]; [|exact Hex].
      exfalso. by apply Hex.
    + by rewrite add_gains_raise.
Qed.

(** X12. A cooling profile, or a persons, machines or lighting profile,
    whose length is not 8760 makes the cooling exporter, respectively
    the internal-gains exporter, fail with a [ValueError] of pandas; the
    failure comes before the file is opened, so that no file is created
    or changed. *)
Theorem exporters_reject_other_lengths self time_line path w :
  let zones := thermal_zones (parent self) in
  (Exists (fun zone => length (cooling_profile (use_conditions zone)) <> Z.to_nat 8760)
          zones ->
   exists w' msg,
     modelica_set_temp_cool default_path fmt self path w = (w', Raise (ValueError msg))
     /\ files w' = files w)
  /\ (Exists (fun zone => ~ gains_fit (Z.to_nat 8760) zone) zones ->
      exists w' msg,
        modelica_gains_boundary default_path fmt self time_line path w
        = (w', Raise (ValueError msg))
        /\ files w' = files w).
Proof.
  intros zones. split; intros Hex.
  - unfold modelica_set_temp_cool. fold zones.
    rewrite (set_columns_raise (fun zone => cooling_profile (use_conditions zone)));
      [|cbn [new_frame df_index]; by rewrite length_date_range].
    eexists _, _. split; reflexivity.
  - unfold modelica_gains_boundary. fold zones.
    rewrite gains_raise; [|cbn [new_frame df_index]; by rewrite length_date_range].
    eexists _, _. split; reflexivity.
Qed.

(** *** The three exporters one after the other *)

Lemma text_targets_distinct (bldg : Building A V) (dir : string) :
  let self := init bldg in
  os_path_join dir (file_set_t_heat self) <> os_path_join dir (file_set_t_cool self)
  /\ os_path_join dir (file_set_t_heat self)
     <> os_path_join dir (file_internal_gains self)
  /\ os_path_join dir (file_set_t_cool self)
     <> os_path_join dir (file_internal_gains self).
Proof.
  cbn [init file_set_t_heat file_set_t_cool file_internal_gains].
  repeat split; intros H; rewrite !append_cons in H;
    apply os_path_join_inj in H; discriminate.
Qed.

(** X13. For a building with unique zone names and profiles of length
    8760, the heating, the cooling and the internal-gains exporter run
    one after the other into one directory all succeed, their three
    files are different, each file ends with its own matrix after what
    it held before, and no other file changes: none of the exporters
    touches the file of another. *)
Theorem text_exports_compose (bldg : Building A V) path w :
  let self := init bldg in
  let zones := thermal_zones bldg in
  let dir := resolve_path default_path path in
  let heat := os_path_join dir (file_set_t_heat self) in
  let cool := os_path_join dir (file_set_t_cool self) in
  let gains := os_path_join dir (file_internal_gains self) in
  NoDup (map zone_name zones) ->
  Forall (fun zone => length (heating_profile (use_conditions zone)) = Z.to_nat 8760)
         zones ->
  Forall (fun zone => length (cooling_profile (use_conditions zone)) = Z.to_nat 8760)
         zones ->
  Forall (gains_fit (Z.to_nat 8760)) zones ->
  let out1 := modelica_set_temp default_path fmt self path w in
  let out2 := modelica_set_temp_cool default_path fmt self path out1.1 in
  let out3 := modelica_gains_boundary default_path fmt self None path out2.1 in
  out1.2 = Ok tt /\ out2.2 = Ok tt /\ out3.2 = Ok tt
  /\ NoDup [heat; cool; gains]
  /\ files out3.1 !! heat
     = Some (default EmptyString (files w !! heat)
               +:+ matrix_text fmt "Tset"
                     (map (fun zone => heating_profile (use_conditions zone)) zones))
  /\ files out3.1 !! cool
     = Some (default EmptyString (files w !! cool)
               +:+ matrix_text fmt "Tset"
                     (map (fun zone => cooling_profile (use_conditions zone)) zones))
  /\ files out3.1 !! gains
     = Some (default EmptyString (files w !! gains)
               +:+ matrix_text fmt "Internals" (gains_columns zones))
  /\ (forall p, p ∉ [heat; cool; gains] -> files out3.1 !! p = files w !! p).
Proof.
  intros self zones dir heat cool gains Hnd Hheat Hcool Hgains out1 out2 out3.
  destruct (text_targets_distinct bldg dir) as (Hhc & Hhg & Hcg).
  fold self heat cool gains in Hhc, Hhg, Hcg.
  destruct (modelica_set_temp_heat_file default_path fmt self path w Hnd Hheat)
    as (w1 & Hrun1 & Hfile1 & Hother1).
  fold dir heat in Hfile1, Hother1.
  assert (Hout1 : out1 = (w1, Ok tt)) by exact Hrun1.
  destruct (modelica_set_temp_cool_file default_path fmt self path w1 Hnd Hcool)
    as (w2 & Hrun2 & Hfile2 & Hother2).
  fold dir cool in Hfile2, Hother2.
  assert (Hout2 : out2 = (w2, Ok tt)) by (unfold out2; rewrite Hout1; exact Hrun2).
  destruct (modelica_gains_boundary_file default_path fmt self None path w2 Hnd Hgains)
    as (w3 & Hrun3 & Hfile3 & Hother3).
  fold dir gains in Hfile3, Hother3.
  assert (Hout3 : out3 = (w3, Ok tt)) by (unfold out3; rewrite Hout2; exact Hrun3).
  rewrite Hout1, Hout2, Hout3. cbn [fst snd].
  split; [reflexivity|]. split; [reflexivity|]. split; [reflexivity|].
  split.
  { apply NoDup_cons. split.
    - intros [H|H]%elem_of_cons; [done|]. by apply list_elem_of_singleton in H.
    - apply NoDup_cons. split; [|apply NoDup_singleton].
      intros H. by apply list_elem_of_singleton in H. }
  split; [|split; [|split]].
  - rewrite Hother3, Hother2 by done. exact Hfile1.
  - rewrite Hother3 by done. rewrite Hfile2, Hother1 by done. reflexivity.
  - rewrite Hfile3, Hother2, Hother1 by done. reflexivity.
  - intros p Hp. apply not_elem_of_cons in Hp as [Hp1 Hp].
    apply not_elem_of_cons in Hp as [Hp2 Hp].
    apply not_elem_of_cons in Hp as [Hp3 _].
    by rewrite Hother3, Hother2, Hother1.
Qed.

(** *** Zones that share a name *)






End TextExportMore.

Lemma exporters_reject_other_lengths_witness :
  (exists w' msg,
      modelica_set_temp_cool "default" str_of_Z (init example_building_misfit)
                             (Some "out") empty_fs
      = (w', Raise (ValueError msg))
      /\ files w' = files empty_fs)
  /\ (exists w' msg,
         modelica_gains_boundary "default" str_of_Z (init example_building_misfit)
                                 None (Some "out") empty_fs
         = (w', Raise (ValueError msg))
         /\ files w' = files empty_fs).
Proof.
  destruct (exporters_reject_other_lengths "default" str_of_Z
              (init example_building_misfit) None (Some "out") empty_fs)
    as [Hcool Hgains].
  split.
  - apply Hcool. left. cbn. rewrite !length_replicate. lia.
  - apply Hgains. left. intros (_ & _ & Hl). cbn in Hl.
    rewrite !length_replicate in Hl. lia.
Defined.

Lemma text_exports_compose_witness :
  let self := init example_building in
  let out1 := modelica_set_temp "default" str_of_Z self (Some "out") used_fs in
  let out2 := modelica_set_temp_cool "default" str_of_Z self (Some "out") out1.1 in
  let out3 := modelica_gains_boundary "default" str_of_Z self None (Some "out") out2.1 in
  out1.2 = Ok tt /\ out2.2 = Ok tt /\ out3.2 = Ok tt
  /\ NoDup ["out/TsetHeat_B1.txt"; "out/TsetCool_B1.txt"; "out/InternalGains_B1.txt"]
  /\ files out3.1 !! "out/TsetHeat_B1.txt"
     = Some (default EmptyString (files used_fs !! "out/TsetHeat_B1.txt")
               +:+ matrix_text str_of_Z "Tset"
                     (map (fun zone : ThermalZone Z Z =>
                             heating_profile (use_conditions zone)) example_zones))
  /\ files out3.1 !! "out/TsetCool_B1.txt"
     = Some (default EmptyString (files used_fs !! "out/TsetCool_B1.txt")
               +:+ matrix_text str_of_Z "Tset"
                     (map (fun zone : ThermalZone Z Z =>
                             cooling_profile (use_conditions zone)) example_zones))
  /\ files out3.1 !! "out/InternalGains_B1.txt"
     = Some (default EmptyString (files used_fs !! "out/InternalGains_B1.txt")
               +:+ matrix_text str_of_Z "Internals" (gains_columns example_zones))
  /\ (forall p,
        p ∉ ["out/TsetHeat_B1.txt"; "out/TsetCool_B1.txt"; "out/InternalGains_B1.txt"] ->
        files out3.1 !! p = files used_fs !! p).
Proof.
  apply (text_exports_compose "default" str_of_Z example_building (Some "out") used_fs).
  - exact example_zones_names.
  - repeat constructor.
  - repeat constructor.
  - repeat constructor.
Defined.


(** In the example with two zones of one name the header declares 7
    columns and a row has 4 cells. *)
Lemma shared_names_example :
  length (remove_dups (map zone_name (thermal_zones example_building_twins))) = 1%nat
  /\ str_of_Z (Z.of_nat (length (thermal_zones example_building_twins)) * 3 + 1) = "7".
Proof. split; reflexivity. Qed.

(** ** More on the AHU exporter *)

Lemma np_array_uniform (rows : list (list pynum)) (width : nat) :
  Forall (fun row => length row = width) rows -> np_array rows = Ok rows.
Proof.
  intros Hall. destruct rows as [|r rs]; [reflexivity|].
  apply Forall_cons in Hall as [Hr Hrs]. cbn [np_array].
  assert (Hsame : forallb (fun r' => bool_decide (length r' = length r)) rs = true).
  { induction Hrs as [|r' rs' Hr' _ IH]; [reflexivity|].
    cbn [forallb]. rewrite bool_decide_eq_true_2 by congruence. exact IH. }
  by rewrite Hsame.
Qed.

(** The rows of a time line of distinct list objects after the loop. *)
Lemma read_rows_extended (values : nat -> list pynum) (rows : list positive)
    (contents : list (list pynum)) (h : gmap positive (list pynum)) :
  NoDup rows ->
  Forall2 (fun l row => h !! l = Some row) rows contents ->
  read_rows rows (foldl (extend values) h (enumerate rows))
  = imap (fun i row => row ++ values i) contents.
Proof.
  intros Hnd Hrows.
  destruct (enumerate_extend_lookup values rows h Hnd) as [Hin _].
  apply list_eq. intros i. unfold read_rows.
  rewrite list_lookup_fmap, list_lookup_imap.
  destruct (rows !! i) as [l|] eqn:Hl.
  - destruct (Forall2_lookup_l _ _ _ _ _ Hrows Hl) as (row & Hrow & Hh).
    rewrite Hrow. cbn. by rewrite (Hin i l Hl), Hh.
  - apply lookup_ge_None in Hl. rewrite (Forall2_length _ _ _ Hrows) in Hl.
    apply lookup_ge_None in Hl. by rewrite Hl.
Qed.

(** One list object that is every row of the time line. *)
Lemma foldl_extend_replicate (values : nat -> list pynum) (l : positive) (n : nat) :
  forall (k : nat) (h : gmap positive (list pynum)) (row : list pynum),
    h !! l = Some row ->
    foldl (extend values) h (imap (fun i x => ((k + i)%nat, x)) (replicate n l))
    = <[ l := row ++ flat_map values (seq k n) ]> h.
Proof.
  induction n as [|n IH]; intros k h row Hrow.
  - cbn [replicate imap foldl seq flat_map]. rewrite app_nil_r.
    symmetry. by apply insert_id.
  - cbn [replicate]. rewrite imap_cons. cbn [foldl].
    rewrite (imap_ext _ (fun i x => ((S k + i)%nat, x)))
      by (intros i x _; cbn; f_equal; lia).
    assert (Hstep : extend values h ((k + 0)%nat, l) = <[ l := row ++ values k ]> h).
    { unfold extend. cbn [fst snd]. replace (k + 0)%nat with k by lia.
      apply map_eq. intros j. destruct (decide (j = l)) as [->|Hj].
      - by rewrite lookup_alter_eq, lookup_insert_eq, Hrow.
      - by rewrite lookup_alter_ne, lookup_insert_ne. }
    rewrite Hstep.
    rewrite (IH (S k) _ (row ++ values k)) by (by rewrite lookup_insert_eq).
    rewrite insert_insert_eq. cbn [seq flat_map]. by rewrite <- app_assoc.
Qed.

Section AHUMore.
Context {A V : Type}.
Variable default_path : string.
Variable mat4 : string -> list (list pynum) -> string.
Implicit Types (self : AixLib A V) (w : world).

(** The run on a time line of distinct rows of one width. *)
Lemma ahu_boundary_rows self (rows : list positive) (contents : list (list pynum))
    (width : nat) path w :
  with_ahu (parent self) = true ->
  let ahu := central_ahu (parent self) in
  length (profile_temperature ahu) = length rows ->
  length (profile_min_relative_humidity ahu) = length rows ->
  length (profile_max_relative_humidity ahu) = length rows ->
  length (profile_v_flow ahu) = length rows ->
  NoDup rows ->
  Forall2 (fun l row => lists w !! l = Some row) rows contents ->
  Forall (fun row => length row = width) contents ->
  let dir := resolve_path default_path path in
  let array := imap (fun i row => row ++ ahu_values ahu i) contents in
  modelica_AHU_boundary default_path mat4 self (Some rows) path w
  = (World (foldl (extend (ahu_values ahu)) (lists w) (enumerate rows))
           (Fs (dirs (create_path dir (disk w)))
               (<[ os_path_join dir (file_ahu self) := mat4 "AHU" array ]>
                  (files (disk w)))),
     Ok tt)
  /\ Forall (fun row => length row = (width + 4)%nat) array.
Proof.
  intros Hwith ahu H1 H2 H3 H4 Hnd Hrows Hwidth dir array.
  assert (Harray : Forall (fun row => length row = (width + 4)%nat) array).
  { apply Forall_forall. intros row Hin.
    apply elem_of_lookup_imap in Hin as (i & row0 & -> & Hi).
    rewrite length_app.
    rewrite (proj1 (Forall_forall _ _) Hwidth row0)
      by (by apply list_elem_of_lookup_2 in Hi).
    reflexivity. }
  split; [|exact Harray].
  rewrite (ahu_run default_path mat4 self rows path w Hwith H1 H2 H3 H4).
  rewrite (read_rows_extended _ rows contents) by done.
  fold ahu array. by rewrite (np_array_uniform array (width + 4)).
Qed.

(** X15. With an air-handling unit whose four profiles are as long as
    the time line, whose rows are distinct lists of one common width
    (one, for a time line from [create_profile]), [modelica_AHU_boundary]
    succeeds and stores under the name [AHU] the array whose row [i] is
    row [i] of the time line followed by the temperature, the two
    humidity bounds and the flow of step [i]; what the file held before
    is replaced, and no other file changes. *)
Theorem ahu_boundary_array self (rows : list positive) (contents : list (list pynum))
    (width : nat) path w :
  with_ahu (parent self) = true ->
  let ahu := central_ahu (parent self) in
  length (profile_temperature ahu) = length rows ->
  length (profile_min_relative_humidity ahu) = length rows ->
  length (profile_max_relative_humidity ahu) = length rows ->
  length (profile_v_flow ahu) = length rows ->
  NoDup rows ->
  Forall2 (fun l row => lists w !! l = Some row) rows contents ->
  Forall (fun row => length row = width) contents ->
  let target := os_path_join (resolve_path default_path path) (file_ahu self) in
  let array := imap (fun i row => row ++ ahu_values ahu i) contents in
  exists w',
    modelica_AHU_boundary default_path mat4 self (Some rows) path w = (w', Ok tt)
    /\ files (disk w') !! target = Some (mat4 "AHU" array)
    /\ length array = length rows
    /\ Forall (fun row => length row = (width + 4)%nat) array
    /\ (forall p, p <> target -> files (disk w') !! p = files (disk w) !! p).
Proof.
  intros Hwith ahu H1 H2 H3 H4 Hnd Hrows Hwidth target array.
  destruct (ahu_boundary_rows self rows contents width path w Hwith H1 H2 H3 H4
              Hnd Hrows Hwidth) as [Hrun Harray].
  eexists. split; [exact Hrun|]. cbn [disk files].
  split; [by rewrite lookup_insert_eq|].
  split; [unfold array; rewrite length_imap; symmetry; by eapply Forall2_length|].
  split; [exact Harray|].
  intros p Hp. by rewrite lookup_insert_ne.
Qed.

(** X16. Called without a time line, with an air-handling unit whose
    four profiles have 25 values, [modelica_AHU_boundary] builds the
    default grid of one day with [create_profile] and stores the array
    of 25 rows [3600 * i, temperature, minimal humidity, maximal
    humidity, flow]; the lists that existed before the call are left
    as they were. *)
Theorem ahu_boundary_default_grid self path w :
  with_ahu (parent self) = true ->
  let ahu := central_ahu (parent self) in
  length (profile_temperature ahu) = 25%nat ->
  length (profile_min_relative_humidity ahu) = 25%nat ->
  length (profile_max_relative_humidity ahu) = 25%nat ->
  length (profile_v_flow ahu) = 25%nat ->
  let target := os_path_join (resolve_path default_path path) (file_ahu self) in
  let array :=
    map (fun i => PyInt (Z.of_nat i * 3600) :: ahu_values ahu i) (seq 0 25) in
  exists w',
    modelica_AHU_boundary default_path mat4 self None path w = (w', Ok tt)
    /\ files (disk w') !! target = Some (mat4 "AHU" array)
    /\ (forall p, p <> target -> files (disk w') !! p = files (disk w) !! p)
    /\ (forall l row, lists w !! l = Some row -> lists w' !! l = Some row).
Proof.
  intros Hwith ahu H1 H2 H3 H4 target array.
  pose proof (ahu_none default_path mat4 self path w) as Hnone.
  pose proof (alloc_rows_spec (map (map PyInt) (time_points 3600 24)) (lists w))
    as Hspec.
  destruct (alloc_rows _ _) as [rows h].
  destruct Hnone as (Hlen & Hkeep & ->).
  destruct Hspec as (_ & Hnd & Hnew & _ & Hget).
  assert (Hrows : Forall2 (fun l row => h !! l = Some row) rows
                          (map (map PyInt) (time_points 3600 24))).
  { apply Forall2_same_length_lookup. split.
    - rewrite Hlen. reflexivity.
    - intros i l row Hl Hrow. by rewrite (Hget i l Hl). }
  destruct (ahu_boundary_rows self rows _ 1 path (World h (disk w)) Hwith
              ltac:(by rewrite Hlen) ltac:(by rewrite Hlen) ltac:(by rewrite Hlen)
              ltac:(by rewrite Hlen) Hnd Hrows ltac:(by repeat constructor))
    as [Hrun _].
  eexists. split; [exact Hrun|]. cbn [disk files lists].
  split; [by rewrite lookup_insert_eq|].
  split; [intros p Hp; by rewrite lookup_insert_ne|].
  intros l row Hl.
  destruct (enumerate_extend_lookup (ahu_values ahu) rows h Hnd) as [_ Hout].
  rewrite Hout; [by apply Hkeep|].
  intros Hin. specialize (Hnew l Hin). congruence.
Qed.

Lemma ahu_assertion_some self (rows : list positive) path w msg :
  let out := modelica_AHU_boundary default_path mat4 self (Some rows) path w in
  out.2 = Raise (AssertionError msg) ->
  files (disk out.1) = files (disk w) /\ lists out.1 = lists w.
Proof.
  intros out Hout. unfold out in *. clear out.
  destruct (with_ahu (parent self)) eqn:Hwith.
  - destruct (ahu_length_check_some default_path mat4 self rows path w Hwith)
      as (_ & _ & _ & _ & Hfit).
    revert Hout. unfold modelica_AHU_boundary. rewrite Hwith.
    repeat (destruct (decide (_ ≠ _)) as [?|?%dec_stable];
            [intros _; split; reflexivity|]).
    intros Hout. exfalso.
    destruct Hfit as [Hok|Hval]; [congruence..| |].
    + unfold modelica_AHU_boundary in Hok. rewrite Hwith in Hok.
      rewrite !decide_False in Hok by (intros Hne; apply Hne; congruence).
      rewrite Hok in Hout. discriminate Hout.
    + unfold modelica_AHU_boundary in Hval. rewrite Hwith in Hval.
      rewrite !decide_False in Hval by (intros Hne; apply Hne; congruence).
      rewrite Hval in Hout. discriminate Hout.
  - destruct (ahu_dummy_some default_path mat4 self rows path w Hwith)
      as (w' & Hrun & _).
    rewrite Hrun in Hout. discriminate Hout.
Qed.

(** X17. When [modelica_AHU_boundary] ends with an assertion error,
    nothing has been done yet: no file is written or changed and no
    list of the caller is changed; the rows of a time line that was
    passed are as they were. *)
Theorem ahu_assertion_keeps_state self (time_line : option (list positive)) path w msg :
  let out := modelica_AHU_boundary default_path mat4 self time_line path w in
  out.2 = Raise (AssertionError msg) ->
  files (disk out.1) = files (disk w)
  /\ (forall l row, lists w !! l = Some row -> lists out.1 !! l = Some row)
  /\ (forall rows, time_line = Some rows -> lists out.1 = lists w).
Proof.
  intros out Hout. unfold out in *. clear out.
  destruct time_line as [rows|].
  - destruct (ahu_assertion_some self rows path w msg Hout) as [Hfiles Hlists].
    split; [exact Hfiles|]. split; [|intros _ _; exact Hlists].
    intros l row Hl. by rewrite Hlists.
  - pose proof (ahu_none default_path mat4 self path w) as Hnone.
    destruct (alloc_rows _ _) as [rows h].
    destruct Hnone as (_ & Hkeep & Heq). rewrite Heq in Hout |- *.
    destruct (ahu_assertion_some self rows path (World h (disk w)) msg Hout)
      as [Hfiles Hlists].
    split; [exact Hfiles|]. split; [|intros rows' Hrows'; discriminate Hrows'].
    intros l row Hl. rewrite Hlists. cbn [lists]. by apply Hkeep.
Qed.

(** X18. A time line whose [n] rows are one and the same list object
    (as [[[0]] * n] makes it): every pass of the loop appends to that
    one list, which ends with the four values of every step after what
    it held, [4 * n] elements more, and the array that is stored has
    [n] equal rows of that width. *)
Theorem ahu_shared_row self (l : positive) (row : list pynum) (n : nat) path w :
  with_ahu (parent self) = true ->
  let ahu := central_ahu (parent self) in
  length (profile_temperature ahu) = n ->
  length (profile_min_relative_humidity ahu) = n ->
  length (profile_max_relative_humidity ahu) = n ->
  length (profile_v_flow ahu) = n ->
  lists w !! l = Some row ->
  let target := os_path_join (resolve_path default_path path) (file_ahu self) in
  let out := modelica_AHU_boundary default_path mat4 self (Some (replicate n l)) path w in
  let extended := row ++ flat_map (ahu_values ahu) (seq 0 n) in
  out.2 = Ok tt
  /\ lists out.1 !! l = Some extended
  /\ length extended = (length row + 4 * n)%nat
  /\ files (disk out.1) !! target = Some (mat4 "AHU" (replicate n extended)).
Proof.
  intros Hwith ahu H1 H2 H3 H4 Hrow target out extended.
  assert (Hrun : out
                 = (World (<[ l := extended ]> (lists w))
                          (Fs (dirs (create_path (resolve_path default_path path)
                                                 (disk w)))
                              (<[ target := mat4 "AHU" (replicate n extended) ]>
                                 (files (disk w)))),
                    Ok tt)).
  { unfold out.
    rewrite (ahu_run default_path mat4 self (replicate n l) path w Hwith)
      by (by rewrite length_replicate).
    fold ahu.
    pose proof (foldl_extend_replicate (ahu_values ahu) l n 0 (lists w) row Hrow)
      as Hloop.
    change (imap _ (replicate n l)) with (enumerate (replicate n l)) in Hloop.
    rewrite Hloop. fold extended.
    assert (Hread : read_rows (replicate n l) (<[ l := extended ]> (lists w))
                    = replicate n extended).
    { unfold read_rows.
      change (map ?f (replicate n l)) with (f <$> replicate n l).
      rewrite fmap_replicate. by rewrite lookup_insert_eq. }
    rewrite Hread.
    rewrite (np_array_uniform _ (length extended))
      by (apply Forall_replicate; reflexivity).
    reflexivity. }
  rewrite Hrun. cbn [fst snd lists disk files].
  split; [reflexivity|]. split; [by rewrite lookup_insert_eq|].
  split; [|by rewrite lookup_insert_eq].
  assert (Hlen : forall m k,
             length (flat_map (ahu_values ahu) (seq k m)) = (4 * m)%nat).
  { induction m as [|m IH]; intros k; [reflexivity|].
    cbn [seq flat_map]. rewrite length_app, IH.
    cbn [ahu_values profile_values length]. lia. }
  unfold extended. by rewrite length_app, Hlen.
Qed.
End AHUMore.

Lemma ahu_boundary_array_witness :
  let self := init example_building in
  let target := os_path_join (resolve_path "default" (Some "out")) (file_ahu self) in
  let array := imap (fun i row => row ++ ahu_values example_ahu i)
                    [[PyInt 0]; [PyInt 3600]; [PyInt 7200]] in
  exists w',
    modelica_AHU_boundary "default" example_mat4 self (Some example_rows) (Some "out")
                          example_world = (w', Ok tt)
    /\ files (disk w') !! target = Some (example_mat4 "AHU" array)
    /\ length array = length example_rows
    /\ Forall (fun row => length row = (1 + 4)%nat) array
    /\ (forall p, p <> target -> files (disk w') !! p = files (disk example_world) !! p).
Proof.
  apply (ahu_boundary_array "default" example_mat4 (init example_building) example_rows
           [[PyInt 0]; [PyInt 3600]; [PyInt 7200]] 1 (Some "out") example_world);
    try reflexivity.
  - unfold example_rows. repeat (apply NoDup_cons; split); try apply NoDup_nil_2;
      intros H; repeat (apply elem_of_cons in H as [H|H]; [discriminate H|]);
      by apply elem_of_nil in H.
  - repeat constructor.
  - repeat constructor.
Defined.

Lemma ahu_boundary_default_grid_witness :
  let self := init (building_with_ahu (ahu_of_lengths 25 25 25 25)) in
  let target := os_path_join (resolve_path "default" (Some "out")) (file_ahu self) in
  let array :=
    map (fun i => PyInt (Z.of_nat i * 3600)
                    :: ahu_values (ahu_of_lengths 25 25 25 25) i) (seq 0 25) in
  exists w',
    modelica_AHU_boundary "default" example_mat4 self None (Some "out") example_world
    = (w', Ok tt)
    /\ files (disk w') !! target = Some (example_mat4 "AHU" array)
    /\ (forall p, p <> target -> files (disk w') !! p = files (disk example_world) !! p)
    /\ (forall l row, lists example_world !! l = Some row -> lists w' !! l = Some row).
Proof.
  apply (ahu_boundary_default_grid "default" example_mat4
           (init (building_with_ahu (ahu_of_lengths 25 25 25 25))) (Some "out")
           example_world); reflexivity.
Defined.

Lemma ahu_assertion_keeps_state_witness :
  let out := modelica_AHU_boundary "default" example_mat4
               (init (building_with_ahu (ahu_of_lengths 3 2 3 3)))
               (Some example_rows) (Some "out") example_world in
  files (disk out.1) = files (disk example_world)
  /\ (forall l row, lists example_world !! l = Some row -> lists out.1 !! l = Some row)
  /\ (forall rows, Some example_rows = Some rows -> lists out.1 = lists example_world).
Proof.
  apply (ahu_assertion_keeps_state "default" example_mat4
           (init (building_with_ahu (ahu_of_lengths 3 2 3 3)))
           (Some example_rows) (Some "out") example_world
           "time line and input have to have the same length,profile_min_relative_humidity").
  reflexivity.
Defined.

Lemma ahu_shared_row_witness :
  let self := init example_building in
  let target := os_path_join (resolve_path "default" (Some "out")) (file_ahu self) in
  let out := modelica_AHU_boundary "default" example_mat4 self
               (Some (replicate 3 1%positive)) (Some "out") example_world in
  let extended := [PyInt 0] ++ flat_map (ahu_values example_ahu) (seq 0 3) in
  out.2 = Ok tt
  /\ lists out.1 !! 1%positive = Some extended
  /\ length extended = (length [PyInt 0] + 4 * 3)%nat
  /\ files (disk out.1) !! target = Some (example_mat4 "AHU" (replicate 3 extended)).
Proof.
  apply (ahu_shared_row "default" example_mat4 (init example_building) 1%positive
           [PyInt 0] 3 (Some "out") example_world); reflexivity.
Defined.

(** ** More on the model-file exporter *)

Section Annex60More.
Import Annex60.
Variable Template : Type.
Variable load_template : string -> fs -> result Template.
Variable render_unicode : Template -> Building -> ThermalZone -> result string.
Variable get_full_path : string -> string.
Variable create_path : string -> fs -> fs * result unit.
Variable _help_package :
  option string -> string -> option (list string) -> fs -> fs * result unit.
Variable _help_package_order :
  option string -> list string -> option string -> option string ->
  fs -> fs * result unit.
Variable os_path_join : string -> string -> string.

Local Abbreviation export_building :=
  (export_building Template render_unicode get_full_path create_path _help_package
                   _help_package_order os_path_join).
Local Abbreviation export_annex60 :=
  (export_annex60 Template load_template render_unicode get_full_path create_path
                  _help_package _help_package_order os_path_join).

(** Without a path the first building already fails, at [os.path.join]. *)
Lemma export_annex60_no_path prj (number_of_elements merge_windows : Z)
    (internal_id_ : option Z) :
  match internal_id_ with
  | Some id => filter (fun bldg => internal_id bldg = id) (buildings prj)
  | None => buildings prj
  end <> [] ->
  raises (export_annex60 prj number_of_elements merge_windows internal_id_ None).
Proof.
  intros Hne. unfold Annex60.export_annex60.
  do 3 (apply raises_bind_r; intros ?).
  apply raises_bind_l.
  destruct (match internal_id_ with Some _ => _ | None => _ end) as [|bldg bldgs];
    [done|].
  cbn [io_for_each]. apply raises_bind_l.
  unfold Annex60.export_building. apply raises_bind_l.
  intros w. by exists w, TypeError.
Qed.

Lemma quiet_bind {X Y : Type} (m : io X) (k : X -> io Y) :
  completes_quietly m -> (forall x, completes_quietly (k x)) ->
  completes_quietly (io_bind m k).
Proof.
  intros Hm Hk w. unfold io_bind.
  destruct (Hm w) as (d & x & ->).
  destruct (Hk x (World d (stdout w))) as (d' & y & ->).
  by exists d', y.
Qed.

Lemma quiet_on_disk {X : Type} (f : fs -> fs * result X) :
  (forall d, exists x, (f d).2 = Ok x) -> completes_quietly (on_disk f).
Proof.
  intros Hf w. unfold on_disk. destruct (Hf (disk w)) as [x Hx].
  destruct (f (disk w)) as [d r]. cbn [snd] in Hx. subst r. by exists d, x.
Qed.

Lemma quiet_for_each {X : Type} (body : X -> io unit) (xs : list X) :
  Forall (fun x => completes_quietly (body x)) xs ->
  completes_quietly (io_for_each body xs).
Proof.
  induction 1 as [|x xs Hx _ IH]; cbn [io_for_each].
  - intros w. exists (disk w), tt. by destruct w.
  - apply quiet_bind; [exact Hx | intros _; exact IH].
Qed.

(** The helpers do their work without an error. *)
Hypothesis create_path_ok : forall p d, (create_path p d).2 = Ok tt.
Hypothesis help_package_ok : forall p name uses d, (_help_package p name uses d).2 = Ok tt.
Hypothesis help_package_order_ok :
  forall p names addition extra d,
    (_help_package_order p names addition extra d).2 = Ok tt.

Lemma export_building_no_zones zone_template (p : string) bldg :
  thermal_zones bldg = [] ->
  completes_quietly (export_building zone_template (Some p) bldg).
Proof.
  intros Hz. unfold Annex60.export_building. rewrite Hz.
  apply quiet_bind; [intros w; exists (disk w); eexists; by destruct w|].
  intros bldg_path.
  repeat (apply quiet_bind;
          [apply quiet_on_disk; intros d; exists tt;
           first [apply create_path_ok | apply help_package_ok
                 | apply help_package_order_ok]
          |intros _]).
  cbn [io_for_each]. intros w. exists (disk w), tt. by destruct w.
Qed.

(** X19. When no exported building has a thermal zone and the helpers
    succeed, [export_annex60] completes for every number of elements
    other than 2 and prints its two closing lines: the local variable
    [zone_template] is never read. *)
Theorem export_annex60_without_zones prj (number_of_elements merge_windows : Z)
    (internal_id_ : option Z) (p : string) (w : world) :
  number_of_elements <> 2 ->
  Forall (fun bldg => thermal_zones bldg = [])
         (match internal_id_ with
          | Some id => filter (fun bldg => internal_id bldg = id) (buildings prj)
          | None => buildings prj
          end) ->
  let out := export_annex60 prj number_of_elements merge_windows internal_id_
                            (Some p) w in
  out.2 = Ok tt
  /\ stdout out.1 = stdout w ++ ["Exports can be found here:"; p].
Proof.
  intros Hn Hzones out. unfold out, Annex60.export_annex60. clear out.
  set (exported := match internal_id_ with Some _ => _ | None => _ end) in *.
  assert (Hquiet :
            completes_quietly
              (io_bind (on_disk (_help_package (Some p) (prj_name prj)
                                   (Some ["Modelica(version = " +:+ DQ +:+ "3.2.1"
                                            +:+ DQ +:+ ")";
                                          "Annex60(version=" +:+ DQ +:+ "0.1"
                                            +:+ DQ +:+ ")"])))
                 (fun _ =>
                    io_bind (on_disk (_help_package_order (Some p)
                                        (map b_name exported) None None))
                      (fun _ =>
                         io_bind (select_template Template load_template get_full_path
                                                  number_of_elements)
                           (fun zone_template =>
                              io_for_each (export_building zone_template (Some p))
                                          exported))))).
  { apply quiet_bind;
      [apply quiet_on_disk; intros d; exists tt; apply help_package_ok | intros _].
    apply quiet_bind;
      [apply quiet_on_disk; intros d; exists tt; apply help_package_order_ok
      | intros _].
    apply quiet_bind.
    - intros w0. exists (disk w0), None.
      rewrite (select_template_unsupported _ _ _ _ _ Hn). by destruct w0.
    - intros zone_template. apply quiet_for_each.
      eapply Forall_impl; [exact Hzones|].
      intros bldg Hz. by apply export_building_no_zones. }
  destruct (Hquiet w) as (d & [] & Hrun).
  unfold io_bind in Hrun |- *.
  destruct (on_disk (_help_package (Some p) (prj_name prj) _) w) as [w1 [[]|e1]];
    [|discriminate Hrun].
  destruct (on_disk (_help_package_order (Some p) (map b_name exported) None None) w1)
    as [w2 [[]|e2]]; [|discriminate Hrun].
  destruct (select_template Template load_template get_full_path number_of_elements w2)
    as [w3 [zone_template|e3]]; [|discriminate Hrun].
  rewrite Hrun. cbn. by rewrite <- app_assoc.
Qed.
End Annex60More.

(** X20. Called without a path (the default), [export_annex60] ends with
    an exception as soon as there is a building to export, whatever the
    number of elements and whatever the helpers do: [os.path.join] is
    given [None]. *)
Theorem export_annex60_needs_path
    (Template : Type)
    (load_template : string -> fs -> result Template)
    (render_unicode : Template -> Annex60.Building -> Annex60.ThermalZone -> result string)
    (get_full_path : string -> string)
    (create_path : string -> fs -> fs * result unit)
    (_help_package :
       option string -> string -> option (list string) -> fs -> fs * result unit)
    (_help_package_order :
       option string -> list string -> option string -> option string ->
       fs -> fs * result unit)
    (os_path_join : string -> string -> string)
    (prj : Annex60.Project) (number_of_elements merge_windows : Z)
    (internal_id_ : option Z) (w : Annex60.world) :
  match internal_id_ with
  | Some id => filter (fun bldg => Annex60.internal_id bldg = id) (Annex60.buildings prj)
  | None => Annex60.buildings prj
  end <> [] ->
  exists w' e,
    Annex60.export_annex60 Template load_template render_unicode get_full_path
      create_path _help_package _help_package_order os_path_join
      prj number_of_elements merge_windows internal_id_ None w
    = (w', Raise e).
Proof.
  intros Hne.
  apply (export_annex60_no_path Template load_template render_unicode get_full_path
           create_path _help_package _help_package_order os_path_join
           prj number_of_elements merge_windows internal_id_ Hne w).
Qed.

Lemma export_annex60_needs_path_witness :
  exists w' e,
    Annex60.export_annex60
      string (fun _ _ => Ok "model") (fun template _ _ => Ok template)
      (fun p => p) (fun p d => (create_path p d, Ok tt))
      (fun _ _ _ d => (d, Ok tt)) (fun _ _ _ _ d => (d, Ok tt))
      (fun a b => a +:+ "\" +:+ b)
      example_project 2 2 None None (Annex60.World empty_fs [])
    = (w', Raise e).
Proof.
  apply (export_annex60_needs_path
           string (fun _ _ => Ok "model") (fun template _ _ => Ok template)
           (fun p => p) (fun p d => (create_path p d, Ok tt))
           (fun _ _ _ d => (d, Ok tt)) (fun _ _ _ _ d => (d, Ok tt))
           (fun a b => a +:+ "\" +:+ b)
           example_project 2 2 None (Annex60.World empty_fs [])).
  discriminate.
Defined.

Lemma export_annex60_without_zones_witness :
  let out :=
    Annex60.export_annex60
      string (fun _ _ => Ok "model") (fun template _ _ => Ok template)
      (fun p => p) (fun p d => (create_path p d, Ok tt))
      (fun _ _ _ d => (d, Ok tt)) (fun _ _ _ _ d => (d, Ok tt))
      (fun a b => a +:+ "\" +:+ b)
      example_project_no_zones 1 2 None (Some "out") (Annex60.World empty_fs []) in
  out.2 = Ok tt
  /\ Annex60.stdout out.1 = [] ++ ["Exports can be found here:"; "out"].
Proof.
  apply (export_annex60_without_zones
           string (fun _ _ => Ok "model") (fun template _ _ => Ok template)
           (fun p => p) (fun p d => (create_path p d, Ok tt))
           (fun _ _ _ d => (d, Ok tt)) (fun _ _ _ _ d => (d, Ok tt))
           (fun a b => a +:+ "\" +:+ b)
           (fun _ _ => eq_refl) (fun _ _ _ _ => eq_refl) (fun _ _ _ _ _ => eq_refl)
           example_project_no_zones 1 2 None "out" (Annex60.World empty_fs [])).
  - discriminate.
  - repeat constructor.
Defined.

(** ** The set-point exporters and zones that share a name *)

Lemma replace_column_names {V : Type} (key : string) (value : list V)
    (cols : list (string * option (list V))) :
  (map (fun kc : string * option (list V) =>
          if decide (kc.1 = key) then (key, Some value) else kc) cols).*1
  = cols.*1.
Proof.
  induction cols as [|kc cols IH]; [reflexivity|].
  cbn [map fmap list_fmap]. f_equal; [|exact IH].
  by destruct (decide (kc.1 = key)).
Qed.

Section SharedNames.
Context {A V : Type}.
Variable default_path : string.
Variable fmt : V -> string.
Implicit Types (zones : list (ThermalZone A V)) (self : AixLib A V).

Section AnyNames.
Variable sel : ThermalZone A V -> list V.

(** The loop over the zones on a table that has a column for every
    zone name: a column ends with the profile of the last zone of its
    name. *)
Lemma set_columns_any index (cols : list (string * option (list V))) zones :
  Forall (fun zone => length (sel zone) = length index) zones ->
  Forall (fun zone => zone_name zone ∈ cols.*1) zones ->
  for_each (fun export zone => df_setitem (zone_name zone) (sel zone) export)
           {| df_index := index; df_columns := cols |} zones
  = Ok {| df_index := index;
          df_columns :=
            map (fun kc : string * option (list V) =>
                   (kc.1, match last (filter (fun z => zone_name z = kc.1) zones) with
                          | Some z => Some (sel z)
                          | None => kc.2
                          end)) cols |}.
Proof.
  revert cols. induction zones as [|zone zones IH]; intros cols Hlen Hin.
  - cbn [for_each]. do 2 f_equal.
    transitivity (map id cols); [by rewrite List.map_id|].
    apply List.map_ext. by intros [k c].
  - apply Forall_cons in Hlen as [Hl Hlen]. apply Forall_cons in Hin as [Hk Hin].
    cbn [for_each]. unfold df_setitem at 1. cbn [df_index df_columns].
    rewrite !decide_True by done.
    rewrite IH; [|done|by rewrite replace_column_names].
    do 2 f_equal. rewrite List.map_map. apply List.map_ext. intros [k c].
    cbn [fst snd]. rewrite filter_cons.
    destruct (decide (k = zone_name zone)) as [->|Hne].
    + cbn [fst snd]. rewrite decide_True by done. rewrite last_cons.
      by destruct (last _).
    + cbn [fst snd]. by rewrite decide_False by congruence.
Qed.

Lemma set_columns_shared index zones :
  Forall (fun zone => length (sel zone) = length index) zones ->
  for_each (fun export zone => df_setitem (zone_name zone) (sel zone) export)
           (new_frame index (map zone_name zones)) zones
  = Ok {| df_index := index;
          df_columns :=
            map (fun zone => (zone_name zone, Some (sel (last_of_name zones zone))))
                zones |}.
Proof.
  intros Hlen. unfold new_frame. rewrite set_columns_any; [|done|].
  - do 2 f_equal. rewrite !List.map_map. apply List.map_ext_in.
    intros zone Hzone. cbn [fst snd]. unfold last_of_name.
    destruct (last _) as [z|] eqn:Hlast; [reflexivity|].
    apply last_None in Hlast.
    assert (Hin : zone ∈ filter (fun z => zone_name z = zone_name zone) zones)
      by (apply list_elem_of_filter; split; [done | by apply list_elem_of_In]).
    rewrite Hlast in Hin. by apply elem_of_nil in Hin.
  - apply Forall_forall. intros zone Hzone.
    rewrite <- list_fmap_compose. apply list_elem_of_fmap.
    exists (zone_name zone). split; [reflexivity|].
    apply list_elem_of_fmap. by exists zone.
Qed.

Lemma finish_shared (loop : result (DataFrame V)) target w0 zones :
  loop = Ok {| df_index := date_range_2019 hours_of_year;
               df_columns :=
                 map (fun zone => (zone_name zone, Some (sel (last_of_name zones zone))))
                     zones |} ->
  exists w',
    match loop with
    | Raise e => (w0, Raise e)
    | Ok export =>
        match df_set_index seconds_index export with
        | Raise e => (w0, Raise e)
        | Ok export =>
            (write_matrix fmt target "Tset" (Z.of_nat (length zones) + 1) export w0,
             Ok tt)
        end
    end = (w', Ok tt)
    /\ files w' !! target
       = Some (default EmptyString (files w0 !! target)
                 +:+ matrix_text fmt "Tset"
                       (map (fun zone => sel (last_of_name zones zone)) zones))
    /\ (forall p, p <> target -> files w' !! p = files w0 !! p).
Proof.
  intros Hloop.
  apply (finish_matrix fmt loop target "Tset" _ w0
           (map (fun zone => sel (last_of_name zones zone)) zones) _ Hloop).
  - by rewrite <- !list_fmap_compose.
  - by rewrite length_map.
Qed.
End AnyNames.

Lemma last_of_name_spec zones (zone : ThermalZone A V) :
  zone ∈ zones ->
  zone_name (last_of_name zones zone) = zone_name zone
  /\ last_of_name zones zone ∈ zones
  /\ (forall before after,
        zones = before ++ zone :: after ->
        Forall (fun z => zone_name z <> zone_name zone) after ->
        last_of_name zones zone = zone).
Proof.
  intros Hzone. unfold last_of_name.
  split; [|split].
  - destruct (last _) as [z|] eqn:Hlast; [|reflexivity].
    apply last_Some_elem_of, list_elem_of_filter in Hlast as [Hname _]. exact Hname.
  - destruct (last _) as [z|] eqn:Hlast; [|exact Hzone].
    by apply last_Some_elem_of, list_elem_of_filter in Hlast as [_ Hin].
  - intros before after -> Hafter.
    rewrite filter_app, filter_cons_True by done.
    assert (Hnone : filter (fun z => zone_name z = zone_name zone) after = []).
    { clear Hzone. induction Hafter as [|z after Hz _ IH]; [reflexivity|].
      by rewrite filter_cons_False. }
    rewrite Hnone. by rewrite last_snoc.
Qed.

(** X21. With set-point profiles of length 8760 and whatever the zone
    names, the heating and the cooling exporter succeed and write one
    column per zone; but the column of a zone holds the profile of the
    last zone that has its name, since an assignment to a name fills
    every column of that name.  A zone that no later zone shares its
    name with gets its own profile. *)
Theorem set_temp_shared_names self path w :
  let zones := thermal_zones (parent self) in
  let dir := resolve_path default_path path in
  (Forall (fun zone => length (heating_profile (use_conditions zone)) = Z.to_nat 8760)
          zones ->
   exists w',
     modelica_set_temp default_path fmt self path w = (w', Ok tt)
     /\ files w' !! os_path_join dir (file_set_t_heat self)
        = Some (default EmptyString (files w !! os_path_join dir (file_set_t_heat self))
                  +:+ matrix_text fmt "Tset"
                        (map (fun zone =>
                                heating_profile
                                  (use_conditions (last_of_name zones zone))) zones)))
  /\ (Forall (fun zone => length (cooling_profile (use_conditions zone)) = Z.to_nat 8760)
             zones ->
      exists w',
        modelica_set_temp_cool default_path fmt self path w = (w', Ok tt)
        /\ files w' !! os_path_join dir (file_set_t_cool self)
           = Some (default EmptyString
                     (files w !! os_path_join dir (file_set_t_cool self))
                     +:+ matrix_text fmt "Tset"
                           (map (fun zone =>
                                   cooling_profile
                                     (use_conditions (last_of_name zones zone))) zones)))
  /\ (forall zone,
        zone ∈ zones ->
        zone_name (last_of_name zones zone) = zone_name zone
        /\ last_of_name zones zone ∈ zones
        /\ (forall before after,
              zones = before ++ zone :: after ->
              Forall (fun z => zone_name z <> zone_name zone) after ->
              last_of_name zones zone = zone)).
Proof.
  intros zones dir. split; [|split].
  - intros Hlen.
    pose proof (set_columns_shared (fun zone => heating_profile (use_conditions zone))
                  (date_range_2019 hours_of_year) zones) as Hloop.
    rewrite length_date_range in Hloop. specialize (Hloop Hlen).
    destruct (finish_shared (fun zone => heating_profile (use_conditions zone)) _
                (os_path_join dir (file_set_t_heat self)) (create_path dir w) zones Hloop)
      as (w' & Hrun & Hfile & _).
    exists w'. split; [exact Hrun | exact Hfile].
  - intros Hlen.
    pose proof (set_columns_shared (fun zone => cooling_profile (use_conditions zone))
                  (date_range_2019 hours_of_year) zones) as Hloop.
    rewrite length_date_range in Hloop. specialize (Hloop Hlen).
    destruct (finish_shared (fun zone => cooling_profile (use_conditions zone)) _
                (os_path_join dir (file_set_t_cool self)) (create_path dir w) zones Hloop)
      as (w' & Hrun & Hfile & _).
    exists w'. split; [exact Hrun | exact Hfile].
  - intros zone Hzone. by apply last_of_name_spec.
Qed.
End SharedNames.

Lemma set_temp_shared_names_witness :
  let zones := thermal_zones example_building_twins in
  exists w',
    modelica_set_temp "default" str_of_Z (init example_building_twins) (Some "out")
                      empty_fs = (w', Ok tt)
    /\ files w' !! "out/TsetHeat_B6.txt"
       = Some (default EmptyString (files empty_fs !! "out/TsetHeat_B6.txt")
                 +:+ matrix_text str_of_Z "Tset"
                       (map (fun zone : ThermalZone Z Z =>
                               heating_profile (use_conditions (last_of_name zones zone)))
                            zones)).
Proof.
  destruct (set_temp_shared_names "default" str_of_Z (init example_building_twins)
              (Some "out") empty_fs) as [Hheat _].
  apply Hheat. repeat constructor.
Defined.

(** In the example both columns hold the profile of the second zone. *)
Lemma shared_names_columns_example :
  map (fun zone : ThermalZone Z Z =>
         heating_profile (use_conditions (last_of_name (thermal_zones example_building_twins)
                                                       zone)) !! 0%nat)
      (thermal_zones example_building_twins)
  = [Some 290; Some 290].
Proof. vm_compute. reflexivity. Qed.

(** ** The model-file exporter when rendering fails *)

Section Annex60Render.
Import Annex60.
Variable Template : Type.
Variable load_template : string -> fs -> result Template.
Variable render_unicode : Template -> Building -> ThermalZone -> result string.
Variable get_full_path : string -> string.
Variable create_path : string -> fs -> fs * result unit.
Variable _help_package :
  option string -> string -> option (list string) -> fs -> fs * result unit.
Variable _help_package_order :
  option string -> list string -> option string -> option string ->
  fs -> fs * result unit.
Variable os_path_join : string -> string -> string.
Variable template : Template.

(** The template loads and the helpers do their work without an error. *)
Hypothesis load_template_ok : forall p d, load_template p d = Ok template.
Hypothesis create_path_ok : forall p d, (create_path p d).2 = Ok tt.
Hypothesis help_package_ok : forall p name uses d, (_help_package p name uses d).2 = Ok tt.
Hypothesis help_package_order_ok :
  forall p names addition extra d,
    (_help_package_order p names addition extra d).2 = Ok tt.

Local Abbreviation export_annex60 :=
  (export_annex60 Template load_template render_unicode get_full_path create_path
                  _help_package _help_package_order os_path_join).

(** The outcome of a computation: an exception [e] in a world that
    satisfies [P]. *)
Local Abbreviation fails_with e P out := (exists w', out = (w', Raise e) /\ P w').

Lemma fails_bind_l {X Y : Type} (m : io X) (k : X -> io Y) (w : world) (e : exn)
    (P : world -> Prop) :
  fails_with e P (m w) -> fails_with e P (io_bind m k w).
Proof. intros (w' & Hm & HP). exists w'. unfold io_bind. by rewrite Hm. Qed.

Lemma fails_after_quiet {X Y : Type} (m : io X) (k : X -> io Y) (w : world) (e : exn)
    (P : world -> Prop) :
  completes_quietly m ->
  (forall d x, fails_with e P (k x (World d (stdout w)))) ->
  fails_with e P (io_bind m k w).
Proof.
  intros Hm Hk. unfold io_bind. destruct (Hm w) as (d & x & ->). apply Hk.
Qed.

Ltac helper_step :=
  apply fails_after_quiet;
  [ apply quiet_on_disk; intros ?; exists tt;
    first [apply create_path_ok | apply help_package_ok | apply help_package_order_ok]
  | intros ? _; cbn [stdout] ].

(** X22. With the two-element template, when rendering the first zone
    of the first building fails, [export_annex60] ends with that
    exception after the model file of the zone has been opened for
    writing: the file is left empty, whatever it held before, and the
    closing lines are not printed. *)
Theorem export_annex60_render_error prj (merge_windows : Z) (p : string)
    bldg bldgs zone zones (e : exn) (w : world) :
  buildings prj = bldg :: bldgs ->
  thermal_zones bldg = zone :: zones ->
  render_unicode template bldg zone = Raise e ->
  let out := export_annex60 prj 2 merge_windows None (Some p) w in
  let zone_path := os_path_join (os_path_join p (b_name bldg)) (b_name bldg +:+ "_Models") in
  let out_file :=
    get_full_path (zone_path +:+ "\" +:+ b_name bldg +:+ "_"
                     +:+ remove_spaces (z_name zone) +:+ ".mo") in
  out.2 = Raise e
  /\ files (disk out.1) !! out_file = Some EmptyString
  /\ stdout out.1 = stdout w.
Proof.
  intros Hb Hz Hrender out zone_path out_file.
  assert (Hout : fails_with e
                   (fun w' => files (disk w') !! out_file = Some EmptyString
                              /\ stdout w' = stdout w) out).
  { unfold out, Annex60.export_annex60. rewrite Hb.
    helper_step. helper_step.
    unfold io_bind at 1, select_template. cbn [Z.eqb Pos.eqb].
    rewrite load_template_ok. cbn [mbind result_bind].
    apply fails_bind_l. cbn [io_for_each]. apply fails_bind_l.
    unfold Annex60.export_building.
    unfold io_bind at 1, io_lift.
    do 4 helper_step.
    rewrite Hz. cbn [io_for_each]. apply fails_bind_l.
    unfold Annex60.export_zone. fold zone_path out_file.
    unfold io_bind, on_disk, read_zone_template, io_ret, io_lift.
    cbn [disk stdout]. rewrite Hrender.
    eexists. split; [reflexivity|]. cbn [disk stdout files open_write].
    split; [by rewrite lookup_insert_eq | reflexivity]. }
  destruct Hout as (w' & -> & Hfile & Hstdout). by cbn [fst snd].
Qed.
End Annex60Render.

Lemma export_annex60_render_error_witness :
  let out :=
    Annex60.export_annex60
      string (fun _ _ => Ok "model") (fun _ _ _ => Raise (ValueError "template"))
      (fun p => p) (fun p d => (create_path p d, Ok tt))
      (fun _ _ _ d => (d, Ok tt)) (fun _ _ _ _ d => (d, Ok tt))
      (fun a b => a +:+ "\" +:+ b)
      example_project 2 2 None (Some "out")
      (Annex60.World (Fs ∅ {[ "out\B\B_Models\B_LivingRoom.mo" := "old model" ]}) []) in
  out.2 = Raise (ValueError "template")
  /\ files (Annex60.disk out.1) !! "out\B\B_Models\B_LivingRoom.mo" = Some EmptyString
  /\ Annex60.stdout out.1 = [].
Proof.
  apply (export_annex60_render_error
           string (fun _ _ => Ok "model") (fun _ _ _ => Raise (ValueError "template"))
           (fun p => p) (fun p d => (create_path p d, Ok tt))
           (fun _ _ _ d => (d, Ok tt)) (fun _ _ _ _ d => (d, Ok tt))
           (fun a b => a +:+ "\" +:+ b) "model"
           (fun _ _ => eq_refl) (fun _ _ => eq_refl) (fun _ _ _ _ => eq_refl)
           (fun _ _ _ _ _ => eq_refl)
           example_project 2 "out"
           {| Annex60.b_name := "B";
              Annex60.internal_id := 1;
              Annex60.thermal_zones := [ {| Annex60.z_name := "Living Room" |} ] |}
           [] {| Annex60.z_name := "Living Room" |} [] (ValueError "template")
           (Annex60.World (Fs ∅ {[ "out\B\B_Models\B_LivingRoom.mo" := "old model" ]}) []));
    reflexivity.
Defined.

(** ** The model-file exporter with the two-element template *)

Section Annex60Models.
Import Annex60.
Variable Template : Type.
Variable load_template : string -> fs -> result Template.
Variable render_unicode : Template -> Building -> ThermalZone -> result string.
Variable get_full_path : string -> string.
Variable create_path : string -> fs -> fs * result unit.
Variable _help_package :
  option string -> string -> option (list string) -> fs -> fs * result unit.
Variable _help_package_order :
  option string -> list string -> option string -> option string ->
  fs -> fs * result unit.
Variable os_path_join : string -> string -> string.
Variable template : Template.
Variable text_of : Building -> ThermalZone -> string.
(** The files that the helpers leave alone. *)
Variable protected : string -> Prop.
Variable p : string.                       (* the export path *)

(** The template loads and renders, and the helpers do their work
    without an error and without touching a protected file. *)
Hypothesis load_template_ok : forall q d, load_template q d = Ok template.
Hypothesis render_ok : forall bldg zone,
    render_unicode template bldg zone = Ok (text_of bldg zone).
Hypothesis create_path_ok : forall q d, (create_path q d).2 = Ok tt.
Hypothesis help_package_ok :
  forall q name uses d, (_help_package q name uses d).2 = Ok tt.
Hypothesis help_package_order_ok :
  forall q names addition extra d,
    (_help_package_order q names addition extra d).2 = Ok tt.
Hypothesis create_path_keeps : forall f, protected f ->
  forall q d, files (create_path q d).1 !! f = files d !! f.
Hypothesis help_package_keeps : forall f, protected f ->
  forall q name uses d, files (_help_package q name uses d).1 !! f = files d !! f.
Hypothesis help_package_order_keeps : forall f, protected f ->
  forall q names addition extra d,
    files (_help_package_order q names addition extra d).1 !! f = files d !! f.

Local Abbreviation export_zone :=
  (export_zone Template render_unicode get_full_path _help_package
               _help_package_order os_path_join).
Local Abbreviation export_building :=
  (export_building Template render_unicode get_full_path create_path _help_package
                   _help_package_order os_path_join).
Local Abbreviation export_annex60 :=
  (export_annex60 Template load_template render_unicode get_full_path create_path
                  _help_package _help_package_order os_path_join).
Local Abbreviation file_of := (model_file get_full_path os_path_join p).

Lemma bind_on_disk {Y : Type} (f : fs -> fs * result unit) (k : unit -> io Y)
    (w : world) :
  (forall d, (f d).2 = Ok tt) ->
  io_bind (on_disk f) k w = k tt (World (f (disk w)).1 (stdout w)).
Proof.
  intros Hf. unfold io_bind, on_disk. specialize (Hf (disk w)).
  destruct (f (disk w)) as [d r]. cbn [snd] in Hf. by subst r.
Qed.

Lemma on_disk_step (f : fs -> fs * result unit) (w : world) :
  (forall d, (f d).2 = Ok tt) ->
  on_disk f w = (World (f (disk w)).1 (stdout w), Ok tt).
Proof.
  intros Hf. unfold on_disk. specialize (Hf (disk w)).
  destruct (f (disk w)) as [d r]. cbn [snd] in Hf. by subst r.
Qed.

(** One zone: its file holds the rendered text afterwards. *)
Lemma export_zone_ok bldg zone (w0 : world) :
  protected (file_of bldg zone) ->
  exists w1,
    export_zone (Some template) bldg (os_path_join p (b_name bldg)) zone w0
    = (w1, Ok tt)
    /\ stdout w1 = stdout w0
    /\ files (disk w1) !! file_of bldg zone = Some (text_of bldg zone)
    /\ (forall f, protected f -> f <> file_of bldg zone ->
          files (disk w1) !! f = files (disk w0) !! f).
Proof.
  intros Hprot. unfold Annex60.export_zone.
  change (get_full_path _) with (file_of bldg zone).
  rewrite bind_on_disk by reflexivity.
  unfold io_bind at 1, read_zone_template, io_ret.
  unfold io_bind at 1, io_lift. rewrite render_ok.
  rewrite bind_on_disk by reflexivity.
  rewrite bind_on_disk by (intros d; apply help_package_ok).
  rewrite on_disk_step by (intros d; apply help_package_order_ok).
  eexists. split; [reflexivity|]. cbn [stdout disk fst].
  split; [reflexivity|]. split.
  - rewrite help_package_order_keeps, help_package_keeps by done.
    cbn [write open_write files]. by rewrite !lookup_insert_eq.
  - intros f Hf Hne.
    rewrite help_package_order_keeps, help_package_keeps by done.
    cbn [write open_write files]. by rewrite !lookup_insert_ne.
Qed.

Lemma export_zones_ok bldg zones (w0 : world) :
  NoDup (map (file_of bldg) zones) ->
  Forall (fun zone => protected (file_of bldg zone)) zones ->
  exists w1,
    io_for_each (export_zone (Some template) bldg (os_path_join p (b_name bldg)))
                zones w0 = (w1, Ok tt)
    /\ stdout w1 = stdout w0
    /\ (forall zone, zone ∈ zones ->
          files (disk w1) !! file_of bldg zone = Some (text_of bldg zone))
    /\ (forall f, protected f -> f ∉ map (file_of bldg) zones ->
          files (disk w1) !! f = files (disk w0) !! f).
Proof.
  revert w0. induction zones as [|zone zones IH]; intros w0 Hnd Hprot.
  - exists w0. split; [reflexivity|]. split; [reflexivity|].
    split; [intros zone Hin; by apply elem_of_nil in Hin | done].
  - cbn [map] in Hnd. apply NoDup_cons in Hnd as [Hfresh Hnd].
    apply Forall_cons in Hprot as [Hp Hprot].
    destruct (export_zone_ok bldg zone w0 Hp) as (wa & Hrun & Hout & Hfile & Hother).
    destruct (IH wa Hnd Hprot) as (w1 & Hrun1 & Hout1 & Hfiles1 & Hother1).
    exists w1. cbn [io_for_each]. unfold io_bind. rewrite Hrun.
    split; [exact Hrun1|]. split; [congruence|]. split.
    + intros z [->|Hin]%elem_of_cons.
      * by rewrite Hother1.
      * by apply Hfiles1.
    + intros f Hf Hnot. cbn [map] in Hnot.
      apply not_elem_of_cons in Hnot as [Hne Hnot].
      by rewrite Hother1, Hother.
Qed.

Lemma export_building_ok bldg (w0 : world) :
  NoDup (map (file_of bldg) (thermal_zones bldg)) ->
  Forall (fun zone => protected (file_of bldg zone)) (thermal_zones bldg) ->
  exists w1,
    export_building (Some template) (Some p) bldg w0 = (w1, Ok tt)
    /\ stdout w1 = stdout w0
    /\ (forall zone, zone ∈ thermal_zones bldg ->
          files (disk w1) !! file_of bldg zone = Some (text_of bldg zone))
    /\ (forall f, protected f -> f ∉ map (file_of bldg) (thermal_zones bldg) ->
          files (disk w1) !! f = files (disk w0) !! f).
Proof.
  intros Hnd Hprot. unfold Annex60.export_building.
  unfold io_bind at 1, io_lift.
  rewrite !bind_on_disk
    by (intros d; first [apply create_path_ok | apply help_package_ok
                        | apply help_package_order_ok]).
  cbn [disk stdout].
  match goal with
  | |- context [io_for_each _ _ ?w] =>
      destruct (export_zones_ok bldg (thermal_zones bldg) w Hnd Hprot)
        as (w1 & Hrun & Hout & Hfiles & Hother)
  end.
  exists w1. split; [exact Hrun|]. split; [exact Hout|]. split; [exact Hfiles|].
  intros f Hf Hnot. rewrite (Hother f Hf Hnot). cbn [disk].
  by rewrite help_package_order_keeps, help_package_keeps, !create_path_keeps.
Qed.

Lemma export_buildings_ok (bldgs : list Building) (w0 : world) :
  NoDup (flat_map (fun bldg => map (file_of bldg) (thermal_zones bldg)) bldgs) ->
  Forall (fun bldg => Forall (fun zone => protected (file_of bldg zone))
                             (thermal_zones bldg)) bldgs ->
  exists w1,
    io_for_each (export_building (Some template) (Some p)) bldgs w0 = (w1, Ok tt)
    /\ stdout w1 = stdout w0
    /\ (forall bldg zone, bldg ∈ bldgs -> zone ∈ thermal_zones bldg ->
          files (disk w1) !! file_of bldg zone = Some (text_of bldg zone))
    /\ (forall f, protected f ->
          f ∉ flat_map (fun bldg => map (file_of bldg) (thermal_zones bldg)) bldgs ->
          files (disk w1) !! f = files (disk w0) !! f).
Proof.
  revert w0. induction bldgs as [|bldg bldgs IH]; intros w0 Hnd Hprot.
  - exists w0. split; [reflexivity|]. split; [reflexivity|].
    split; [intros bldg zone Hin; by apply elem_of_nil in Hin | done].
  - cbn [flat_map] in Hnd. apply NoDup_app in Hnd as (Hnd1 & Hdisj & Hnd2).
    apply Forall_cons in Hprot as [Hp Hprot].
    destruct (export_building_ok bldg w0 Hnd1 Hp)
      as (wa & Hrun & Hout & Hfiles & Hother).
    destruct (IH wa Hnd2 Hprot) as (w1 & Hrun1 & Hout1 & Hfiles1 & Hother1).
    exists w1. cbn [io_for_each]. unfold io_bind. rewrite Hrun.
    split; [exact Hrun1|]. split; [congruence|]. split.
    + intros b zone [->|Hin]%elem_of_cons Hzone.
      * rewrite Hother1; [by apply Hfiles| |].
        -- by apply (proj1 (Forall_forall _ _) Hp).
        -- apply Hdisj. apply list_elem_of_fmap. by exists zone.
      * by apply Hfiles1.
    + intros f Hf Hnot. cbn [flat_map] in Hnot.
      apply not_elem_of_app in Hnot as [Hnot1 Hnot2].
      by rewrite Hother1, Hother.
Qed.

(** X23. With the two-element template, when the template loads and
    renders, the helpers succeed and leave the model files alone and
    no two zones have the same model file, [export_annex60] completes,
    the model file of every zone of every exported building holds the
    text rendered for that building and zone, and the two closing
    lines are printed. *)
Theorem export_annex60_two_elements prj (merge_windows : Z) (internal_id_ : option Z)
    (w : world) :
  let exported :=
    match internal_id_ with
    | Some id => filter (fun bldg => internal_id bldg = id) (buildings prj)
    | None => buildings prj
    end in
  NoDup (flat_map (fun bldg => map (file_of bldg) (thermal_zones bldg)) exported) ->
  Forall (fun bldg => Forall (fun zone => protected (file_of bldg zone))
                             (thermal_zones bldg)) exported ->
  let out := export_annex60 prj 2 merge_windows internal_id_ (Some p) w in
  out.2 = Ok tt
  /\ stdout out.1 = stdout w ++ ["Exports can be found here:"; p]
  /\ (forall bldg zone, bldg ∈ exported -> zone ∈ thermal_zones bldg ->
        files (disk out.1) !! file_of bldg zone = Some (text_of bldg zone)).
Proof.
  intros exported Hnd Hprot out.
  assert (Hall : exists w1,
             out = (World (disk w1) (stdout w ++ ["Exports can be found here:"; p]),
                    Ok tt)
             /\ (forall bldg zone, bldg ∈ exported -> zone ∈ thermal_zones bldg ->
                   files (disk w1) !! file_of bldg zone = Some (text_of bldg zone))).
  { unfold out, Annex60.export_annex60. fold exported.
    rewrite !bind_on_disk
      by (intros d; first [apply help_package_ok | apply help_package_order_ok]).
    unfold io_bind at 1, select_template. cbn [Z.eqb Pos.eqb].
    rewrite load_template_ok. cbn [mbind result_bind].
    unfold io_bind at 1.
    match goal with
    | |- context [io_for_each _ _ ?w0] =>
        destruct (export_buildings_ok exported w0 Hnd Hprot)
          as (w1 & Hrun & Hout & Hfiles & _)
    end.
    rewrite Hrun. unfold io_bind, print. cbn [fst snd stdout disk default id].
    exists w1. split; [|exact Hfiles].
    rewrite Hout. cbn [stdout]. by rewrite <- app_assoc. }
  destruct Hall as (w1 & -> & Hfiles). cbn [fst snd stdout disk].
  split; [reflexivity|]. split; [reflexivity | exact Hfiles].
Qed.
End Annex60Models.

Lemma export_annex60_two_elements_witness :
  let render (template : string) (bldg : Annex60.Building) (zone : Annex60.ThermalZone) :=
    Ok (template +:+ " " +:+ Annex60.b_name bldg +:+ " " +:+ Annex60.z_name zone) in
  let out :=
    Annex60.export_annex60
      string (fun _ _ => Ok "model") render
      (fun q => q) (fun q d => (create_path q d, Ok tt))
      (fun _ _ _ d => (d, Ok tt)) (fun _ _ _ _ d => (d, Ok tt))
      (fun a b => a +:+ "\" +:+ b)
      example_project_two 2 2 None (Some "out") (Annex60.World empty_fs []) in
  out.2 = Ok tt
  /\ Annex60.stdout out.1 = [] ++ ["Exports can be found here:"; "out"]
  /\ (forall bldg zone,
        bldg ∈ Annex60.buildings example_project_two ->
        zone ∈ Annex60.thermal_zones bldg ->
        files (Annex60.disk out.1)
          !! model_file (fun q => q) (fun a b => a +:+ "\" +:+ b) "out" bldg zone
        = Some ("model" +:+ " " +:+ Annex60.b_name bldg +:+ " " +:+ Annex60.z_name zone)).
Proof.
  intros render.
  apply (export_annex60_two_elements
           string (fun _ _ => Ok "model") render
           (fun q => q) (fun q d => (create_path q d, Ok tt))
           (fun _ _ _ d => (d, Ok tt)) (fun _ _ _ _ d => (d, Ok tt))
           (fun a b => a +:+ "\" +:+ b) "model"
           (fun bldg zone => "model" +:+ " " +:+ Annex60.b_name bldg +:+ " "
                               +:+ Annex60.z_name zone)
           (fun _ => True) "out"
           (fun _ _ => eq_refl) (fun _ _ => eq_refl) (fun _ _ => eq_refl)
           (fun _ _ _ _ => eq_refl) (fun _ _ _ _ _ => eq_refl)
           (fun _ _ _ _ => eq_refl) (fun _ _ _ _ _ _ => eq_refl)
           (fun _ _ _ _ _ _ _ => eq_refl)
           example_project_two 2 None (Annex60.World empty_fs [])).
  - cbn. repeat (apply NoDup_cons; split); try apply NoDup_nil_2;
      intros H; repeat (apply elem_of_cons in H as [H|H]; [discriminate H|]);
      by apply elem_of_nil in H.
  - repeat constructor.
Defined.

(** The three model files of the example. *)
Lemma export_annex60_two_elements_example :
  let out :=
    Annex60.export_annex60
      string (fun _ _ => Ok "model")
      (fun template bldg zone =>
         Ok (template +:+ " " +:+ Annex60.b_name bldg +:+ " " +:+ Annex60.z_name zone))
      (fun q => q) (fun q d => (create_path q d, Ok tt))
      (fun _ _ _ d => (d, Ok tt)) (fun _ _ _ _ d => (d, Ok tt))
      (fun a b => a +:+ "\" +:+ b)
      example_project_two 2 2 None (Some "out") (Annex60.World empty_fs []) in
  files (Annex60.disk out.1) !! "out\B\B_Models\B_LivingRoom.mo"
  = Some "model B Living Room"
  /\ files (Annex60.disk out.1) !! "out\B\B_Models\B_Kitchen.mo" = Some "model B Kitchen"
  /\ files (Annex60.disk out.1) !! "out\C\C_Models\C_Office.mo" = Some "model C Office".
Proof. vm_compute. repeat split. Qed.
